(** * Dark Earth Carbon: the carbon accounting engine

    A shallow embedding of [carbon-dashboard/app.py] (the later of the two
    accounting implementations) and of the order loop and the carbon-cost
    loop of [carbon-calculator/app.py] (the earlier one), with the
    properties the specification states about them.

    Conventions of the embedding.
    - Python [float] is IEEE 754 binary64: Rocq's primitive [float], with
      the same operations and the same rounding.  Firestore numeric fields
      are read as doubles: an integer field is taken at its double value,
      which is what Python's arithmetic makes of it in every formula below
      (each ends in a quotient, and an integer below 2^53 converts
      exactly).
    - A Firestore document is a record whose fields are [option]s: [None]
      is what [dict.get] answers for an absent (or null) field.
    - A pandas data frame is the list of its rows; [pd.concat] with
      [ignore_index=True] appends one row.
    - A Python exception is the [Raise] outcome of the [Py] monad, which
      threads the module-level caches of the resolvers. *)

From Stdlib Require Import ZArith String Ascii List Floats Lia.
From stdpp Require Import base option strings gmap.

Local Open Scope string_scope.
Local Open Scope Z_scope.

(** ** Python exceptions and the interpreter monad *)

Inductive exn : Type :=
  | ValueError (msg : string)
  | TypeError
  | AttributeError
  | IndexError
  | UnboundLocalError.

Inductive outcome (A : Type) : Type :=
  | Return (a : A)
  | Raise (e : exn).

Arguments Return {A} a.
Arguments Raise {A} e.

Definition returned {A : Type} (o : outcome A) : bool :=
  match o with Return _ => true | Raise _ => false end.

(** ** Timestamps and [convert_to_gmt3] *)

(** An aware [datetime], as Python keeps it: the wall-clock time of its
    own zone, in microseconds since 1970-01-01 00:00 of that zone, and the
    UTC offset of its [tzinfo], in seconds. *)
Record datetime : Type := mk_datetime {
  wall : Z;
  utcoffset : Z
}.

(** The instant a [datetime] denotes, in microseconds since the Unix
    epoch: what comparisons and Firestore's range filters look at. *)
Definition instant (d : datetime) : Z := wall d - utcoffset d * 1000000.

(** [pytz.timezone('Etc/GMT-3')]: three hours east of Greenwich. *)
Definition gmt3_timezone : Z := 3 * 3600.

(** [datetime.astimezone(tz)]: the same instant, on the clock of [tz]. *)
Definition astimezone (tz : Z) (d : datetime) : datetime :=
  {| wall := instant d + tz * 1000000; utcoffset := tz |}.

(** Days since 1970-01-01 of the calendar date a [datetime] shows. *)
Definition local_day (d : datetime) : Z := wall d / (86400 * 1000000).

(** The proleptic Gregorian date of a day number, as [datetime] keeps it. *)
Definition civil_of_days (days : Z) : Z * Z * Z :=
  let z := days + 719468 in
  let era := z / 146097 in
  let doe := z - era * 146097 in
  let yoe := (doe - doe / 1460 + doe / 36524 - doe / 146096) / 365 in
  let doy := doe - (365 * yoe + yoe / 4 - yoe / 100) in
  let mp := (5 * doy + 2) / 153 in
  let day := doy - (153 * mp + 2) / 5 + 1 in
  let month := if mp <? 10 then mp + 3 else mp - 9 in
  let year := yoe + era * 400 + (if month <=? 2 then 1 else 0) in
  (year, month, day).

Definition digit (n : Z) : string :=
  String (ascii_of_nat (48 + Z.to_nat (n mod 10))) EmptyString.

Definition two_digits (n : Z) : string := digit (n / 10) ++ digit n.

Definition four_digits (n : Z) : string :=
  digit (n / 1000) ++ digit (n / 100) ++ digit (n / 10) ++ digit n.

(** [strftime('%Y-%m-%d')]. *)
Definition strftime_ymd (d : datetime) : string :=
  let '(y, m, dd) := civil_of_days (local_day d) in
  four_digits y ++ "-" ++ two_digits m ++ "-" ++ two_digits dd.

(** [convert_to_gmt3]: the calendar date, in GMT+3, of a timestamp. *)
Definition convert_to_gmt3 (datetime_val : datetime) : string :=
  let converted_date := astimezone gmt3_timezone datetime_val in
  strftime_ymd converted_date.

(** ** Python numbers *)

Local Open Scope float_scope.

(** [x * y] on two fields of a document: [None] is not a number. *)
Definition py_mul (x y : option float) : outcome float :=
  match x, y with
  | Some a, Some b => Return (a * b)
  | _, _ => Raise TypeError
  end.

(** [x + y], likewise. *)
Definition py_add (x y : option float) : outcome float :=
  match x, y with
  | Some a, Some b => Return (a + b)
  | _, _ => Raise TypeError
  end.

(** [bool(x)] of a field: [None] and zero are false, every other number
    (also NaN) is true. *)
Definition truthy (x : option float) : bool :=
  match x with
  | None => false
  | Some a => negb (a =? 0)
  end.

(** [x is None]. *)
Definition is_None {A : Type} (x : option A) : bool :=
  match x with None => true | Some _ => false end.


(** A zero of either sign. *)
Definition signed_zero (x : float) : Prop :=
  match Prim2SF x with
  | S754_zero _ => True
  | _ => False
  end.

(** Neither NaN nor an infinity. *)
Definition finite (x : float) : Prop :=
  match Prim2SF x with
  | S754_zero _ | S754_finite _ _ _ => True
  | _ => False
  end.

Local Close Scope float_scope.

(** ** Documents of the store *)

(** A field that references other documents: a list of references, each
    kept as its ["id"].  Every reference of the store is taken to hold
    one; [r[0]["id"]] on a reference without raises [KeyError], an
    exception no property below speaks of. *)
Definition refs : Type := option (list string).

(** [r[0]["id"]]. *)
Definition first_id (r : refs) : outcome string :=
  match r with
  | None => Raise TypeError
  | Some nil => Raise IndexError
  | Some (x :: _) => Return x
  end.

(** [r[0]["id"] if r else None]. *)
Definition first_id_or_None (r : refs) : option string :=
  match r with
  | Some (x :: _) => Some x
  | _ => None
  end.

(** [bool(r)]. *)
Definition truthy_refs (r : refs) : bool :=
  match r with
  | Some (_ :: _) => true
  | _ => false
  end.

(** A document of the [constants] collection: ["global"], or a site. *)
Record constants_doc : Type := {
  transportKgCO2PerKm : option (gmap string float);
  dieselKgCO2PerL : option float;
  biocharDensityKgPerL : option float;
  biocharCarbonContent : option float;
  gramsCO2PerKWh : option float
}.

Record formulation_doc : Type := { Biochar : option float }.

(** A customer or a supplier. *)
Record party_doc : Type := { distance : option float }.

Record order_doc : Type := {
  order_status : option string;
  orderNumber : string;
  deliveredDate : datetime;
  productionQuantity : option float;
  formulation : refs;
  customer : refs;
  order_vehicle : refs;
  isActivated : option bool
}.

Record input_doc : Type := {
  input_id : string;
  deliveryDate : datetime;
  input_type : option string;
  input_status : option string;
  supplier : refs;
  input_vehicle : refs
}.

Record cost_doc : Type := {
  cost_id : string;
  cost_date : datetime;
  cost_type : option string;
  cost_value : option float;
  cost_notes : option string
}.

Record production_doc : Type := {
  endDate : datetime;
  quantityTons : option float
}.

(** The Firestore database [db].  Customers and suppliers are keyed by the
    path prefix of their collection and their id; the record collections
    by the path prefix. *)
Record firestore : Type := {
  constants : gmap string constants_doc;
  formulations : gmap string formulation_doc;
  customers : gmap (string * string) party_doc;
  suppliers : gmap (string * string) party_doc;
  orders : gmap string (list order_doc);
  inputs : gmap string (list input_doc);
  carbon_costs : gmap string (list cost_doc);
  biochar_prod : gmap string (list production_doc)
}.

(** [o == s] for a string field. *)
Definition field_is (o : option string) (s : string) : bool :=
  match o with
  | Some x => String.eqb x s
  | None => false
  end.

(** [where(field, ">=", start_date).where(field, "<=", end_date)]. *)
Definition in_window (start_date end_date d : datetime) : bool :=
  (instant start_date <=? instant d) && (instant d <=? instant end_date).

(** ** The module-level caches, and the monad that threads them *)

Record caches : Type := {
  formulation_cache : gmap string (option formulation_doc);
  customer_cache : gmap string (option float);
  supplier_cache : gmap string (option float);
  (** the documents the resolvers fetched from the store, latest first *)
  lookups : list string
}.

Definition fresh_caches : caches :=
  {| formulation_cache := ∅; customer_cache := ∅; supplier_cache := ∅;
     lookups := nil |}.

Definition Py (A : Type) : Type := caches -> outcome A * caches.

Definition ret {A : Type} (a : A) : Py A := fun s => (Return a, s).

Definition raise {A : Type} (e : exn) : Py A := fun s => (Raise e, s).

Definition bind {A B : Type} (c : Py A) (k : A -> Py B) : Py B :=
  fun s =>
    match c s with
    | (Return a, s') => k a s'
    | (Raise e, s') => (Raise e, s')
    end.

Definition lift {A : Type} (o : outcome A) : Py A := fun s => (o, s).

Notation "'py' x <- c1 ;; c2" := (bind c1 (fun x => c2))
  (at level 10, x name, c1 at level 99, c2 at level 200, only parsing).

(** [for x in xs: body], the body updating the local variables [st]. *)
Fixpoint for_each {X St : Type} (body : X -> St -> Py St) (xs : list X)
    (st : St) : Py St :=
  match xs with
  | nil => ret st
  | x :: rest => py st' <- body x st ;; for_each body rest st'
  end.

(** [c], started where [Inv] holds, returns only where [Inv] holds, and
    only values that satisfy [Q]. *)
Definition hoare (Inv : caches -> Prop) {A : Type} (c : Py A) (Q : A -> Prop)
    : Prop :=
  forall s a s', Inv s -> c s = (Return a, s') -> Inv s' /\ Q a.

(** [c], started where [Inv] holds, raises. *)
Definition must_raise (Inv : caches -> Prop) {A : Type} (c : Py A) : Prop :=
  forall s, Inv s -> exists e s', c s = (Raise e, s').

(** ** The reference-data resolvers *)

Definition get_formulation (db : firestore) (formulation_name : string)
    : Py (option formulation_doc) :=
  fun s =>
    match formulation_cache s !! formulation_name with
    | Some cached => (Return cached, s)
    | None =>
        let formulation := formulations db !! formulation_name in
        (Return formulation,
         {| formulation_cache :=
              <[formulation_name := formulation]> (formulation_cache s);
            customer_cache := customer_cache s;
            supplier_cache := supplier_cache s;
            lookups := ("formulations/" ++ formulation_name) :: lookups s |})
    end.

Definition get_customer_distance (db : firestore)
    (collection_prefix customer_id : string) : Py (option float) :=
  fun s =>
    match customer_cache s !! customer_id with
    | Some cached => (Return cached, s)
    | None =>
        let fetched :=
          {| formulation_cache := formulation_cache s;
             customer_cache := customer_cache s;
             supplier_cache := supplier_cache s;
             lookups :=
               (collection_prefix ++ "/customers/" ++ customer_id)
               :: lookups s |} in
        match customers db !! (collection_prefix, customer_id) with
        | None => (Raise AttributeError, fetched)
        | Some customer_info =>
            (Return (distance customer_info),
             {| formulation_cache := formulation_cache s;
                customer_cache :=
                  <[customer_id := distance customer_info]> (customer_cache s);
                supplier_cache := supplier_cache s;
                lookups := lookups fetched |})
        end
    end.

Definition get_supplier_distance (db : firestore)
    (collection_prefix supplier_id : string) : Py (option float) :=
  fun s =>
    match supplier_cache s !! supplier_id with
    | Some cached => (Return cached, s)
    | None =>
        let fetched :=
          {| formulation_cache := formulation_cache s;
             customer_cache := customer_cache s;
             supplier_cache := supplier_cache s;
             lookups :=
               (collection_prefix ++ "/suppliers/" ++ supplier_id)
               :: lookups s |} in
        match suppliers db !! (collection_prefix, supplier_id) with
        | None => (Raise AttributeError, fetched)
        | Some supplier_info =>
            (Return (distance supplier_info),
             {| formulation_cache := formulation_cache s;
                customer_cache := customer_cache s;
                supplier_cache :=
                  <[supplier_id := distance supplier_info]> (supplier_cache s);
                lookups := lookups fetched |})
        end
    end.

(** ** The ledgers *)

(** A row of [carbon_retired]: columns "Order #", "Date", "Tons Carbon",
    "Tons CO2eq".  [D] is the type of the "Date" column. *)
Record retired_row (D : Type) : Type := mk_retired {
  retired_order : string;
  retired_date : D;
  retired_tons_carbon : float;
  retired_tons_co2eq : float
}.

(** A row of [carbon_released]: columns "Row ID", "Type", "Date",
    "Tons CO2eq". *)
Record released_row (D : Type) : Type := mk_released {
  released_id : string;
  released_type : string;
  released_date : D;
  released_tons_co2eq : float
}.

Arguments mk_retired {D} _ _ _ _.
Arguments retired_order {D} _.
Arguments retired_date {D} _.
Arguments retired_tons_carbon {D} _.
Arguments retired_tons_co2eq {D} _.
Arguments mk_released {D} _ _ _ _.
Arguments released_id {D} _.
Arguments released_type {D} _.
Arguments released_date {D} _.
Arguments released_tons_co2eq {D} _.

(** [df['Date'] = df['Date'].apply(f)]. *)
Definition retired_apply_date {D E : Type} (f : D -> E) (r : retired_row D)
    : retired_row E :=
  mk_retired (retired_order r) (f (retired_date r)) (retired_tons_carbon r)
    (retired_tons_co2eq r).

Definition released_apply_date {D E : Type} (f : D -> E) (r : released_row D)
    : released_row E :=
  mk_released (released_id r) (released_type r) (f (released_date r))
    (released_tons_co2eq r).

(** [d.get(...)] on the result of [to_dict()], which is [None] for a
    document that does not exist. *)
Definition dict_get {A B : Type} (d : option A) (field : A -> B) : outcome B :=
  match d with
  | Some doc => Return (field doc)
  | None => Raise AttributeError
  end.

(** [global_constants.get("transportKgCO2PerKm").get(vehicle)]. *)
Definition transport_rate (global_constants : option constants_doc)
    (vehicle : option string) : outcome (option float) :=
  match dict_get global_constants transportKgCO2PerKm with
  | Raise e => Raise e
  | Return None => Raise AttributeError
  | Return (Some rates) =>
      Return (match vehicle with Some v => rates !! v | None => None end)
  end.

(** [str(x)] inside an f-string. *)
Definition str (x : option string) : string :=
  match x with Some s => s | None => "None" end.

(** [bool(x)] of a boolean field. *)
Definition truthy_bool (x : option bool) : bool :=
  match x with Some b => b | None => false end.

(** [f"sites/{site}" if site != "mock-site" else "test/mock-site"]. *)
Definition collection_path_prefix (site : string) : string :=
  if negb (String.eqb site "mock-site") then "sites/" ++ site
  else "test/mock-site".

(** The rows of a collection, an absent collection being empty. *)
Definition collection {A : Type} (c : gmap string (list A)) (path : string)
    : list A :=
  match c !! path with Some l => l | None => nil end.

(** ** [carbon-dashboard/app.py] *)

Module Dashboard.

Local Open Scope float_scope.

(** The local variables of [do_accounting] that outlive one iteration of
    its loops.  [tons_co2 = None]: the name is not bound yet. *)
Record locals : Type := mk_locals {
  carbon_retired : list (retired_row datetime);
  carbon_released : list (released_row datetime);
  tons_co2 : option float
}.

Section Run.

Variable db : firestore.
Variable global_constants site_constants : option constants_doc.
Variable prefix : string.

(** The first half of the body of [for order in delivered_orders]:
    "Calculate carbon retired from biochar production".  It answers the
    ledger [carbon_retired] and the value [tons_co2] is bound to. *)
Definition order_retired (order : order_doc)
    (carbon_retired : list (retired_row datetime))
    : Py (list (retired_row datetime) * float) :=
  py formulation_name <- lift (first_id (formulation order)) ;;
  py formulation_dict <- get_formulation db formulation_name ;;
  py percent_carbon <- lift (dict_get formulation_dict Biochar) ;;
  py prod_qty_biochar <-
    lift (py_mul (productionQuantity order) percent_carbon) ;;
  py biochar_density <- lift (dict_get site_constants biocharDensityKgPerL) ;;
  py biochar_carbon_content <-
    lift (dict_get site_constants biocharCarbonContent) ;;
  py product <- lift (py_mul (Some prod_qty_biochar) biochar_density) ;;
  let tons_biochar := product / 1000 in
  py tons_carbon <- lift (py_mul (Some tons_biochar) biochar_carbon_content) ;;
  let tons_co2 := tons_carbon * (44 / 12) in
  if 0 <? tons_co2
  then
    ret ((carbon_retired ++
          [mk_retired (orderNumber order) (deliveredDate order) tons_carbon
             tons_co2])%list, tons_co2)
  else ret (carbon_retired, tons_co2).

(** [not order.get("isActivated") and customer != "DEC"]. *)
Definition incurs_transport (order : order_doc) (customer_id : string) : bool :=
  negb (truthy_bool (isActivated order)) && negb (String.eqb customer_id "DEC").

(** The row the order loop appends to [carbon_released]. *)
Definition transport_row (order : order_doc) (tons_co2_transport : float)
    : released_row datetime :=
  mk_released (orderNumber order) "Raw Biochar Transport"
    (deliveredDate order) tons_co2_transport.

(** The second half: "Calculate transport costs for raw biochar orders".
    It answers the ledger [carbon_released]. *)
Definition order_transport (order : order_doc)
    (carbon_released : list (released_row datetime))
    : Py (list (released_row datetime)) :=
  py customer_id <- lift (first_id (customer order)) ;;
  if incurs_transport order customer_id
  then
    py customer_distance <- get_customer_distance db prefix customer_id ;;
    let vehicle := first_id_or_None (order_vehicle order) in
    py transport_cost <- lift (transport_rate global_constants vehicle) ;;
    if is_None transport_cost || is_None customer_distance
    then
      raise (ValueError
               ("Order " ++ orderNumber order ++
                " is missing vehicle, transportation cost constant, or customer distance"))
    else
      py product <- lift (py_mul transport_cost customer_distance) ;;
      let tons_co2_transport := product / 1000 in
      ret (carbon_released ++ [transport_row order tons_co2_transport])%list
  else ret carbon_released.

(** The body of [for order in delivered_orders]. *)
Definition order_body (order : order_doc) (l : locals) : Py locals :=
  py retired <- order_retired order (carbon_retired l) ;;
  py released <- order_transport order (carbon_released l) ;;
  ret (mk_locals (fst retired) released (Some (snd retired))).

(** The row the input loop appends to [carbon_released]. *)
Definition biomass_row (input : input_doc) (tons_co2_transport : float)
    : released_row datetime :=
  mk_released (input_id input) "Biomass Transport" (deliveryDate input)
    tons_co2_transport.

(** The row the carbon-cost loop appends to [carbon_released]. *)
Definition cost_row (cost : cost_doc) (tons : float) : released_row datetime :=
  mk_released (cost_id cost)
    (str (cost_type cost) ++ ": " ++ str (cost_notes cost))
    (cost_date cost) tons.

(** The body of [for input in inputs]. *)
Definition input_body (input : input_doc) (l : locals) : Py locals :=
  if negb (truthy_refs (supplier input))
  then raise (ValueError "Input is missing a supplier")
  else
    py supplier_id <- lift (first_id (supplier input)) ;;
    py supplier_distance <- get_supplier_distance db prefix supplier_id ;;
    let vehicle := first_id_or_None (input_vehicle input) in
    py transport_cost <- lift (transport_rate global_constants vehicle) ;;
    if negb (truthy transport_cost) || negb (truthy supplier_distance)
    then
      raise (ValueError
               "An Input is missing vehicle, transportation cost constant, or supplier/supplier distance")
    else
      py product <- lift (py_mul transport_cost supplier_distance) ;;
      let tons_co2_transport := product / 1000 in
      ret (mk_locals (carbon_retired l)
             (carbon_released l ++ [biomass_row input tons_co2_transport])
             (tons_co2 l)).

(** The [if]/[elif] of the carbon-cost loop: the value [tons_co2] is bound
    to afterwards.  No branch is taken for another type, and the name
    keeps the binding it had. *)
Definition cost_tons_co2 (cost : cost_doc) (tons_co2 : option float)
    : outcome (option float) :=
  let qty := cost_value cost in
  if field_is (cost_type cost) "Electricity" then
    match dict_get site_constants gramsCO2PerKWh with
    | Raise e => Raise e
    | Return grams =>
        match py_mul qty grams with
        | Raise e => Raise e
        | Return product => Return (Some (product / 1000000))
        end
    end
  else if field_is (cost_type cost) "Diesel" then
    match dict_get global_constants dieselKgCO2PerL with
    | Raise e => Raise e
    | Return diesel =>
        match py_mul qty diesel with
        | Raise e => Raise e
        | Return product => Return (Some (product / 1000))
        end
    end
  else Return tons_co2.

(** The body of [for cost in carbon_costs]. *)
Definition cost_body (cost : cost_doc) (l : locals) : Py locals :=
  py bound <- lift (cost_tons_co2 cost (tons_co2 l)) ;;
  match bound with
  | None => raise UnboundLocalError
  | Some tons =>
      ret (mk_locals (carbon_retired l)
             (carbon_released l ++ [cost_row cost tons]) (Some tons))
  end.

(** The body of [for production_record in biochar_produced]. *)
Definition production_body (production_record : production_doc)
    (total_biochar_prod : float) : Py float :=
  lift (py_add (Some total_biochar_prod) (quantityTons production_record)).

End Run.

Definition result : Type :=
  list (retired_row string) * list (released_row string) * float.

(** The four queries of [do_accounting]. *)
Definition delivered_orders (db : firestore) (prefix : string)
    (start_date end_date : datetime) : list order_doc :=
  List.filter
    (fun o => field_is (order_status o) "Delivered"
              && in_window start_date end_date (deliveredDate o))
    (collection (orders db) prefix).

Definition biomass_inputs (db : firestore) (prefix : string)
    (start_date end_date : datetime) : list input_doc :=
  List.filter
    (fun i => in_window start_date end_date (deliveryDate i)
              && field_is (input_type i) "Biomass"
              && field_is (input_status i) "Obtained")
    (collection (inputs db) prefix).

Definition window_costs (db : firestore) (prefix : string)
    (start_date end_date : datetime) : list cost_doc :=
  List.filter (fun c => in_window start_date end_date (cost_date c))
    (collection (carbon_costs db) prefix).

Definition biochar_produced (db : firestore) (prefix : string)
    (start_date end_date : datetime) : list production_doc :=
  List.filter (fun r => in_window start_date end_date (endDate r))
    (collection (biochar_prod db) prefix).

Definition do_accounting (db : firestore) (site : string)
    (start_date end_date : datetime) : Py result :=
  let global_constants := constants db !! "global" in
  let site_constants := constants db !! site in
  let prefix := collection_path_prefix site in
  py l1 <-
    for_each (order_body db global_constants site_constants prefix)
      (delivered_orders db prefix start_date end_date)
      (mk_locals nil nil None) ;;
  py l2 <-
    for_each (input_body db global_constants prefix)
      (biomass_inputs db prefix start_date end_date) l1 ;;
  py l3 <-
    for_each (cost_body global_constants site_constants)
      (window_costs db prefix start_date end_date) l2 ;;
  py total_biochar_prod <-
    for_each production_body
      (biochar_produced db prefix start_date end_date) 0 ;;
  ret (map (retired_apply_date convert_to_gmt3) (carbon_retired l3),
       map (released_apply_date convert_to_gmt3) (carbon_released l3),
       total_biochar_prod).

(** Whether the order loop appends a transport row for [order]. *)
Definition ships (order : order_doc) : bool :=
  match first_id (customer order) with
  | Return customer_id => incurs_transport order customer_id
  | Raise _ => false
  end.

(** The exception of the input loop's guard. *)
Definition input_fault : exn :=
  ValueError
    "An Input is missing vehicle, transportation cost constant, or supplier/supplier distance".

(** The distance the store holds for a customer, or a supplier, of the
    site at [prefix]. *)
Definition customer_distance_in_store (db : firestore) (prefix id : string)
    : option float :=
  match customers db !! (prefix, id) with
  | Some info => distance info
  | None => None
  end.

Definition supplier_distance_in_store (db : firestore) (prefix id : string)
    : option float :=
  match suppliers db !! (prefix, id) with
  | Some info => distance info
  | None => None
  end.

(** [transport_rate] found no rate: no vehicle on the record, no constant
    for the vehicle, or no table of constants. *)
Definition rate_unresolved (global_constants : option constants_doc)
    (vehicle : refs) : bool :=
  match transport_rate global_constants (first_id_or_None vehicle) with
  | Return (Some _) => false
  | _ => true
  end.

(** An order due a transport row that lacks its vehicle, the rate of its
    vehicle, or the distance of its customer. *)
Definition order_lacks_transport_data (db : firestore)
    (global_constants : option constants_doc) (prefix : string)
    (order : order_doc) : bool :=
  match first_id (customer order) with
  | Return customer_id =>
      incurs_transport order customer_id
      && (rate_unresolved global_constants (order_vehicle order)
          || is_None (customer_distance_in_store db prefix customer_id))
  | Raise _ => false
  end.

(** A biomass input that lacks its supplier, its vehicle, the rate of its
    vehicle, or the distance of its supplier. *)
Definition input_lacks_transport_data (db : firestore)
    (global_constants : option constants_doc) (prefix : string)
    (input : input_doc) : bool :=
  match first_id (supplier input) with
  | Return supplier_id =>
      rate_unresolved global_constants (input_vehicle input)
      || is_None (supplier_distance_in_store db prefix supplier_id)
  | Raise _ => true
  end.

(** The distance caches hold what the store holds for the site at
    [prefix]: so it is in a fresh process, and after any number of runs
    for that site. *)
Definition caches_agree (db : firestore) (prefix : string) (s : caches) : Prop :=
  (forall id d, customer_cache s !! id = Some d ->
                exists info, customers db !! (prefix, id) = Some info
                             /\ distance info = d)
  /\ (forall id d, supplier_cache s !! id = Some d ->
                   exists info, suppliers db !! (prefix, id) = Some info
                                /\ distance info = d).

(** What the resolver answers for the distance of a customer, or of a
    supplier, in a run started from the caches [s0]: the value cached
    under the id, whatever call cached it, and else the value of the
    store. *)
Definition customer_distance_resolved (db : firestore) (prefix : string)
    (s0 : caches) (id : string) : option float :=
  match customer_cache s0 !! id with
  | Some cached => cached
  | None => customer_distance_in_store db prefix id
  end.

Definition supplier_distance_resolved (db : firestore) (prefix : string)
    (s0 : caches) (id : string) : option float :=
  match supplier_cache s0 !! id with
  | Some cached => cached
  | None => supplier_distance_in_store db prefix id
  end.

(** An order due a transport row for which the run, started from [s0],
    finds no vehicle, no rate for the vehicle, or no distance of the
    customer. *)
Definition order_misses_transport_data (db : firestore)
    (global_constants : option constants_doc) (prefix : string) (s0 : caches)
    (order : order_doc) : bool :=
  match first_id (customer order) with
  | Return customer_id =>
      incurs_transport order customer_id
      && (rate_unresolved global_constants (order_vehicle order)
          || is_None (customer_distance_resolved db prefix s0 customer_id))
  | Raise _ => false
  end.

(** A biomass input for which the run, started from [s0], finds no
    supplier, no vehicle, no rate for the vehicle, or no distance of the
    supplier. *)
Definition input_misses_transport_data (db : firestore)
    (global_constants : option constants_doc) (prefix : string) (s0 : caches)
    (input : input_doc) : bool :=
  match first_id (supplier input) with
  | Return supplier_id =>
      rate_unresolved global_constants (input_vehicle input)
      || is_None (supplier_distance_resolved db prefix s0 supplier_id)
  | Raise _ => true
  end.

(** The caches [s] of a run that started from [s0] at the site of
    [prefix]: a cached distance is the one resolved from [s0], and an id
    that is not cached was not cached in [s0]. *)
Definition caches_since (db : firestore) (prefix : string) (s0 s : caches)
    : Prop :=
  (forall id d, customer_cache s !! id = Some d ->
                d = customer_distance_resolved db prefix s0 id)
  /\ (forall id, customer_cache s !! id = None -> customer_cache s0 !! id = None)
  /\ (forall id d, supplier_cache s !! id = Some d ->
                   d = supplier_distance_resolved db prefix s0 id)
  /\ (forall id, supplier_cache s !! id = None -> supplier_cache s0 !! id = None).

(** The sum of a column as the specification reads it: its numbers, added
    up from 0 in the order of the rows. *)
Definition numbers (column : list float) : list float :=
  List.filter (fun x => negb (PrimFloat.is_nan x)) column.

Definition sum_in_row_order (column : list float) : float :=
  fold_left (fun acc x => acc + x) column 0.

(** [Series.sum()] of a "Tons CO2eq" column: pandas skips NaN, and the sum
    of an empty column is 0. *)
Definition series_sum (column : list float) : float :=
  fold_left (fun acc x => if PrimFloat.is_nan x then acc else acc + x)
    column 0.

(** The summary of [dashboard_tab]: [gross_carbon_offset] and
    [net_carbon_offset]. *)
Definition summary (carbon_retired : list (retired_row string))
    (carbon_released : list (released_row string)) : float * float :=
  let gross_carbon_offset :=
    series_sum (map retired_tons_co2eq carbon_retired) in
  let net_carbon_offset :=
    gross_carbon_offset - series_sum (map released_tons_co2eq carbon_released) in
  (gross_carbon_offset, net_carbon_offset).

End Dashboard.

(** ** [carbon-calculator/app.py]: the order loop and the carbon-cost loop *)

Module Calculator.

Local Open Scope float_scope.

(** A row of [carbon_released] there: columns "Date", "T CO2eq", "Type". *)
Record released_row : Type := mk_released {
  released_date : datetime;
  released_tons_co2eq : float;
  released_type : string
}.

Record locals : Type := mk_locals {
  carbon_retired : list (retired_row datetime);
  carbon_released : list released_row;
  tons_co2 : option float
}.

Section Run.

Variable db : firestore.
Variable global_constants site_constants : option constants_doc.
Variable prefix : string.

(** The body of [for order in delivered_orders]. *)
Definition order_body (order : order_doc) (l : locals) : Py locals :=
  py formulation_name <- lift (first_id (formulation order)) ;;
  py formulation_dict <- get_formulation db formulation_name ;;
  py percent_carbon <- lift (dict_get formulation_dict Biochar) ;;
  py prod_qty_biochar <-
    lift (py_mul (productionQuantity order) percent_carbon) ;;
  py biochar_density <- lift (dict_get site_constants biocharDensityKgPerL) ;;
  py biochar_carbon_content <-
    lift (dict_get site_constants biocharCarbonContent) ;;
  py product <- lift (py_mul (Some prod_qty_biochar) biochar_density) ;;
  let tons_biochar := product / 1000 in
  py tons_carbon <- lift (py_mul (Some tons_biochar) biochar_carbon_content) ;;
  let tons_co2 := tons_carbon * (44 / 12) in
  let carbon_retired :=
    (carbon_retired l ++
     [mk_retired (orderNumber order) (deliveredDate order) tons_carbon
        tons_co2])%list in
  if negb (truthy_bool (isActivated order))
  then
    py customer_id <- lift (first_id (customer order)) ;;
    py customer_distance <- get_customer_distance db prefix customer_id ;;
    let vehicle := first_id_or_None (order_vehicle order) in
    py transport_cost <- lift (transport_rate global_constants vehicle) ;;
    match transport_cost, customer_distance with
    | Some cost, Some km =>
        let tons_co2_transport := (cost * km) / 1000 in
        ret (mk_locals carbon_retired
               (carbon_released l ++
                [mk_released (deliveredDate order) tons_co2_transport
                   "Raw Biochar Transport"])%list
               (Some tons_co2))
    | _, _ =>
        raise (ValueError "Missing vehicle, constant, or customer distance")
    end
  else ret (mk_locals carbon_retired (carbon_released l) (Some tons_co2)).

(** The body of [for cost in carbon_costs]. *)
Definition cost_body (cost : cost_doc) (l : locals) : Py locals :=
  py bound <-
    lift (Dashboard.cost_tons_co2 global_constants site_constants cost
            (tons_co2 l)) ;;
  match bound with
  | None => raise UnboundLocalError
  | Some tons =>
      ret (mk_locals (carbon_retired l)
             (carbon_released l ++
              [mk_released (cost_date cost) tons
                 (str (cost_type cost) ++ ": " ++ str (cost_notes cost))])%list
             (Some tons))
  end.

End Run.

End Calculator.

(** ** The scenarios of the specification, as data *)

Module Scenario.

Local Open Scope float_scope.
#[local] Set Warnings "-inexact-float".

(** 2024-04-15 21:00:00+00:00, the timestamp of the docstring. *)
Definition evening : datetime := mk_datetime (1713214800 * 1000000) 0.

Definition window_start : datetime := mk_datetime 0 gmt3_timezone.
Definition window_end : datetime :=
  mk_datetime (2000000000 * 1000000) gmt3_timezone.

Definition global_doc : constants_doc :=
  {| transportKgCO2PerKm := Some {[ "truck" := 0.9; "cart" := 0 ]};
     dieselKgCO2PerL := Some 2.68;
     biocharDensityKgPerL := None;
     biocharCarbonContent := None;
     gramsCO2PerKWh := None |}.

Definition site_doc : constants_doc :=
  {| transportKgCO2PerKm := None;
     dieselKgCO2PerL := None;
     biocharDensityKgPerL := Some 1.2;
     biocharCarbonContent := Some 0.8;
     gramsCO2PerKWh := Some 400 |}.

(** The order of the retired-carbon scenario: 1000 L of formulation F1. *)
Definition order_F1 : order_doc :=
  {| order_status := Some "Delivered";
     orderNumber := "1001";
     deliveredDate := evening;
     productionQuantity := Some 1000;
     formulation := Some ["F1"];
     customer := Some ["c1"];
     order_vehicle := Some ["truck"];
     isActivated := Some false |}.

(** A placeholder order: nothing produced, activated, no vehicle. *)
Definition order_placeholder : order_doc :=
  {| order_status := Some "Delivered";
     orderNumber := "1002";
     deliveredDate := evening;
     productionQuantity := Some 0;
     formulation := Some ["F1"];
     customer := Some ["c1"];
     order_vehicle := None;
     isActivated := Some true |}.

(** An order the producing organization delivers to itself. *)
Definition order_DEC : order_doc :=
  {| order_status := Some "Delivered";
     orderNumber := "1003";
     deliveredDate := evening;
     productionQuantity := Some 1000;
     formulation := Some ["F1"];
     customer := Some ["DEC"];
     order_vehicle := None;
     isActivated := Some false |}.

(** An order to ship, with no vehicle recorded. *)
Definition order_no_vehicle : order_doc :=
  {| order_status := Some "Delivered";
     orderNumber := "1004";
     deliveredDate := evening;
     productionQuantity := Some 1000;
     formulation := Some ["F1"];
     customer := Some ["c1"];
     order_vehicle := None;
     isActivated := Some false |}.

(** An order shipped by a vehicle whose rate is 0 kgCO2 per km. *)
Definition order_cart : order_doc :=
  {| order_status := Some "Delivered";
     orderNumber := "1005";
     deliveredDate := evening;
     productionQuantity := Some 1000;
     formulation := Some ["F1"];
     customer := Some ["c1"];
     order_vehicle := Some ["cart"];
     isActivated := Some false |}.

Definition input_truck : input_doc :=
  {| input_id := "in-1";
     deliveryDate := evening;
     input_type := Some "Biomass";
     input_status := Some "Obtained";
     supplier := Some ["s1"];
     input_vehicle := Some ["truck"] |}.

(** The same delivery by the vehicle whose rate is 0. *)
Definition input_cart : input_doc :=
  {| input_id := "in-2";
     deliveryDate := evening;
     input_type := Some "Biomass";
     input_status := Some "Obtained";
     supplier := Some ["s1"];
     input_vehicle := Some ["cart"] |}.

(** A delivery with no supplier recorded. *)
Definition input_no_supplier : input_doc :=
  {| input_id := "in-3";
     deliveryDate := evening;
     input_type := Some "Biomass";
     input_status := Some "Obtained";
     supplier := None;
     input_vehicle := Some ["truck"] |}.

Definition cost_electricity : cost_doc :=
  {| cost_id := "e1";
     cost_date := evening;
     cost_type := Some "Electricity";
     cost_value := Some 2000;
     cost_notes := Some "grid" |}.

Definition cost_diesel : cost_doc :=
  {| cost_id := "d1";
     cost_date := evening;
     cost_type := Some "Diesel";
     cost_value := Some 100;
     cost_notes := Some "generator" |}.

(** A carbon cost of a type the engine has no rule for. *)
Definition cost_water : cost_doc :=
  {| cost_id := "w1";
     cost_date := evening;
     cost_type := Some "Water";
     cost_value := Some 5;
     cost_notes := None |}.

(** One store, two sites that both know a customer "c1" and a supplier
    "s1", at different distances. *)
Definition store (site_orders : list order_doc) (site_inputs : list input_doc)
    (site_costs : list cost_doc) : firestore :=
  {| constants := {[ "global" := global_doc; "farm" := site_doc ]};
     formulations := {[ "F1" := {| Biochar := Some 0.3 |} ]};
     customers :=
       {[ ("sites/farm", "c1") := {| distance := Some 50 |};
          ("sites/mill", "c1") := {| distance := Some 70 |} ]};
     suppliers :=
       {[ ("sites/farm", "s1") := {| distance := Some 20 |};
          ("sites/mill", "s1") := {| distance := Some 90 |} ]};
     orders := {[ "sites/farm" := site_orders ]};
     inputs := {[ "sites/farm" := site_inputs ]};
     carbon_costs := {[ "sites/farm" := site_costs ]};
     biochar_prod := ∅ |}.

Definition no_locals : Dashboard.locals := Dashboard.mk_locals nil nil None.

End Scenario.

(** ** The caller of [do_accounting]: the form of [dashboard_tab] *)

Module DashboardTab.

Local Open Scope float_scope.

(** A [datetime.date], as [st.date_input] answers it: its day number,
    counted from 1970-01-01. *)
Definition date : Type := Z.

Definition microseconds_per_day : Z := 86400 * 1000000.

(** [pytz.timezone('Etc/GMT-3').localize(datetime.datetime.combine(d, t))],
    [t] being the time of day in seconds. *)
Definition localize_gmt3 (d : date) (seconds : Z) : datetime :=
  {| wall := d * microseconds_per_day + seconds * 1000000;
     utcoffset := gmt3_timezone |}.

(** The window the form hands to [do_accounting]: from midnight of the
    start date to 23:59:59 of the end date, both in GMT+3. *)
Definition query_window (start_date end_date : date) : datetime * datetime :=
  (localize_gmt3 start_date 0,
   localize_gmt3 end_date (23 * 3600 + 59 * 60 + 59)).

(** What [dashboard_tab] computes after "Submit": the three results of
    [do_accounting] and the two metrics of the summary. *)
Definition submitted_query (db : firestore) (query_site : string)
    (start_date end_date : date)
    : Py (Dashboard.result * (float * float)) :=
  let (start, stop) := query_window start_date end_date in
  py r <- Dashboard.do_accounting db query_site start stop ;;
  ret (r, Dashboard.summary (fst (fst r)) (snd (fst r))).

End DashboardTab.

(** ** More data for the examples *)

Module Production.

Local Open Scope float_scope.
#[local] Set Warnings "-inexact-float".

Definition run_1 : production_doc :=
  {| endDate := Scenario.evening; quantityTons := Some 1.5 |}.

Definition run_2 : production_doc :=
  {| endDate := Scenario.evening; quantityTons := Some 2.25 |}.

(** A production record with no quantity on it. *)
Definition run_blank : production_doc :=
  {| endDate := Scenario.evening; quantityTons := None |}.

(** The store of the scenarios, with production records for the farm. *)
Definition store (site_orders : list order_doc) (site_inputs : list input_doc)
    (site_costs : list cost_doc) (site_production : list production_doc)
    : firestore :=
  let base := Scenario.store site_orders site_inputs site_costs in
  {| constants := constants base;
     formulations := formulations base;
     customers := customers base;
     suppliers := suppliers base;
     orders := orders base;
     inputs := inputs base;
     carbon_costs := carbon_costs base;
     biochar_prod := {[ "sites/farm" := site_production ]} |}.

End Production.

Module Stale.

Local Open Scope float_scope.

(** The store of the scenarios, the farm having no distance on record for
    customer "c1" while the mill has one. *)
Definition store (site_orders : list order_doc) : firestore :=
  let base := Scenario.store site_orders nil nil in
  {| constants := constants base;
     formulations := formulations base;
     customers :=
       {[ ("sites/farm", "c1") := {| distance := None |};
          ("sites/mill", "c1") := {| distance := Some 70 |} ]};
     suppliers := suppliers base;
     orders := orders base;
     inputs := inputs base;
     carbon_costs := carbon_costs base;
     biochar_prod := biochar_prod base |}.

(** The caches of a process that has resolved "c1" for the mill. *)
Definition caches_of_the_mill : caches :=
  snd (get_customer_distance (store nil) "sites/mill" "c1" fresh_caches).

End Stale.

(** ** Vocabulary of the properties below *)

(** The caches [s'] hold all that [s] holds, and the log of [s'] extends
    the log of [s]. *)
Definition grows (s s' : caches) : Prop :=
  formulation_cache s ⊆ formulation_cache s'
  /\ customer_cache s ⊆ customer_cache s'
  /\ supplier_cache s ⊆ supplier_cache s'
  /\ exists newer, lookups s' = (newer ++ lookups s)%list.

(** Whatever its outcome, [c] only adds to the caches. *)
Definition extends {A : Type} (c : Py A) : Prop :=
  forall s, grows s (snd (c s)).

(** [c] raises nothing but exceptions that satisfy [P]. *)
Definition raises_only (P : exn -> Prop) {A : Type} (c : Py A) : Prop :=
  forall s e s', c s = (Raise e, s') -> P e.

(** The same of [c] started where [Inv] holds. *)
Definition raises_under (Inv : caches -> Prop) (P : exn -> Prop) {A : Type}
    (c : Py A) : Prop :=
  forall s e s', Inv s -> c s = (Raise e, s') -> P e.

(** What [c] returned, [c'] returns again from any caches that hold at
    least what [c] left, and leaves them as they are. *)
Definition replays {A : Type} (c c' : Py A) : Prop :=
  forall s a s' s2, c s = (Return a, s') -> grows s' s2 -> c' s2 = (Return a, s2).

(** Two stores with the same constants and the same records: they may
    differ in their formulations, customers and suppliers. *)
Definition same_records (db db' : firestore) : Prop :=
  constants db' = constants db
  /\ orders db' = orders db
  /\ inputs db' = inputs db
  /\ carbon_costs db' = carbon_costs db
  /\ biochar_prod db' = biochar_prod db.

(** The log holds no path twice, and each path in it is the path, under
    [prefix], of a document whose id is in the cache of its resolver. *)
Definition logged (prefix : string) (s : caches) : Prop :=
  NoDup (lookups s)
  /\ forall path, In path (lookups s) ->
       (exists name, path = "formulations/" ++ name
                     /\ is_Some (formulation_cache s !! name))
       \/ (exists id, path = prefix ++ "/customers/" ++ id
                      /\ is_Some (customer_cache s !! id))
       \/ (exists id, path = prefix ++ "/suppliers/" ++ id
                      /\ is_Some (supplier_cache s !! id)).

(** [c] keeps the log free of repetitions, whether it returns or raises. *)
Definition tidy (prefix : string) {A : Type} (c : Py A) : Prop :=
  forall s, logged prefix s ->
            match c s with
            | (Return _, s') => logged prefix s'
            | (Raise _, s') => NoDup (lookups s')
            end.

(** The exceptions of a missing or empty field. *)
Definition lookup_error (e : exn) : Prop :=
  e = TypeError \/ e = IndexError \/ e = AttributeError.

(** The message of the order loop's [ValueError]. *)
Definition order_fault (order : order_doc) : exn :=
  ValueError
    ("Order " ++ orderNumber order ++
     " is missing vehicle, transportation cost constant, or customer distance").

Definition supplier_fault : exn := ValueError "Input is missing a supplier".

(** A row of the later ledger, in the columns of the earlier one. *)
Definition forget_id (row : released_row datetime) : Calculator.released_row :=
  Calculator.mk_released (released_date row) (released_tons_co2eq row)
    (released_type row).

(** The local variables of the later loop, as the earlier loop keeps them. *)
Definition as_calculator (l : Dashboard.locals) : Calculator.locals :=
  Calculator.mk_locals (Dashboard.carbon_retired l)
    (map forget_id (Dashboard.carbon_released l)) (Dashboard.tons_co2 l).

(** * Properties *)

(** ** The monad and its loops *)

Lemma bind_Return {A B : Type} (c : Py A) (k : A -> Py B) s a s1 :
  c s = (Return a, s1) -> bind c k s = k a s1.
Proof. intros H. unfold bind. now rewrite H. Qed.

Lemma bind_Raise {A B : Type} (c : Py A) (k : A -> Py B) s e s1 :
  c s = (Raise e, s1) -> bind c k s = (Raise e, s1).
Proof. intros H. unfold bind. now rewrite H. Qed.

Lemma bind_Return_inv {A B : Type} (c : Py A) (k : A -> Py B) s b s2 :
  bind c k s = (Return b, s2) ->
  exists a s1, c s = (Return a, s1) /\ k a s1 = (Return b, s2).
Proof.
  unfold bind. destruct (c s) as [[a | e] s1]; intros H.
  - exists a, s1. now split.
  - discriminate.
Qed.

Lemma lift_Return_inv {A : Type} (o : outcome A) s a s1 :
  lift o s = (Return a, s1) -> o = Return a /\ s1 = s.
Proof. unfold lift. intros H. injection H as -> ->. now split. Qed.

(** The next statement of a [py x <- c ;; k] block, when it returned. *)
Ltac py_inv H :=
  let a := fresh "v" in
  let s := fresh "s" in
  let Hc := fresh "Hc" in
  apply bind_Return_inv in H as (a & s & Hc & H);
  try (apply lift_Return_inv in Hc as [Hc ->]).

(** A loop preserves what each of its iterations preserves. *)
Lemma for_each_invariant {X St : Type} (body : X -> St -> Py St)
    (Inv : St -> caches -> Prop) :
  (forall x st s st' s',
     Inv st s -> body x st s = (Return st', s') -> Inv st' s') ->
  forall xs st s st' s',
    Inv st s -> for_each body xs st s = (Return st', s') -> Inv st' s'.
Proof.
  intros Hbody xs. induction xs as [| x rest IH]; intros st s st' s' Hinv Hrun.
  - cbn in Hrun. injection Hrun as <- <-. exact Hinv.
  - cbn in Hrun. apply bind_Return_inv in Hrun as (st1 & s1 & Hx & Hrest).
    eapply IH; [ | exact Hrest]. eapply Hbody; eassumption.
Qed.

(** A loop raises as soon as one of its iterations must. *)
Lemma for_each_raises {X St : Type} (body : X -> St -> Py St)
    (Inv : caches -> Prop) (Bad : X -> Prop) :
  (forall x st s, Inv s -> Bad x -> exists e s', body x st s = (Raise e, s')) ->
  (forall x st s st' s', Inv s -> body x st s = (Return st', s') -> Inv s') ->
  forall xs st s,
    Exists Bad xs -> Inv s -> exists e s', for_each body xs st s = (Raise e, s').
Proof.
  intros Hbad Hkeep xs. induction xs as [| x rest IH]; intros st s Hex Hinv.
  - inversion Hex.
  - cbn. destruct (body x st s) as [[st1 | e] s1] eqn:Hx.
    + rewrite (bind_Return _ _ _ _ _ Hx).
      inversion Hex as [? ? Hb | ? ? Hb]; subst.
      * destruct (Hbad x st s Hinv Hb) as (e & s' & Hr). congruence.
      * apply IH; [exact Hb | eapply Hkeep; eassumption].
    + exists e, s1. now apply bind_Raise.
Qed.

(** ** Timezone normalization *)

Lemma instant_astimezone tz d : instant (astimezone tz d) = instant d.
Proof. unfold astimezone, instant. cbn. lia. Qed.

Lemma astimezone_fixed tz d : utcoffset d = tz -> astimezone tz d = d.
Proof.
  destruct d as [w o]. unfold astimezone, instant. cbn. intros ->.
  f_equal. lia.
Qed.

Example convert_to_gmt3_docstring :
  convert_to_gmt3 Scenario.evening = "2024-04-16".
Proof. vm_compute. reflexivity. Qed.

(** C9.  Date normalization is idempotent: the timestamp [convert_to_gmt3]
    has moved to GMT+3 is left as it is by a second normalization, and
    converting it again gives the calendar date the first conversion
    gave, which is the date it shows. *)
Theorem convert_to_gmt3_idempotent (d : datetime) :
  let normalized := astimezone gmt3_timezone d in
  astimezone gmt3_timezone normalized = normalized
  /\ convert_to_gmt3 normalized = convert_to_gmt3 d
  /\ convert_to_gmt3 normalized = strftime_ymd normalized.
Proof.
  cbn zeta. assert (H : astimezone gmt3_timezone (astimezone gmt3_timezone d)
                        = astimezone gmt3_timezone d)
    by (now apply astimezone_fixed).
  unfold convert_to_gmt3. now rewrite H.
Qed.

(** ** The summary *)

Module SummaryFacts.
Import Dashboard.
Local Open Scope float_scope.
#[local] Set Warnings "-inexact-float".

Lemma series_sum_nil : series_sum nil = 0.
Proof. reflexivity. Qed.

(** Skipping NaN while adding is adding the numbers of the column. *)
Lemma fold_skipping_nan (column : list float) : forall acc,
  fold_left (fun acc x => if PrimFloat.is_nan x then acc else acc + x)
    column acc
  = fold_left (fun acc x => acc + x) (numbers column) acc.
Proof.
  induction column as [| x rest IH]; intros acc; [reflexivity | ].
  cbn [fold_left numbers List.filter].
  destruct (PrimFloat.is_nan x); cbn [negb fold_left]; apply IH.
Qed.

Lemma series_sum_numbers (column : list float) :
  series_sum column = sum_in_row_order (numbers column).
Proof. apply fold_skipping_nan. Qed.


(** A column without NaN is added up whole. *)
Lemma numbers_all (column : list float) :
  Forall (fun x => PrimFloat.is_nan x = false) column ->
  numbers column = column.
Proof.
  induction 1 as [| x rest Hx _ IH]; [reflexivity | ].
  cbn [numbers List.filter]. rewrite Hx. cbn [negb]. f_equal. exact IH.
Qed.


(** The ledgers of the farm's evening: two retired rows, three released
    ones. *)
Example summary_of_two_orders :
  summary
    [mk_retired "1001" "2024-04-16" 0.288 1.0559999999999998;
     mk_retired "1003" "2024-04-16" 0.288 1.0559999999999998]
    [mk_released "1001" "Raw Biochar Transport" "2024-04-16" 0.045;
     mk_released "" "Biomass Transport" "2024-04-16" 0.018;
     mk_released "" "Diesel: " "2024-04-16" 0.268]
  = (1.0559999999999998 + 1.0559999999999998,
     1.0559999999999998 + 1.0559999999999998 - (0.045 + 0.018 + 0.268)).
Proof. vm_compute. reflexivity. Qed.

(** A row of NaN tons leaves the sums as they were. *)
Example summary_skips_nan :
  summary
    [mk_retired "1001" "2024-04-16" 0.288 1.0559999999999998]
    [mk_released "1001" "Raw Biochar Transport" "2024-04-16" PrimFloat.nan;
     mk_released "" "Biomass Transport" "2024-04-16" 0.018]
  = (1.0559999999999998, 1.0559999999999998 - 0.018).
Proof. vm_compute. reflexivity. Qed.

End SummaryFacts.

(** ** Energy and fuel *)

Module CostFacts.
Import Dashboard.
Local Open Scope float_scope.
#[local] Set Warnings "-inexact-float".

(** C7.  An entry of type "Electricity" appends one released row, whose
    Tons CO2eq is value * gramsCO2PerKWh(site) / 1000000; an entry of type
    "Diesel" one whose Tons CO2eq is value * dieselKgCO2PerL(global) /
    1000; the label is "{type}: {notes}". *)
Theorem cost_body_known_types (global_constants site_constants : option constants_doc)
    (cost : cost_doc) (l : locals) (s : caches) (value : float) :
  cost_value cost = Some value ->
  (forall site grams,
     cost_type cost = Some "Electricity" ->
     site_constants = Some site -> gramsCO2PerKWh site = Some grams ->
     let tons := value * grams / 1000000 in
     cost_body global_constants site_constants cost l s
     = (Return (mk_locals (carbon_retired l)
                  (carbon_released l ++ [cost_row cost tons]) (Some tons)), s)
     /\ released_type (cost_row cost tons)
        = "Electricity: " ++ str (cost_notes cost))
  /\ (forall glob diesel,
        cost_type cost = Some "Diesel" ->
        global_constants = Some glob -> dieselKgCO2PerL glob = Some diesel ->
        let tons := value * diesel / 1000 in
        cost_body global_constants site_constants cost l s
        = (Return (mk_locals (carbon_retired l)
                     (carbon_released l ++ [cost_row cost tons]) (Some tons)), s)
        /\ released_type (cost_row cost tons)
           = "Diesel: " ++ str (cost_notes cost)).
Proof.
  intros Hvalue. split.
  - intros site grams Htype -> Hgrams tons.
    unfold cost_body, cost_tons_co2, cost_row, bind, lift, ret.
    rewrite Htype, Hvalue. cbn. rewrite Hgrams. cbn. now split.
  - intros glob diesel Htype -> Hdiesel tons.
    unfold cost_body, cost_tons_co2, cost_row, bind, lift, ret.
    rewrite Htype, Hvalue. cbn. rewrite Hdiesel. cbn. now split.
Qed.

(** The scenarios: 2000 kWh at 400 gCO2/kWh is 0.8 tons, and 100 L of
    diesel at 2.68 kgCO2/L is 0.268 tons. *)
Lemma cost_body_known_types_witness :
  cost_value Scenario.cost_electricity = Some 2000
  /\ Dashboard.cost_body (Some Scenario.global_doc) (Some Scenario.site_doc)
       Scenario.cost_electricity Scenario.no_locals fresh_caches
     = (Return (mk_locals nil
                  [mk_released "e1" "Electricity: grid" Scenario.evening 0.8]
                  (Some 0.8)), fresh_caches).
Proof.
  split; [reflexivity | ].
  exact (proj1 (proj1 (cost_body_known_types (Some Scenario.global_doc)
                         (Some Scenario.site_doc) Scenario.cost_electricity
                         Scenario.no_locals fresh_caches 2000 eq_refl)
                  Scenario.site_doc 400 eq_refl eq_refl eq_refl)).
Defined.

Example diesel_scenario :
  fst (Dashboard.cost_body (Some Scenario.global_doc) (Some Scenario.site_doc)
         Scenario.cost_diesel Scenario.no_locals fresh_caches)
  = Return (mk_locals nil
              [mk_released "d1" "Diesel: generator" Scenario.evening 0.268]
              (Some 0.268)).
Proof. vm_compute. reflexivity. Qed.

End CostFacts.

(** ** IEEE 754 facts the guards rest on *)

Module FloatFacts.
Local Open Scope float_scope.

Lemma eqb_zero_signed_zero x : (x =? 0) = true <-> signed_zero x.
Proof.
  unfold signed_zero. rewrite FloatAxioms.eqb_spec.
  change (Prim2SF 0) with (S754_zero false).
  destruct (Prim2SF x) as [sg | sg | | sg m e]; cbn; try easy.
  all: destruct sg; easy.
Qed.

Lemma is_finite_finite x : PrimFloat.is_finite x = true -> finite x.
Proof.
  unfold PrimFloat.is_finite, PrimFloat.is_nan, PrimFloat.is_infinity, finite.
  rewrite !FloatAxioms.eqb_spec, FloatAxioms.abs_spec.
  change (Prim2SF infinity) with (S754_infinity false).
  destruct (Prim2SF x) as [sg | sg | | sg m e]; cbn; try easy.
  now destruct sg.
Qed.





Lemma mul_signed_zero_l x y : signed_zero x -> finite y -> signed_zero (x * y).
Proof.
  unfold signed_zero, finite. rewrite FloatAxioms.mul_spec.
  destruct (Prim2SF x), (Prim2SF y); cbn; tauto.
Qed.

Lemma mul_signed_zero_r x y : finite x -> signed_zero y -> signed_zero (x * y).
Proof.
  unfold signed_zero, finite. rewrite FloatAxioms.mul_spec.
  destruct (Prim2SF x), (Prim2SF y); cbn; tauto.
Qed.

Lemma div_signed_zero_1000 x : signed_zero x -> signed_zero (x / 1000).
Proof.
  unfold signed_zero. rewrite FloatAxioms.div_spec.
  change (Prim2SF 1000) with (S754_finite false 8796093022208000 (-43)).
  destruct (Prim2SF x); cbn; tauto.
Qed.


(** A rate of 0 over a finite distance, or a finite rate over a distance
    of 0, is 0 tons. *)
Lemma transport_tons_zero rate km :
  ((rate =? 0) = true /\ PrimFloat.is_finite km = true)
  \/ (PrimFloat.is_finite rate = true /\ (km =? 0) = true) ->
  (rate * km / 1000 =? 0) = true.
Proof.
  intros H. apply eqb_zero_signed_zero, div_signed_zero_1000.
  destruct H as [[Hr Hk] | [Hr Hk]].
  - apply mul_signed_zero_l;
      [now apply eqb_zero_signed_zero | now apply is_finite_finite].
  - apply mul_signed_zero_r;
      [now apply is_finite_finite | now apply eqb_zero_signed_zero].
Qed.

End FloatFacts.

(** ** Carbon retired *)

Module RetiredFacts.
Import Dashboard.
Local Open Scope float_scope.
#[local] Set Warnings "-inexact-float".

(** What [order_retired] did when it returned. *)
Lemma order_retired_Return db site_constants order ledger s r s' :
  order_retired db site_constants order ledger s = (Return r, s') ->
  exists name form percent_carbon quantity site density carbon_content,
    first_id (formulation order) = Return name
    /\ get_formulation db name s = (Return (Some form), s')
    /\ Biochar form = Some percent_carbon
    /\ productionQuantity order = Some quantity
    /\ site_constants = Some site
    /\ biocharDensityKgPerL site = Some density
    /\ biocharCarbonContent site = Some carbon_content
    /\ let tons_carbon :=
         quantity * percent_carbon * density / 1000 * carbon_content in
       let tons := tons_carbon * (44 / 12) in
       r = (if 0 <? tons
            then (ledger ++
                  [mk_retired (orderNumber order) (deliveredDate order)
                     tons_carbon tons])%list
            else ledger, tons).
Proof.
  intros H. unfold order_retired in H.
  py_inv H. py_inv H. py_inv H. py_inv H. py_inv H. py_inv H. py_inv H.
  py_inv H.
  destruct v0 as [form |]; [ | discriminate].
  cbn in Hc1. injection Hc1 as <-.
  destruct (productionQuantity order) as [quantity |] eqn:Hq; [ | discriminate].
  destruct (Biochar form) as [pc |] eqn:Hpc; [ | discriminate].
  cbn in Hc2. injection Hc2 as <-.
  destruct site_constants as [site |]; [ | discriminate].
  cbn in Hc3, Hc4. injection Hc3 as <-. injection Hc4 as <-.
  destruct (biocharDensityKgPerL site) as [density |] eqn:Hd; [ | discriminate].
  cbn in Hc5. injection Hc5 as <-.
  destruct (biocharCarbonContent site) as [cc |] eqn:Hcc; [ | discriminate].
  cbn in Hc6. injection Hc6 as <-.
  exists v, form, pc, quantity, site, density, cc.
  repeat (split; [solve [eauto] | ]).
  cbn zeta.
  destruct (0 <? quantity * pc * density / 1000 * cc * (44 / 12));
    unfold ret in H; now injection H as <- <-.
Qed.

(** What [order_body] did to the retired ledger when it returned. *)
Lemma order_body_retired db global_constants site_constants prefix order l s l' s' :
  order_body db global_constants site_constants prefix order l s
  = (Return l', s') ->
  exists r s1,
    order_retired db site_constants order (carbon_retired l) s = (Return r, s1)
    /\ carbon_retired l' = fst r /\ tons_co2 l' = Some (snd r).
Proof.
  intros H. unfold order_body in H. py_inv H. py_inv H.
  unfold ret in H. injection H as <- <-. now exists v, s0.
Qed.



(** The retired ledger of the scenario of the specification: 1000 L at 30 %
    biochar, 1.2 kg/L and 80 % carbon, computed by [do_accounting]. *)
Example scenario_run :
  fst (do_accounting (Scenario.store [Scenario.order_F1] nil nil) "farm"
         Scenario.window_start Scenario.window_end fresh_caches)
  = Return ([mk_retired "1001" "2024-04-16" 0.288 1.0559999999999998],
            [mk_released "1001" "Raw Biochar Transport" "2024-04-16" 0.045],
            0).
Proof. vm_compute. reflexivity. Qed.

(** The row of that scenario carries 0.288 tons of carbon, and a Tons CO2eq
    that is not 1.056: the double product 0.288 * (44/12) is the double
    just below it. *)
Lemma scenario_tons_co2_not_1_056 :
  exists row released total,
    fst (do_accounting (Scenario.store [Scenario.order_F1] nil nil) "farm"
           Scenario.window_start Scenario.window_end fresh_caches)
    = Return ([row], released, total)
    /\ retired_tons_carbon row = 0.288
    /\ (retired_tons_co2eq row =? 1.056) = false
    /\ retired_tons_co2eq row <> 1.056.
Proof.
  eexists. eexists. eexists. split; [vm_compute; reflexivity | ].
  split; [reflexivity | split; [reflexivity | ]].
  intros H. apply (f_equal (fun x => x =? 1.056)) in H. vm_compute in H.
  discriminate.
Qed.

(** C3, as the code has it.  A row of the retired ledger carries
    Tons Carbon = productionQuantity * percentCarbon * biocharDensityKgPerL
    / 1000 * biocharCarbonContent and Tons CO2eq = Tons Carbon * (44/12),
    every operation being the binary64 one, in this order. *)
Theorem retired_row_formula db global_constants site_constants prefix
    order l s l' s' :
  order_body db global_constants site_constants prefix order l s
  = (Return l', s') ->
  carbon_retired l' = carbon_retired l
  \/ exists name form percent_carbon quantity site density carbon_content s1 row,
       first_id (formulation order) = Return name
       /\ get_formulation db name s = (Return (Some form), s1)
       /\ Biochar form = Some percent_carbon
       /\ productionQuantity order = Some quantity
       /\ site_constants = Some site
       /\ biocharDensityKgPerL site = Some density
       /\ biocharCarbonContent site = Some carbon_content
       /\ carbon_retired l' = (carbon_retired l ++ [row])%list
       /\ retired_tons_carbon row
          = quantity * percent_carbon * density / 1000 * carbon_content
       /\ retired_tons_co2eq row = retired_tons_carbon row * (44 / 12).
Proof.
  intros H. apply order_body_retired in H as (r & s1 & Hr & Hledger & _).
  apply order_retired_Return in Hr
    as (name & form & pc & q & site & dens & cc & Hn & Hf & Hpc & Hq & Hs & Hd
        & Hcc & Hr).
  cbn zeta in Hr. subst r. unfold fst in Hledger.
  destruct (0 <? q * pc * dens / 1000 * cc * (44 / 12)).
  - right. exists name, form, pc, q, site, dens, cc, s1.
    eexists. repeat (split; [eassumption | ]). now cbn.
  - now left.
Qed.

(** On the scenario the row carries 0.288 tons of carbon and
    1.0559999999999998 tons of CO2. *)
Lemma retired_row_formula_witness :
  exists l',
    fst (order_body (Scenario.store nil nil nil) (Some Scenario.global_doc)
           (Some Scenario.site_doc) "sites/farm" Scenario.order_F1
           Scenario.no_locals fresh_caches) = Return l'
    /\ carbon_retired l'
       = [mk_retired "1001" Scenario.evening 0.288 1.0559999999999998]
    /\ (carbon_retired l' = nil
        \/ exists name form percent_carbon quantity site density carbon_content
             s1 row,
             first_id (formulation Scenario.order_F1) = Return name
             /\ get_formulation (Scenario.store nil nil nil) name fresh_caches
                = (Return (Some form), s1)
             /\ Biochar form = Some percent_carbon
             /\ productionQuantity Scenario.order_F1 = Some quantity
             /\ Some Scenario.site_doc = Some site
             /\ biocharDensityKgPerL site = Some density
             /\ biocharCarbonContent site = Some carbon_content
             /\ carbon_retired l' = [row]
             /\ retired_tons_carbon row
                = quantity * percent_carbon * density / 1000 * carbon_content
             /\ retired_tons_co2eq row = retired_tons_carbon row * (44 / 12)).
Proof.
  eexists. split; [vm_compute; reflexivity | ].
  split; [reflexivity | ].
  eapply (retired_row_formula (Scenario.store nil nil nil)
            (Some Scenario.global_doc) (Some Scenario.site_doc) "sites/farm"
            Scenario.order_F1 Scenario.no_locals fresh_caches).
  vm_compute. reflexivity.
Defined.

End RetiredFacts.

(** ** Transport of delivered orders *)

Module TransportFacts.
Import Dashboard.
Local Open Scope float_scope.
#[local] Set Warnings "-inexact-float".

(** What [order_transport] did when it returned. *)
Lemma order_transport_Return db global_constants prefix order ledger s ledger' s' :
  order_transport db global_constants prefix order ledger s
  = (Return ledger', s') ->
  exists customer_id,
    first_id (customer order) = Return customer_id
    /\ if incurs_transport order customer_id
       then exists rate km,
           get_customer_distance db prefix customer_id s = (Return (Some km), s')
           /\ transport_rate global_constants
                (first_id_or_None (order_vehicle order)) = Return (Some rate)
           /\ ledger' = (ledger ++ [transport_row order (rate * km / 1000)])%list
       else ledger' = ledger /\ s' = s.
Proof.
  intros H. unfold order_transport in H. py_inv H.
  exists v. split; [exact Hc | ].
  destruct (incurs_transport order v).
  - py_inv H. py_inv H.
    destruct v1 as [rate |], v0 as [km |]; cbn in H;
      try (unfold raise in H; discriminate).
    unfold ret in H. injection H as <- <-.
    exists rate, km. now repeat split.
  - unfold ret in H. now injection H as <- <-.
Qed.

Lemma order_body_released db global_constants site_constants prefix order l s l' s' :
  order_body db global_constants site_constants prefix order l s
  = (Return l', s') ->
  if ships order
  then exists tons,
      carbon_released l' = (carbon_released l ++ [transport_row order tons])%list
  else carbon_released l' = carbon_released l.
Proof.
  intros H. unfold order_body in H. py_inv H. py_inv H.
  unfold ret in H. injection H as <- <-. cbn.
  apply order_transport_Return in Hc0 as (c & Hcust & Hc0).
  unfold ships. rewrite Hcust.
  destruct (incurs_transport order c).
  - destruct Hc0 as (rate & km & _ & _ & ->). now eexists.
  - now destruct Hc0.
Qed.

(** C4.  Over the order loop, the released ledger grows by exactly one
    "Raw Biochar Transport" row for each delivered order that is not
    activated and whose customer is not "DEC", in the order of the loop,
    and by nothing else: an activated order, or an order of "DEC", gets no
    row, whatever its customer, vehicle and distance data are. *)
Theorem transport_rows_of_orders db global_constants site_constants prefix
    (delivered : list order_doc) l s l' s' :
  for_each (order_body db global_constants site_constants prefix) delivered l s
  = (Return l', s') ->
  (exists rows,
     carbon_released l' = (carbon_released l ++ rows)%list
     /\ Forall2
          (fun order row =>
             exists tons,
               row = mk_released (orderNumber order) "Raw Biochar Transport"
                       (deliveredDate order) tons)
          (List.filter ships delivered) rows)
  /\ (forall order, isActivated order = Some true -> ships order = false)
  /\ (forall order, first_id (customer order) = Return "DEC" ->
                    ships order = false)
  /\ (forall order customer_id,
        truthy_bool (isActivated order) = false ->
        first_id (customer order) = Return customer_id ->
        customer_id <> "DEC" -> ships order = true).
Proof.
  intros H. split; [ | split; [ | split]].
  - revert l s H. induction delivered as [| order rest IH]; intros l s H.
    + cbn in H. injection H as <- <-. exists nil. split.
      * now rewrite app_nil_r.
      * constructor.
    + cbn in H. apply bind_Return_inv in H as (l1 & s1 & Hbody & Hrest).
      apply IH in Hrest as (rows & Hrows & Hall).
      apply order_body_released in Hbody. cbn [List.filter].
      destruct (ships order).
      * destruct Hbody as (tons & Hbody).
        exists (transport_row order tons :: rows). split.
        -- rewrite Hrows, Hbody, <- app_assoc. reflexivity.
        -- constructor; [now exists tons | exact Hall].
      * exists rows. split; [now rewrite Hrows, Hbody | exact Hall].
  - intros order Hact. unfold ships, incurs_transport. rewrite Hact.
    now destruct (first_id (customer order)).
  - intros order Hdec. unfold ships, incurs_transport. rewrite Hdec.
    cbn. apply andb_false_r.
  - intros order c Hact Hcust Hne. unfold ships, incurs_transport.
    rewrite Hcust, Hact. cbn. apply negb_true_iff, String.eqb_neq, Hne.
Qed.

(** Three orders in the window: one to ship, one activated with no vehicle
    on record, one for "DEC" with no vehicle on record.  The loop returns
    and the released ledger holds the row of the first alone. *)
Lemma transport_rows_of_orders_witness :
  exists l' s',
    for_each
      (order_body (Scenario.store nil nil nil) (Some Scenario.global_doc)
         (Some Scenario.site_doc) "sites/farm")
      [Scenario.order_F1; Scenario.order_placeholder; Scenario.order_DEC]
      Scenario.no_locals fresh_caches = (Return l', s')
    /\ carbon_released l'
       = [mk_released "1001" "Raw Biochar Transport" Scenario.evening 0.045]
    /\ exists rows,
         carbon_released l' = (nil ++ rows)%list
         /\ Forall2
              (fun order row =>
                 exists tons,
                   row = mk_released (orderNumber order) "Raw Biochar Transport"
                           (deliveredDate order) tons)
              [Scenario.order_F1] rows.
Proof.
  eexists. eexists. split; [vm_compute; reflexivity | ].
  split; [reflexivity | ].
  refine (proj1 (transport_rows_of_orders (Scenario.store nil nil nil)
                   (Some Scenario.global_doc) (Some Scenario.site_doc)
                   "sites/farm"
                   [Scenario.order_F1; Scenario.order_placeholder;
                    Scenario.order_DEC]
                   Scenario.no_locals fresh_caches _ _ _)).
  vm_compute. reflexivity.
Defined.

(** An activated order, and an order of "DEC", leave [order_transport]
    without a look at the store or at the constants. *)
Lemma order_transport_skipped db global_constants prefix order ledger s customer_id :
  first_id (customer order) = Return customer_id ->
  isActivated order = Some true \/ customer_id = "DEC" ->
  order_transport db global_constants prefix order ledger s = (Return ledger, s).
Proof.
  intros Hcust Hskip. unfold order_transport, bind, lift. rewrite Hcust.
  assert (Hno : incurs_transport order customer_id = false).
  { unfold incurs_transport. destruct Hskip as [-> | ->]; [reflexivity | ].
    apply andb_false_r. }
  now rewrite Hno.
Qed.

End TransportFacts.

(** ** Zero rates and zero distances *)

Module ZeroFacts.
Import Dashboard.
Local Open Scope float_scope.
#[local] Set Warnings "-inexact-float".

(** C10.  A rate of 0, or a distance of 0, is data for an order and a
    fault for a biomass input.  For an order to ship, the [is None] guard
    lets it through and the released row carries 0 tons (the other factor
    being a finite number); for an input, the truthiness guard raises the
    [ValueError]. *)
Theorem zero_passes_orders_faults_inputs :
  (forall db global_constants prefix order ledger s s1 customer_id rate km,
     first_id (customer order) = Return customer_id ->
     incurs_transport order customer_id = true ->
     get_customer_distance db prefix customer_id s = (Return (Some km), s1) ->
     transport_rate global_constants (first_id_or_None (order_vehicle order))
     = Return (Some rate) ->
     ((rate =? 0) = true /\ PrimFloat.is_finite km = true)
     \/ (PrimFloat.is_finite rate = true /\ (km =? 0) = true) ->
     exists tons,
       order_transport db global_constants prefix order ledger s
       = (Return (ledger ++ [transport_row order tons])%list, s1)
       /\ (tons =? 0) = true)
  /\ (forall db global_constants prefix input l s s1 supplier_id rate km,
        first_id (supplier input) = Return supplier_id ->
        get_supplier_distance db prefix supplier_id s = (Return km, s1) ->
        transport_rate global_constants (first_id_or_None (input_vehicle input))
        = Return rate ->
        (exists r, rate = Some r /\ (r =? 0) = true)
        \/ (exists k, km = Some k /\ (k =? 0) = true) ->
        input_body db global_constants prefix input l s
        = (Raise input_fault, s1)).
Proof.
  split.
  - intros db gc prefix order ledger s s1 c rate km Hcust Hship Hkm Hrate Hzero.
    exists (rate * km / 1000). split.
    + unfold order_transport. unfold bind at 1. unfold lift at 1.
      rewrite Hcust, Hship. rewrite (bind_Return _ _ _ _ _ Hkm).
      unfold bind, lift. rewrite Hrate. reflexivity.
    + now apply FloatFacts.transport_tons_zero.
  - intros db gc prefix input l s s1 sup rate km Hsup Hkm Hrate Hzero.
    unfold input_body.
    assert (Htruthy : truthy_refs (supplier input) = true).
    { destruct (supplier input) as [[| x rest] |]; now try discriminate. }
    rewrite Htruthy. cbn [negb]. unfold bind at 1. unfold lift at 1.
    rewrite Hsup. rewrite (bind_Return _ _ _ _ _ Hkm).
    unfold bind at 1. unfold lift at 1. rewrite Hrate.
    assert (Hguard : negb (truthy rate) || negb (truthy km) = true).
    { destruct Hzero as [(r & -> & Hr) | (k & -> & Hk)]; cbn.
      - now rewrite Hr.
      - rewrite Hk. apply orb_true_r. }
    now rewrite Hguard.
Qed.

(** The vehicle "cart" has rate 0.  An order shipped by cart gets a row of
    0 tons; a biomass input delivered by cart faults. *)
Lemma zero_passes_orders_faults_inputs_witness :
  (exists tons,
     order_transport (Scenario.store nil nil nil) (Some Scenario.global_doc)
       "sites/farm" Scenario.order_cart nil fresh_caches
     = (Return [transport_row Scenario.order_cart tons],
        snd (get_customer_distance (Scenario.store nil nil nil) "sites/farm"
               "c1" fresh_caches))
     /\ (tons =? 0) = true)
  /\ input_body (Scenario.store nil nil nil) (Some Scenario.global_doc)
       "sites/farm" Scenario.input_cart Scenario.no_locals fresh_caches
     = (Raise input_fault,
        snd (get_supplier_distance (Scenario.store nil nil nil) "sites/farm"
               "s1" fresh_caches)).
Proof.
  split.
  - refine (proj1 zero_passes_orders_faults_inputs (Scenario.store nil nil nil)
              (Some Scenario.global_doc) "sites/farm" Scenario.order_cart nil
              fresh_caches _ "c1" 0 50 _ _ _ _ _).
    + reflexivity.
    + reflexivity.
    + vm_compute. reflexivity.
    + vm_compute. reflexivity.
    + left. split; reflexivity.
  - refine (proj2 zero_passes_orders_faults_inputs (Scenario.store nil nil nil)
              (Some Scenario.global_doc) "sites/farm" Scenario.input_cart
              Scenario.no_locals fresh_caches _ "s1" (Some 0) (Some 20)
              _ _ _ _).
    + reflexivity.
    + vm_compute. reflexivity.
    + vm_compute. reflexivity.
    + left. exists 0. split; reflexivity.
Defined.

(** The same, at the interface: a run over the order returns a ledger, a
    run over the input raises. *)
Example zero_rate_order_run :
  fst (do_accounting (Scenario.store [Scenario.order_cart] nil nil) "farm"
         Scenario.window_start Scenario.window_end fresh_caches)
  = Return ([mk_retired "1005" "2024-04-16" 0.288 1.0559999999999998],
            [mk_released "1005" "Raw Biochar Transport" "2024-04-16" 0],
            0).
Proof. vm_compute. reflexivity. Qed.

Example zero_rate_input_run :
  fst (do_accounting (Scenario.store nil [Scenario.input_cart] nil) "farm"
         Scenario.window_start Scenario.window_end fresh_caches)
  = Raise input_fault.
Proof. vm_compute. reflexivity. Qed.

(** Past the guard a NaN distance is not caught either: the row carries
    NaN tons. *)
Example zero_rate_nan_distance :
  (0 * PrimFloat.nan / 1000 =? 0) = false.
Proof. reflexivity. Qed.

End ZeroFacts.

(** ** Carbon costs of a type without a rule *)

Module UnknownCostFacts.
Import Dashboard.
Local Open Scope float_scope.
#[local] Set Warnings "-inexact-float".

(** An entry that is neither "Electricity" nor "Diesel" takes neither
    branch: its row carries whatever [tons_co2] was bound to before, and
    the loop raises only when the name was never bound. *)
Lemma cost_body_unknown_type global_constants site_constants cost l s :
  field_is (cost_type cost) "Electricity" = false ->
  field_is (cost_type cost) "Diesel" = false ->
  cost_body global_constants site_constants cost l s
  = match tons_co2 l with
    | Some stale =>
        (Return (mk_locals (carbon_retired l)
                   (carbon_released l ++ [cost_row cost stale]) (Some stale)),
         s)
    | None => (Raise UnboundLocalError, s)
    end.
Proof.
  intros He Hd. unfold cost_body, cost_tons_co2, bind, lift.
  rewrite He, Hd. now destruct (tons_co2 l).
Qed.

(** C6, at the failing input.  An entry of type "Water" after an entry of
    2000 kWh of electricity: the run returns, and the released ledger
    holds a row "Water: None" with the 0.8 tons of the electricity. *)
Theorem unknown_cost_type_reuses_stale_tons :
  fst (do_accounting
         (Scenario.store nil nil [Scenario.cost_electricity; Scenario.cost_water])
         "farm" Scenario.window_start Scenario.window_end fresh_caches)
  = Return (nil,
            [mk_released "e1" "Electricity: grid" "2024-04-16" 0.8;
             mk_released "w1" "Water: None" "2024-04-16" 0.8],
            0).
Proof. vm_compute. reflexivity. Qed.

(** With no entry before it but a delivered order, the row carries the
    tons of CO2 retired by the last order. *)
Example unknown_cost_type_after_order :
  fst (do_accounting
         (Scenario.store [Scenario.order_F1] nil [Scenario.cost_water])
         "farm" Scenario.window_start Scenario.window_end fresh_caches)
  = Return ([mk_retired "1001" "2024-04-16" 0.288 1.0559999999999998],
            [mk_released "1001" "Raw Biochar Transport" "2024-04-16" 0.045;
             mk_released "w1" "Water: None" "2024-04-16" 1.0559999999999998],
            0).
Proof. vm_compute. reflexivity. Qed.

(** With nothing before it, the run raises, but not a fault of its own. *)
Example unknown_cost_type_alone :
  fst (do_accounting (Scenario.store nil nil [Scenario.cost_water])
         "farm" Scenario.window_start Scenario.window_end fresh_caches)
  = Raise UnboundLocalError.
Proof. vm_compute. reflexivity. Qed.

(** The carbon-cost loop of [carbon-calculator/app.py] does the same. *)
Example calculator_unknown_cost_type :
  fst (Calculator.cost_body (Some Scenario.global_doc) (Some Scenario.site_doc)
         Scenario.cost_water (Calculator.mk_locals nil nil (Some 0.8))
         fresh_caches)
  = Return (Calculator.mk_locals nil
              [Calculator.mk_released Scenario.evening 0.8 "Water: None"]
              (Some 0.8)).
Proof. vm_compute. reflexivity. Qed.

End UnknownCostFacts.

(** ** The resolvers' caches *)

Module CacheFacts.
Local Open Scope float_scope.

Lemma get_customer_distance_cached db prefix customer_id s cached :
  customer_cache s !! customer_id = Some cached ->
  get_customer_distance db prefix customer_id s = (Return cached, s).
Proof. intros H. unfold get_customer_distance. now rewrite H. Qed.

Lemma get_supplier_distance_cached db prefix supplier_id s cached :
  supplier_cache s !! supplier_id = Some cached ->
  get_supplier_distance db prefix supplier_id s = (Return cached, s).
Proof. intros H. unfold get_supplier_distance. now rewrite H. Qed.

(** A call that returned left its answer in the cache, under the id. *)
Lemma get_customer_distance_caches db prefix customer_id s d s1 :
  get_customer_distance db prefix customer_id s = (Return d, s1) ->
  customer_cache s1 !! customer_id = Some d.
Proof.
  unfold get_customer_distance.
  destruct (customer_cache s !! customer_id) as [cached |] eqn:Hhit.
  - intros H. injection H as <- <-. exact Hhit.
  - destruct (customers db !! (prefix, customer_id)) as [info |];
      [ | discriminate].
    intros H. injection H as <- <-. cbn. apply lookup_insert_eq.
Qed.

Lemma get_supplier_distance_caches db prefix supplier_id s d s1 :
  get_supplier_distance db prefix supplier_id s = (Return d, s1) ->
  supplier_cache s1 !! supplier_id = Some d.
Proof.
  unfold get_supplier_distance.
  destruct (supplier_cache s !! supplier_id) as [cached |] eqn:Hhit.
  - intros H. injection H as <- <-. exact Hhit.
  - destruct (suppliers db !! (prefix, supplier_id)) as [info |];
      [ | discriminate].
    intros H. injection H as <- <-. cbn. apply lookup_insert_eq.
Qed.

(** C8.  The distance resolvers memoize by the id alone.  After a call
    with prefix [p1] has returned, a call for the same id with any prefix
    [p2] answers what the first call answered and leaves the caches and
    the log of store lookups as they were: it fetches nothing. *)
Theorem resolvers_memoize_by_id db (p1 p2 id : string) s d s1 :
  (get_customer_distance db p1 id s = (Return d, s1) ->
   customer_cache s1 !! id = Some d
   /\ get_customer_distance db p2 id s1 = (Return d, s1)
   /\ lookups (snd (get_customer_distance db p2 id s1)) = lookups s1)
  /\ (get_supplier_distance db p1 id s = (Return d, s1) ->
      supplier_cache s1 !! id = Some d
      /\ get_supplier_distance db p2 id s1 = (Return d, s1)
      /\ lookups (snd (get_supplier_distance db p2 id s1)) = lookups s1).
Proof.
  split; intros H.
  - apply get_customer_distance_caches in H.
    rewrite (get_customer_distance_cached db p2 id s1 d H). now repeat split.
  - apply get_supplier_distance_caches in H.
    rewrite (get_supplier_distance_cached db p2 id s1 d H). now repeat split.
Qed.

(** Customer "c1" is 50 km from the farm and 70 km from the mill.  Asked
    for the mill after the farm, the resolver answers 50 and fetches
    nothing; the same for supplier "s1", 20 km and 90 km away. *)
Lemma resolvers_memoize_by_id_witness :
  let db := Scenario.store nil nil nil in
  let s1 := snd (get_customer_distance db "sites/farm" "c1" fresh_caches) in
  let s2 := snd (get_supplier_distance db "sites/farm" "s1" fresh_caches) in
  (lookups s1 = ["sites/farm/customers/c1"]
   /\ fst (get_customer_distance db "sites/mill" "c1" fresh_caches)
      = Return (Some 70)
   /\ get_customer_distance db "sites/mill" "c1" s1 = (Return (Some 50), s1))
  /\ (lookups s2 = ["sites/farm/suppliers/s1"]
      /\ fst (get_supplier_distance db "sites/mill" "s1" fresh_caches)
         = Return (Some 90)
      /\ get_supplier_distance db "sites/mill" "s1" s2 = (Return (Some 20), s2)).
Proof.
  cbv zeta. split.
  - split; [vm_compute; reflexivity | split; [vm_compute; reflexivity | ]].
    refine (proj1 (proj2 (proj1
      (resolvers_memoize_by_id (Scenario.store nil nil nil) "sites/farm"
         "sites/mill" "c1" fresh_caches (Some 50) _) _))).
    vm_compute. reflexivity.
  - split; [vm_compute; reflexivity | split; [vm_compute; reflexivity | ]].
    refine (proj1 (proj2 (proj2
      (resolvers_memoize_by_id (Scenario.store nil nil nil) "sites/farm"
         "sites/mill" "s1" fresh_caches (Some 20) _) _))).
    vm_compute. reflexivity.
Defined.

End CacheFacts.

(** ** Missing transport data aborts the run *)

Module AbortFacts.
Import Dashboard.
Local Open Scope float_scope.
#[local] Set Warnings "-inexact-float".

Section Logic.

Variable Inv : caches -> Prop.

Lemma hoare_ret {A : Type} (a : A) (Q : A -> Prop) : Q a -> hoare Inv (ret a) Q.
Proof. intros HQ s b s' Hs H. unfold ret in H. injection H as <- <-. now split. Qed.

Lemma hoare_lift {A : Type} (o : outcome A) (Q : A -> Prop) :
  (forall a, o = Return a -> Q a) -> hoare Inv (lift o) Q.
Proof.
  intros HQ s a s' Hs H. apply lift_Return_inv in H as [-> ->]. split; auto.
Qed.

Lemma hoare_bind {A B : Type} (c : Py A) (k : A -> Py B) (P : A -> Prop)
    (Q : B -> Prop) :
  hoare Inv c P -> (forall a, P a -> hoare Inv (k a) Q) -> hoare Inv (bind c k) Q.
Proof.
  intros Hc Hk s b s' Hs H. apply bind_Return_inv in H as (a & s1 & Ha & Hb).
  destruct (Hc s a s1 Hs Ha) as [Hs1 HP]. exact (Hk a HP s1 b s' Hs1 Hb).
Qed.

Lemma hoare_weaken {A : Type} (c : Py A) (P Q : A -> Prop) :
  hoare Inv c P -> (forall a, P a -> Q a) -> hoare Inv c Q.
Proof. intros Hc HPQ s a s' Hs H. destruct (Hc s a s' Hs H). split; auto. Qed.

Lemma must_raise_raise {A : Type} (e : exn) : must_raise Inv (@raise A e).
Proof. intros s _. now exists e, s. Qed.

Lemma must_raise_lift {A : Type} (o : outcome A) :
  returned o = false -> must_raise Inv (lift o).
Proof. intros Ho s _. destruct o as [a | e]; [discriminate | now exists e, s]. Qed.

Lemma must_raise_bind {A B : Type} (c : Py A) (k : A -> Py B) (P : A -> Prop) :
  hoare Inv c P -> (forall a, P a -> must_raise Inv (k a)) ->
  must_raise Inv (bind c k).
Proof.
  intros Hc Hk s Hs. destruct (c s) as [[a | e] s1] eqn:Ha.
  - destruct (Hc s a s1 Hs Ha) as [Hs1 HP].
    rewrite (bind_Return _ _ _ _ _ Ha). exact (Hk a HP s1 Hs1).
  - exists e, s1. now apply bind_Raise.
Qed.

End Logic.

Lemma must_raise_bind_l (Inv : caches -> Prop) {A B : Type} (c : Py A)
    (k : A -> Py B) :
  must_raise Inv c -> must_raise Inv (bind c k).
Proof.
  intros Hc s Hs. destruct (Hc s Hs) as (e & s' & H).
  exists e, s'. now apply bind_Raise.
Qed.

Section Site.

Variable db : firestore.
Variable global_constants site_constants : option constants_doc.
Variable prefix : string.

(** The caches the run starts from. *)
Variable s0 : caches.

Let Inv : caches -> Prop := caches_since db prefix s0.

Lemma caches_since_start : Inv s0.
Proof.
  unfold Inv, caches_since, customer_distance_resolved,
    supplier_distance_resolved.
  repeat split; try (intros id H; exact H); intros id d H; now rewrite H.
Qed.

Lemma hoare_get_formulation name :
  hoare Inv (get_formulation db name) (fun _ => True).
Proof.
  intros s a s' Hs H. unfold get_formulation in H.
  destruct (formulation_cache s !! name); injection H as <- <-; now split.
Qed.

Lemma hoare_get_customer_distance id :
  hoare Inv (get_customer_distance db prefix id)
    (fun d => d = customer_distance_resolved db prefix s0 id).
Proof.
  intros s a s' (Hhit & Hmiss & Hsup) H. unfold get_customer_distance in H.
  destruct (customer_cache s !! id) as [cached |] eqn:Hid.
  - injection H as <- <-. split; [now repeat split | now apply Hhit].
  - destruct (customers db !! (prefix, id)) as [info |] eqn:Hdoc;
      [ | discriminate].
    injection H as <- <-.
    assert (Hnew : distance info = customer_distance_resolved db prefix s0 id).
    { unfold customer_distance_resolved, customer_distance_in_store.
      now rewrite (Hmiss id Hid), Hdoc. }
    split; [ | exact Hnew]. split; [ | split]; cbn; [ | | exact Hsup].
    + intros id' d Hlook. destruct (decide (id = id')) as [<- | Hne].
      * rewrite lookup_insert_eq in Hlook. now injection Hlook as <-.
      * rewrite lookup_insert_ne in Hlook by exact Hne. now apply Hhit.
    + intros id' Hlook. destruct (decide (id = id')) as [<- | Hne].
      * now rewrite lookup_insert_eq in Hlook.
      * rewrite lookup_insert_ne in Hlook by exact Hne. now apply Hmiss.
Qed.

Lemma hoare_get_supplier_distance id :
  hoare Inv (get_supplier_distance db prefix id)
    (fun d => d = supplier_distance_resolved db prefix s0 id).
Proof.
  intros s a s' (Hc1 & Hc2 & Hhit & Hmiss) H. unfold get_supplier_distance in H.
  destruct (supplier_cache s !! id) as [cached |] eqn:Hid.
  - injection H as <- <-. split; [now repeat split | now apply Hhit].
  - destruct (suppliers db !! (prefix, id)) as [info |] eqn:Hdoc;
      [ | discriminate].
    injection H as <- <-.
    assert (Hnew : distance info = supplier_distance_resolved db prefix s0 id).
    { unfold supplier_distance_resolved, supplier_distance_in_store.
      now rewrite (Hmiss id Hid), Hdoc. }
    split; [ | exact Hnew]. split; [exact Hc1 | split; [exact Hc2 | ]].
    split; cbn.
    + intros id' d Hlook. destruct (decide (id = id')) as [<- | Hne].
      * rewrite lookup_insert_eq in Hlook. now injection Hlook as <-.
      * rewrite lookup_insert_ne in Hlook by exact Hne. now apply Hhit.
    + intros id' Hlook. destruct (decide (id = id')) as [<- | Hne].
      * now rewrite lookup_insert_eq in Hlook.
      * rewrite lookup_insert_ne in Hlook by exact Hne. now apply Hmiss.
Qed.

Ltac hoare_steps :=
  repeat first
    [ apply hoare_ret; exact I
    | eapply hoare_bind;
      [ first [ apply hoare_get_formulation
              | eapply hoare_weaken;
                [apply hoare_get_customer_distance | intros; exact I]
              | eapply hoare_weaken;
                [apply hoare_get_supplier_distance | intros; exact I]
              | apply hoare_lift; intros; exact I ]
      | intros ? _ ] ].

Lemma hoare_order_retired order ledger :
  hoare Inv (order_retired db site_constants order ledger) (fun _ => True).
Proof.
  unfold order_retired. hoare_steps.
  destruct (0 <? _); apply hoare_ret; exact I.
Qed.

Lemma hoare_order_transport order ledger :
  hoare Inv (order_transport db global_constants prefix order ledger)
    (fun _ => True).
Proof.
  unfold order_transport. hoare_steps.
  destruct (incurs_transport order _); [ | apply hoare_ret; exact I].
  hoare_steps. destruct (is_None _ || is_None _).
  - intros ? ? ? _ H. discriminate.
  - hoare_steps.
Qed.

Lemma hoare_order_body order l :
  hoare Inv (order_body db global_constants site_constants prefix order l)
    (fun _ => True).
Proof.
  unfold order_body.
  eapply hoare_bind; [apply hoare_order_retired | intros ? _].
  eapply hoare_bind; [apply hoare_order_transport | intros ? _].
  apply hoare_ret; exact I.
Qed.

Lemma hoare_input_body input l :
  hoare Inv (input_body db global_constants prefix input l) (fun _ => True).
Proof.
  unfold input_body. destruct (negb (truthy_refs (supplier input))).
  - intros ? ? ? _ H. discriminate.
  - hoare_steps. destruct (negb (truthy _) || negb (truthy _)).
    + intros ? ? ? _ H. discriminate.
    + hoare_steps.
Qed.

Lemma rate_unresolved_None vehicle rate :
  rate_unresolved global_constants vehicle = true ->
  transport_rate global_constants (first_id_or_None vehicle) = Return rate ->
  rate = None.
Proof.
  unfold rate_unresolved. intros H E. rewrite E in H. now destruct rate.
Qed.

(** An order that misses its transport data makes its iteration raise. *)
Lemma order_body_must_raise order l :
  order_misses_transport_data db global_constants prefix s0 order = true ->
  must_raise Inv (order_body db global_constants site_constants prefix order l).
Proof.
  unfold order_misses_transport_data. intros Hbad.
  destruct (first_id (customer order)) as [c | e] eqn:Hcust; [ | discriminate].
  apply andb_true_iff in Hbad as [Hship Hbad].
  unfold order_body.
  eapply must_raise_bind; [apply hoare_order_retired | intros retired _].
  apply must_raise_bind_l. unfold order_transport. rewrite Hcust.
  eapply must_raise_bind;
    [apply hoare_lift with (Q := fun a => a = c); congruence | intros ? ->].
  rewrite Hship.
  eapply must_raise_bind; [apply hoare_get_customer_distance | intros km ->].
  eapply must_raise_bind;
    [apply hoare_lift
       with (Q := fun a => transport_rate global_constants
                             (first_id_or_None (order_vehicle order)) = Return a);
     auto | intros rate Hrate].
  assert (Hguard : is_None rate
                   || is_None (customer_distance_resolved db prefix s0 c) = true).
  { apply orb_true_iff in Hbad as [Hbad | Hbad].
    - now rewrite (rate_unresolved_None _ _ Hbad Hrate).
    - rewrite Hbad. apply orb_true_r. }
  rewrite Hguard. apply must_raise_raise.
Qed.

(** So does a biomass input that misses its own. *)
Lemma input_body_must_raise input l :
  input_misses_transport_data db global_constants prefix s0 input = true ->
  must_raise Inv (input_body db global_constants prefix input l).
Proof.
  unfold input_misses_transport_data, input_body. intros Hbad.
  destruct (truthy_refs (supplier input)) eqn:Htruthy; cbn [negb];
    [ | apply must_raise_raise].
  destruct (supplier input) as [[| sid rest] |]; try discriminate.
  cbn in Hbad |- *.
  eapply must_raise_bind;
    [apply hoare_lift with (Q := fun a => a = sid); congruence | intros ? ->].
  eapply must_raise_bind; [apply hoare_get_supplier_distance | intros km ->].
  eapply must_raise_bind;
    [apply hoare_lift
       with (Q := fun a => transport_rate global_constants
                             (first_id_or_None (input_vehicle input)) = Return a);
     auto | intros rate Hrate].
  assert (Hguard : negb (truthy rate)
                   || negb (truthy (supplier_distance_resolved db prefix s0 sid))
                   = true).
  { apply orb_true_iff in Hbad as [Hbad | Hbad].
    - now rewrite (rate_unresolved_None _ _ Hbad Hrate).
    - destruct (supplier_distance_resolved db prefix s0 sid); [discriminate | ].
      apply orb_true_r. }
  rewrite Hguard. apply must_raise_raise.
Qed.

End Site.

(** A run in whose window a record misses its transport data raises. *)
Lemma run_missing_data_raises db site start_date end_date s :
  let prefix := collection_path_prefix site in
  let global_constants := constants db !! "global" in
  Exists
    (fun order =>
       order_misses_transport_data db global_constants prefix s order = true)
    (delivered_orders db prefix start_date end_date)
  \/ Exists
       (fun input =>
          input_misses_transport_data db global_constants prefix s input = true)
       (biomass_inputs db prefix start_date end_date) ->
  exists e s', do_accounting db site start_date end_date s = (Raise e, s').
Proof.
  intros prefix global_constants Hbad.
  pose proof (caches_since_start db prefix s) as Hs.
  unfold do_accounting. fold prefix. fold global_constants.
  set (site_constants := constants db !! site).
  set (orders_loop :=
         for_each (order_body db global_constants site_constants prefix)
           (delivered_orders db prefix start_date end_date)
           (mk_locals nil nil None)).
  assert (Hkeep : forall l1 s1,
             orders_loop s = (Return l1, s1) -> caches_since db prefix s s1).
  { intros l1 s1 Hrun.
    refine (for_each_invariant _ (fun _ s1 => caches_since db prefix s s1) _
              _ _ _ _ _ Hs Hrun).
    intros x st s1' st' s2' Hinv Hx.
    exact (proj1 (hoare_order_body db global_constants site_constants prefix s
                    x st s1' st' s2' Hinv Hx)). }
  destruct Hbad as [Hbad | Hbad].
  - destruct (for_each_raises
                (order_body db global_constants site_constants prefix)
                (caches_since db prefix s)
                (fun order =>
                   order_misses_transport_data db global_constants prefix s
                     order = true)) with
      (xs := delivered_orders db prefix start_date end_date)
      (st := mk_locals nil nil None) (s := s) as (e & s' & Hraise).
    + intros x st s1 Hinv Hx.
      exact (order_body_must_raise db global_constants site_constants prefix s
               x st Hx s1 Hinv).
    + intros x st s1 st' s1' Hinv Hx.
      exact (proj1 (hoare_order_body db global_constants site_constants
                      prefix s x st s1 st' s1' Hinv Hx)).
    + exact Hbad.
    + exact Hs.
    + exists e, s'. now apply bind_Raise.
  - destruct (orders_loop s) as [[l1 | e] s1] eqn:Horders.
    + rewrite (bind_Return _ _ _ _ _ Horders).
      destruct (for_each_raises (input_body db global_constants prefix)
                  (caches_since db prefix s)
                  (fun input =>
                     input_misses_transport_data db global_constants prefix s
                       input = true)) with
        (xs := biomass_inputs db prefix start_date end_date)
        (st := l1) (s := s1) as (e & s' & Hraise).
      * intros x st s2 Hinv Hx.
        exact (input_body_must_raise db global_constants prefix s x st Hx
                 s2 Hinv).
      * intros x st s2 st' s2' Hinv Hx.
        exact (proj1 (hoare_input_body db global_constants prefix s x st
                        s2 st' s2' Hinv Hx)).
      * exact Hbad.
      * now apply (Hkeep l1 s1).
      * exists e, s'. now apply bind_Raise.
    + exists e, s1. now apply bind_Raise.
Qed.

(** C1.  A run in whose window some order due a transport row misses its
    vehicle, the rate of its vehicle or the distance of its customer, or
    some biomass input misses its supplier, its vehicle, the rate or the
    distance of its supplier, raises, whatever caches it starts from: it
    hands its caller an exception, and neither ledger nor total.  A
    distance is missing when the resolver has none to answer: none cached
    under the id, and none in the store of the site. *)
Theorem missing_transport_data_aborts db site start_date end_date s :
  let prefix := collection_path_prefix site in
  let global_constants := constants db !! "global" in
  Exists
    (fun order =>
       order_misses_transport_data db global_constants prefix s order = true)
    (delivered_orders db prefix start_date end_date)
  \/ Exists
       (fun input =>
          input_misses_transport_data db global_constants prefix s input = true)
       (biomass_inputs db prefix start_date end_date) ->
  exists e s',
    do_accounting db site start_date end_date s = (Raise e, s')
    /\ returned (fst (do_accounting db site start_date end_date s)) = false.
Proof.
  intros prefix global_constants Hbad.
  destruct (run_missing_data_raises db site start_date end_date s Hbad)
    as (e & s' & H).
  exists e, s'. split; [exact H | now rewrite H].
Qed.

(** Two orders to ship, the second with no vehicle on record: the run
    raises, and the row of the first order is lost with it. *)
Lemma missing_transport_data_aborts_witness :
  exists e s',
    do_accounting
      (Scenario.store [Scenario.order_F1; Scenario.order_no_vehicle] nil nil)
      "farm" Scenario.window_start Scenario.window_end fresh_caches
    = (Raise e, s')
    /\ returned
         (fst (do_accounting
                 (Scenario.store [Scenario.order_F1; Scenario.order_no_vehicle]
                    nil nil)
                 "farm" Scenario.window_start Scenario.window_end fresh_caches))
       = false.
Proof.
  apply (missing_transport_data_aborts
           (Scenario.store [Scenario.order_F1; Scenario.order_no_vehicle] nil nil)
           "farm" Scenario.window_start Scenario.window_end fresh_caches).
  left.
  assert (E : delivered_orders
                (Scenario.store [Scenario.order_F1; Scenario.order_no_vehicle]
                   nil nil)
                (collection_path_prefix "farm")
                Scenario.window_start Scenario.window_end
              = [Scenario.order_F1; Scenario.order_no_vehicle])
    by (vm_compute; reflexivity).
  rewrite E. apply Exists_cons_tl, Exists_cons_hd. vm_compute. reflexivity.
Defined.

Lemma caches_agree_fresh db prefix : caches_agree db prefix fresh_caches.
Proof. split; intros id d H; cbn in H; now rewrite lookup_empty in H. Qed.

(** In caches that agree with the store of the site, what the resolver
    answers is what the store holds. *)
Lemma resolved_of_agreeing_caches db prefix s :
  caches_agree db prefix s ->
  (forall id, customer_distance_resolved db prefix s id
              = customer_distance_in_store db prefix id)
  /\ (forall id, supplier_distance_resolved db prefix s id
                 = supplier_distance_in_store db prefix id).
Proof.
  intros [Hc Hs]. split; intros id.
  - unfold customer_distance_resolved, customer_distance_in_store.
    destruct (customer_cache s !! id) as [d |] eqn:Hid; [ | reflexivity].
    now destruct (Hc id d Hid) as (info & -> & <-).
  - unfold supplier_distance_resolved, supplier_distance_in_store.
    destruct (supplier_cache s !! id) as [d |] eqn:Hid; [ | reflexivity].
    now destruct (Hs id d Hid) as (info & -> & <-).
Qed.

(** So a run started from such caches, those of a fresh process among
    them, raises as soon as the store of the site lacks the distance. *)
Lemma missing_store_data_aborts db site start_date end_date s :
  let prefix := collection_path_prefix site in
  let global_constants := constants db !! "global" in
  caches_agree db prefix s ->
  Exists
    (fun order =>
       order_lacks_transport_data db global_constants prefix order = true)
    (delivered_orders db prefix start_date end_date)
  \/ Exists
       (fun input =>
          input_lacks_transport_data db global_constants prefix input = true)
       (biomass_inputs db prefix start_date end_date) ->
  exists e s', do_accounting db site start_date end_date s = (Raise e, s').
Proof.
  intros prefix global_constants Hs Hbad.
  destruct (resolved_of_agreeing_caches db prefix s Hs) as [Hc Hp].
  apply run_missing_data_raises. fold prefix. fold global_constants.
  destruct Hbad as [Hbad | Hbad]; [left | right];
    (eapply Exists_impl; [exact Hbad | ]); intros x Hx; cbn beta in Hx |- *.
  - unfold order_misses_transport_data, order_lacks_transport_data in *.
    destruct (first_id (customer x)); [ | exact Hx]. now rewrite Hc.
  - unfold input_misses_transport_data, input_lacks_transport_data in *.
    destruct (first_id (supplier x)); [ | exact Hx]. now rewrite Hp.
Qed.

(** The key of the distance caches is the id alone.  In a process that has
    resolved customer "c1" for the mill, 70 km away, the run for the farm,
    whose store has no distance for its own "c1", finds the 70 km in the
    cache: nothing is missing for it, and it charges the order 0.063 tons.
    From the caches of a fresh process the same run raises. *)
Example cached_distance_of_another_site :
  order_lacks_transport_data (Stale.store [Scenario.order_F1])
    (Some Scenario.global_doc) "sites/farm" Scenario.order_F1 = true
  /\ order_misses_transport_data (Stale.store [Scenario.order_F1])
       (Some Scenario.global_doc) "sites/farm" Stale.caches_of_the_mill
       Scenario.order_F1 = false
  /\ fst (do_accounting (Stale.store [Scenario.order_F1]) "farm"
            Scenario.window_start Scenario.window_end Stale.caches_of_the_mill)
     = Return ([mk_retired "1001" "2024-04-16" 0.288 1.0559999999999998],
               [mk_released "1001" "Raw Biochar Transport" "2024-04-16" 0.063],
               0)
  /\ fst (do_accounting (Stale.store [Scenario.order_F1]) "farm"
            Scenario.window_start Scenario.window_end fresh_caches)
     = Raise (ValueError
                "Order 1001 is missing vehicle, transportation cost constant, or customer distance").
Proof. vm_compute. repeat split. Qed.

Example missing_vehicle_run :
  fst (do_accounting
         (Scenario.store [Scenario.order_F1; Scenario.order_no_vehicle] nil nil)
         "farm" Scenario.window_start Scenario.window_end fresh_caches)
  = Raise (ValueError
             "Order 1004 is missing vehicle, transportation cost constant, or customer distance").
Proof. vm_compute. reflexivity. Qed.

Example missing_supplier_run :
  fst (do_accounting
         (Scenario.store [Scenario.order_F1]
            [Scenario.input_truck; Scenario.input_no_supplier] nil)
         "farm" Scenario.window_start Scenario.window_end fresh_caches)
  = Raise (ValueError "Input is missing a supplier").
Proof. vm_compute. reflexivity. Qed.

(** The same window without the faulty input returns both ledgers. *)
Example complete_run :
  fst (do_accounting
         (Scenario.store [Scenario.order_F1] [Scenario.input_truck]
            [Scenario.cost_diesel])
         "farm" Scenario.window_start Scenario.window_end fresh_caches)
  = Return ([mk_retired "1001" "2024-04-16" 0.288 1.0559999999999998],
            [mk_released "1001" "Raw Biochar Transport" "2024-04-16" 0.045;
             mk_released "in-1" "Biomass Transport" "2024-04-16" 0.018;
             mk_released "d1" "Diesel: generator" "2024-04-16" 0.268],
            0).
Proof. vm_compute. reflexivity. Qed.

End AbortFacts.

(** ** The ledgers a run returns *)

Module LedgerFacts.
Import Dashboard.
Local Open Scope float_scope.

Lemma input_body_retired db global_constants prefix input l s l' s' :
  input_body db global_constants prefix input l s = (Return l', s') ->
  carbon_retired l' = carbon_retired l.
Proof.
  unfold input_body. destruct (negb (truthy_refs (supplier input)));
    [discriminate | ].
  intros H. py_inv H. py_inv H. py_inv H.
  destruct (negb (truthy v1) || negb (truthy v0)); [discriminate | ].
  py_inv H. unfold ret in H. now injection H as <- <-.
Qed.

Lemma cost_body_retired global_constants site_constants cost l s l' s' :
  cost_body global_constants site_constants cost l s = (Return l', s') ->
  carbon_retired l' = carbon_retired l.
Proof.
  unfold cost_body. intros H. py_inv H.
  destruct v as [tons |]; [ | discriminate].
  unfold ret in H. now injection H as <- <-.
Qed.

(** X17.  The rows of the retired ledger a run returns are those of orders with
    positive tons of CO2, and each carries Tons CO2eq = Tons Carbon *
    (44/12). *)
Lemma retired_ledger_rows db site start_date end_date s retired released total s' :
  do_accounting db site start_date end_date s
  = (Return (retired, released, total), s') ->
  Forall
    (fun row =>
       (0 <? retired_tons_co2eq row) = true
       /\ retired_tons_co2eq row = retired_tons_carbon row * (44 / 12))
    retired.
Proof.
  intros H. unfold do_accounting in H.
  set (good := fun row : retired_row datetime =>
                 (0 <? retired_tons_co2eq row) = true
                 /\ retired_tons_co2eq row = retired_tons_carbon row * (44 / 12)).
  set (Inv := fun (l : locals) (_ : caches) => Forall good (carbon_retired l)).
  apply bind_Return_inv in H as (l1 & s1 & H1 & H).
  apply bind_Return_inv in H as (l2 & s2 & H2 & H).
  apply bind_Return_inv in H as (l3 & s3 & H3 & H).
  apply bind_Return_inv in H as (tot & s4 & _ & H).
  unfold ret in H. injection H as <- _ _ _.
  assert (I1 : Inv l1 s1).
  { refine (for_each_invariant _ Inv _ _ _ _ _ _ _ H1); [ | constructor].
    intros order st s0 st' s0' Hinv Hx. unfold Inv in *.
    apply RetiredFacts.order_body_retired in Hx as (r & s5 & Hr & -> & _).
    apply RetiredFacts.order_retired_Return in Hr
      as (name & form & pc & q & st_doc & dens & cc & _ & _ & _ & _ & _ & _ & _
          & ->).
    cbn zeta. destruct (0 <? _) eqn:Hpos; cbn [fst]; [ | exact Hinv].
    apply Forall_app. split; [exact Hinv | ].
    constructor; [ | constructor]. split; [exact Hpos | reflexivity]. }
  assert (I2 : Inv l2 s2).
  { refine (for_each_invariant _ Inv _ _ _ _ _ _ I1 H2).
    intros input st s0 st' s0' Hinv Hx. unfold Inv in *.
    now rewrite (input_body_retired _ _ _ _ _ _ _ _ Hx). }
  assert (I3 : Inv l3 s3).
  { refine (for_each_invariant _ Inv _ _ _ _ _ _ I2 H3).
    intros cost st s0 st' s0' Hinv Hx. unfold Inv in *.
    now rewrite (cost_body_retired _ _ _ _ _ _ _ Hx). }
  unfold Inv in I3. apply Forall_map.
  eapply Forall_impl; [exact I3 | ]. intros row Hrow. exact Hrow.
Qed.

End LedgerFacts.

(** ** The earlier order loop, of [carbon-calculator/app.py] *)

Module CalculatorFacts.
Local Open Scope float_scope.
#[local] Set Warnings "-inexact-float".

(** That loop has neither the [tons_co2 > 0] guard nor the "DEC" test: an
    order of quantity 0 gets a retired row of 0 tons, and an order the
    producing organization delivers to itself goes through the transport
    branch, where the lookup of a customer "DEC" fails. *)
Example calculator_keeps_empty_rows :
  fst (Calculator.order_body (Scenario.store nil nil nil)
         (Some Scenario.global_doc) (Some Scenario.site_doc) "sites/farm"
         Scenario.order_placeholder (Calculator.mk_locals nil nil None)
         fresh_caches)
  = Return (Calculator.mk_locals [mk_retired "1002" Scenario.evening 0 0] nil
              (Some 0)).
Proof. vm_compute. reflexivity. Qed.

Example calculator_looks_DEC_up :
  fst (Calculator.order_body (Scenario.store nil nil nil)
         (Some Scenario.global_doc) (Some Scenario.site_doc) "sites/farm"
         Scenario.order_DEC (Calculator.mk_locals nil nil None) fresh_caches)
  = Raise AttributeError.
Proof. vm_compute. reflexivity. Qed.

End CalculatorFacts.

(** * Further properties of the code *)

(** ** The resolvers *)

Module ResolverFacts.
Local Open Scope float_scope.

(** X1.  [get_formulation] never raises and caches every answer, also the
    [None] of a document that does not exist: asked again for the same
    name it gives the same answer and fetches nothing, whatever the store
    holds by then. *)
Theorem get_formulation_memoizes db db' name s :
  exists answer s1,
    get_formulation db name s = (Return answer, s1)
    /\ formulation_cache s1 !! name = Some answer
    /\ get_formulation db' name s1 = (Return answer, s1).
Proof.
  unfold get_formulation at 1.
  destruct (formulation_cache s !! name) as [cached |] eqn:Hhit.
  - exists cached, s. repeat split; [exact Hhit | ].
    unfold get_formulation. now rewrite Hhit.
  - eexists. eexists. split; [reflexivity | ]. cbn. split.
    + apply lookup_insert_eq.
    + unfold get_formulation. cbn. now rewrite lookup_insert_eq.
Qed.

(** A formulation that is missing at the first call stays missing for the
    process, also once the store has it. *)
Example formulation_miss_is_cached :
  let s1 := snd (get_formulation (Scenario.store nil nil nil) "F2" fresh_caches) in
  fst (get_formulation (Scenario.store nil nil nil) "F1" s1)
  = Return (Some {| Biochar := Some 0x1.3333333333333p-2 |})
  /\ fst (get_formulation (Scenario.store nil nil nil) "F2" s1) = Return None
  /\ lookups (snd (get_formulation (Scenario.store nil nil nil) "F2" s1))
     = ["formulations/F2"].
Proof. vm_compute. repeat split. Qed.

(** X2.  The distance resolvers, unlike [get_formulation], fail on a document
    that does not exist, with [AttributeError], and cache nothing then:
    the lookup is logged, the cache is as before, and the next call goes
    to the store again. *)
Theorem failed_distance_lookup_is_not_cached db prefix id s :
  (customer_cache s !! id = None ->
   customers db !! (prefix, id) = None ->
   exists s1,
     get_customer_distance db prefix id s = (Raise AttributeError, s1)
     /\ customer_cache s1 = customer_cache s
     /\ lookups s1 = (prefix ++ "/customers/" ++ id) :: lookups s
     /\ forall db' info,
          customers db' !! (prefix, id) = Some info ->
          fst (get_customer_distance db' prefix id s1) = Return (distance info))
  /\ (supplier_cache s !! id = None ->
      suppliers db !! (prefix, id) = None ->
      exists s1,
        get_supplier_distance db prefix id s = (Raise AttributeError, s1)
        /\ supplier_cache s1 = supplier_cache s
        /\ lookups s1 = (prefix ++ "/suppliers/" ++ id) :: lookups s
        /\ forall db' info,
             suppliers db' !! (prefix, id) = Some info ->
             fst (get_supplier_distance db' prefix id s1)
             = Return (distance info)).
Proof.
  split; intros Hmiss Habsent.
  - unfold get_customer_distance at 1. rewrite Hmiss, Habsent.
    eexists. split; [reflexivity | ]. cbn. repeat split.
    intros db' info Hinfo. unfold get_customer_distance. cbn.
    now rewrite Hmiss, Hinfo.
  - unfold get_supplier_distance at 1. rewrite Hmiss, Habsent.
    eexists. split; [reflexivity | ]. cbn. repeat split.
    intros db' info Hinfo. unfold get_supplier_distance. cbn.
    now rewrite Hmiss, Hinfo.
Qed.

(** Customer "c9" is on no record of the farm. *)
Lemma failed_distance_lookup_is_not_cached_witness :
  exists s1,
    get_customer_distance (Scenario.store nil nil nil) "sites/farm" "c9"
      fresh_caches = (Raise AttributeError, s1)
    /\ customer_cache s1 = customer_cache fresh_caches
    /\ lookups s1 = ["sites/farm/customers/c9"].
Proof.
  destruct (proj1 (failed_distance_lookup_is_not_cached
                     (Scenario.store nil nil nil) "sites/farm" "c9" fresh_caches)
              eq_refl eq_refl) as (s1 & Hrun & Hcache & Hlog & _).
  exists s1. repeat split; assumption.
Defined.

(** *** The caches only grow *)

Lemma grows_refl s : grows s s.
Proof. repeat split; try reflexivity. now exists nil. Qed.

Lemma grows_trans s1 s2 s3 : grows s1 s2 -> grows s2 s3 -> grows s1 s3.
Proof.
  intros (Hf & Hc & Hs & n1 & Hl) (Hf' & Hc' & Hs' & n2 & Hl').
  repeat split; try (etrans; eassumption).
  exists (n2 ++ n1)%list. now rewrite Hl', Hl, app_assoc.
Qed.

Lemma extends_ret {A : Type} (a : A) : extends (ret a).
Proof. intros s. apply grows_refl. Qed.

Lemma extends_raise {A : Type} (e : exn) : extends (@raise A e).
Proof. intros s. apply grows_refl. Qed.

Lemma extends_lift {A : Type} (o : outcome A) : extends (lift o).
Proof. intros s. apply grows_refl. Qed.

Lemma extends_bind {A B : Type} (c : Py A) (k : A -> Py B) :
  extends c -> (forall a, extends (k a)) -> extends (bind c k).
Proof.
  intros Hc Hk s. unfold bind. specialize (Hc s).
  destruct (c s) as [[a | e] s1]; cbn in Hc.
  - eapply grows_trans; [exact Hc | apply Hk].
  - exact Hc.
Qed.

Lemma extends_for_each {X St : Type} (body : X -> St -> Py St) xs :
  (forall x st, extends (body x st)) -> forall st, extends (for_each body xs st).
Proof.
  intros Hbody. induction xs as [| x rest IH]; intros st; cbn.
  - apply extends_ret.
  - apply extends_bind; [apply Hbody | exact IH].
Qed.

Lemma extends_get_formulation db name : extends (get_formulation db name).
Proof.
  intros s. unfold get_formulation.
  destruct (formulation_cache s !! name) eqn:Hmiss; [apply grows_refl | ].
  cbn. repeat split; try reflexivity.
  - now apply insert_subseteq.
  - now exists ["formulations/" ++ name].
Qed.

Lemma extends_get_customer_distance db prefix id :
  extends (get_customer_distance db prefix id).
Proof.
  intros s. unfold get_customer_distance.
  destruct (customer_cache s !! id) eqn:Hmiss; [apply grows_refl | ].
  destruct (customers db !! (prefix, id)); cbn; repeat split;
    try reflexivity; try (now apply insert_subseteq);
    now exists [prefix ++ "/customers/" ++ id].
Qed.

Lemma extends_get_supplier_distance db prefix id :
  extends (get_supplier_distance db prefix id).
Proof.
  intros s. unfold get_supplier_distance.
  destruct (supplier_cache s !! id) eqn:Hmiss; [apply grows_refl | ].
  destruct (suppliers db !! (prefix, id)); cbn; repeat split;
    try reflexivity; try (now apply insert_subseteq);
    now exists [prefix ++ "/suppliers/" ++ id].
Qed.

Ltac extends_steps :=
  repeat first
    [ apply extends_ret | apply extends_raise | apply extends_lift
    | apply extends_get_formulation | apply extends_get_customer_distance
    | apply extends_get_supplier_distance
    | apply extends_bind; [ | intros ? ]
    | match goal with
      | |- extends (if ?b then _ else _) => destruct b
      | |- extends (match ?x with _ => _ end) => destruct x
      end ].

Lemma extends_order_body db gc sc prefix order l :
  extends (Dashboard.order_body db gc sc prefix order l).
Proof.
  unfold Dashboard.order_body, Dashboard.order_retired,
    Dashboard.order_transport.
  extends_steps.
Qed.

Lemma extends_input_body db gc prefix input l :
  extends (Dashboard.input_body db gc prefix input l).
Proof. unfold Dashboard.input_body. extends_steps. Qed.

Lemma extends_cost_body gc sc cost l : extends (Dashboard.cost_body gc sc cost l).
Proof. unfold Dashboard.cost_body. extends_steps. Qed.

(** X3.  A run of [do_accounting], whether it returns or raises, evicts and
    overwrites nothing: every entry the three caches held before is there
    after, with the same value, and the log of store lookups is extended,
    not rewritten. *)
Theorem do_accounting_only_adds_to_the_caches db site start_date end_date s :
  let s' := snd (Dashboard.do_accounting db site start_date end_date s) in
  (forall name f, formulation_cache s !! name = Some f ->
                  formulation_cache s' !! name = Some f)
  /\ (forall id d, customer_cache s !! id = Some d ->
                   customer_cache s' !! id = Some d)
  /\ (forall id d, supplier_cache s !! id = Some d ->
                   supplier_cache s' !! id = Some d)
  /\ exists newer, lookups s' = (newer ++ lookups s)%list.
Proof.
  cbv zeta.
  assert (H : extends (Dashboard.do_accounting db site start_date end_date)).
  { unfold Dashboard.do_accounting.
    apply extends_bind;
      [apply extends_for_each; intros; apply extends_order_body | intros l1].
    apply extends_bind;
      [apply extends_for_each; intros; apply extends_input_body | intros l2].
    apply extends_bind;
      [apply extends_for_each; intros; apply extends_cost_body | intros l3].
    apply extends_bind;
      [apply extends_for_each; intros; apply extends_lift | intros total].
    apply extends_ret. }
  destruct (H s) as (Hf & Hc & Hs & Hl).
  repeat split; try exact Hl; intros k v Hk;
    eapply lookup_weaken; eassumption.
Qed.

End ResolverFacts.

(** ** Sites, windows and dates *)

Module WindowFacts.
Import Dashboard DashboardTab.

(** X4.  No two sites share a path prefix: the reserved name "mock-site" reads
    "test/mock-site", every other site its own "sites/..." path, and no
    site name leads to the test data or to another site's. *)
Theorem collection_path_prefix_injective (site1 site2 : string) :
  collection_path_prefix site1 = collection_path_prefix site2 -> site1 = site2.
Proof.
  unfold collection_path_prefix.
  destruct (String.eqb site1 "mock-site") eqn:H1;
    destruct (String.eqb site2 "mock-site") eqn:H2; cbn; intros H.
  - apply String.eqb_eq in H1, H2. congruence.
  - discriminate.
  - discriminate.
  - now injection H.
Qed.

Lemma collection_path_prefix_injective_witness :
  collection_path_prefix "mock-site" = "test/mock-site"
  /\ collection_path_prefix "farm" = "sites/farm"
  /\ "farm" = "farm".
Proof.
  split; [reflexivity | split; [reflexivity | ]].
  exact (collection_path_prefix_injective "farm" "farm" eq_refl).
Defined.

(** X5.  A window with no record of any of the four kinds gives two empty
    ledgers and a total of 0, without a look at the constants, the
    formulations or the caches: the run returns even when the store has no
    constants at all. *)
Theorem empty_window_returns_empty_ledgers db site start_date end_date s :
  let prefix := collection_path_prefix site in
  delivered_orders db prefix start_date end_date = nil ->
  biomass_inputs db prefix start_date end_date = nil ->
  window_costs db prefix start_date end_date = nil ->
  biochar_produced db prefix start_date end_date = nil ->
  do_accounting db site start_date end_date s = (Return (nil, nil, 0%float), s).
Proof.
  intros prefix Ho Hi Hc Hp. unfold do_accounting. fold prefix.
  now rewrite Ho, Hi, Hc, Hp.
Qed.

(** The store of the scenarios has neither records nor constants for the
    site "mill". *)
Lemma empty_window_returns_empty_ledgers_witness :
  constants (Scenario.store nil nil nil) !! "mill" = None
  /\ do_accounting (Scenario.store nil nil nil) "mill" Scenario.window_start
       Scenario.window_end fresh_caches
     = (Return (nil, nil, 0%float), fresh_caches).
Proof.
  split; [reflexivity | ].
  apply (empty_window_returns_empty_ledgers (Scenario.store nil nil nil) "mill"
           Scenario.window_start Scenario.window_end fresh_caches);
    reflexivity.
Defined.

(** X6.  [convert_to_gmt3] looks at the instant alone: two timestamps of the
    same instant, in whatever zones they are stored, get the same date. *)
Theorem convert_to_gmt3_of_instant (d1 d2 : datetime) :
  instant d1 = instant d2 -> convert_to_gmt3 d1 = convert_to_gmt3 d2.
Proof.
  intros H. unfold convert_to_gmt3, astimezone. now rewrite H.
Qed.

(** 21:00 UTC of 15 April 2024 is midnight of 16 April in GMT+3. *)
Lemma convert_to_gmt3_of_instant_witness :
  convert_to_gmt3 Scenario.evening
  = convert_to_gmt3 (localize_gmt3 19829 0)
  /\ convert_to_gmt3 (localize_gmt3 19829 0) = "2024-04-16".
Proof.
  split; [ | vm_compute; reflexivity].
  apply (convert_to_gmt3_of_instant Scenario.evening (localize_gmt3 19829 0)).
  vm_compute. reflexivity.
Defined.

(** X7.  The window of the form, read on the GMT+3 clock: a record is in the
    window from [start_date] to [end_date] exactly when the date
    [convert_to_gmt3] gives it lies between the two, the last second of
    the end date being cut at 23:59:59.000000. *)
Theorem query_window_days (start_date end_date : date) (d : datetime) :
  let (start, stop) := query_window start_date end_date in
  let shown := astimezone gmt3_timezone d in
  in_window start stop d = true
  <-> (start_date <= local_day shown <= end_date
       /\ (local_day shown = end_date ->
           wall shown mod microseconds_per_day <= 86399 * 1000000)).
Proof.
  cbn zeta. unfold query_window, in_window, localize_gmt3, local_day,
    astimezone, instant, gmt3_timezone, microseconds_per_day, date in *. cbn.
  rewrite andb_true_iff, !Z.leb_le.
  change (3 * 3600 * 1000000) with 10800000000.
  change (86400 * 1000000) with 86400000000.
  change ((23 * 3600 + 59 * 60 + 59) * 1000000) with 86399000000.
  change (86399 * 1000000) with 86399000000.
  set (w := wall d - utcoffset d * 1000000 + 10800000000).
  pose proof (Z.div_mod w 86400000000 ltac:(lia)) as Hdm.
  pose proof (Z.mod_pos_bound w 86400000000 ltac:(lia)) as Hb.
  generalize dependent (w `div` 86400000000).
  generalize dependent (w `mod` 86400000000).
  intros tod Hb day Hdm. subst w. split; intros H; lia.
Qed.

(** A record stamped half a second before midnight of the end date shows
    that date and is not in the window. *)
Example last_second_is_cut :
  let (start, stop) := query_window 19829 19829 in
  let d := mk_datetime (19829 * microseconds_per_day + 86399500000)
             gmt3_timezone in
  convert_to_gmt3 d = "2024-04-16" /\ in_window start stop d = false.
Proof. vm_compute. split; reflexivity. Qed.

End WindowFacts.

(** ** What a run that returns has done *)

Module RunFacts.
Import Dashboard.
Local Open Scope float_scope.
#[local] Set Warnings "-inexact-float".

(** The four loops of a run that returned. *)
Lemma do_accounting_Return db site start_date end_date s retired released total s' :
  do_accounting db site start_date end_date s
  = (Return (retired, released, total), s') ->
  let global_constants := constants db !! "global" in
  let site_constants := constants db !! site in
  let prefix := collection_path_prefix site in
  exists l1 s1 l2 s2 l3 s3,
    for_each (order_body db global_constants site_constants prefix)
      (delivered_orders db prefix start_date end_date)
      (mk_locals nil nil None) s = (Return l1, s1)
    /\ for_each (input_body db global_constants prefix)
         (biomass_inputs db prefix start_date end_date) l1 s1 = (Return l2, s2)
    /\ for_each (cost_body global_constants site_constants)
         (window_costs db prefix start_date end_date) l2 s2 = (Return l3, s3)
    /\ for_each production_body
         (biochar_produced db prefix start_date end_date) 0 s3
       = (Return total, s')
    /\ retired = map (retired_apply_date convert_to_gmt3) (carbon_retired l3)
    /\ released = map (released_apply_date convert_to_gmt3) (carbon_released l3).
Proof.
  intros H. cbv zeta. unfold do_accounting in H.
  apply bind_Return_inv in H as (l1 & s1 & H1 & H).
  apply bind_Return_inv in H as (l2 & s2 & H2 & H).
  apply bind_Return_inv in H as (l3 & s3 & H3 & H).
  apply bind_Return_inv in H as (tot & s4 & H4 & H).
  unfold ret in H. injection H as <- <- <- <-.
  exists l1, s1, l2, s2, l3, s3. now repeat split.
Qed.

(** The production loop: it returns the running sum, or raises at the
    first record without a quantity. *)
Lemma production_loop records : forall total s,
  for_each production_body records total s
  = match mapM quantityTons records with
    | Some quantities =>
        (Return (fold_left (fun acc q => acc + q) quantities total), s)
    | None => (Raise TypeError, s)
    end.
Proof.
  induction records as [| r rest IH]; intros total s; [reflexivity | ].
  cbn [for_each]. unfold production_body at 1, bind, lift, py_add.
  cbn [mapM]. destruct (quantityTons r) as [q |]; cbn; [ | reflexivity].
  rewrite IH. now destruct (mapM quantityTons rest).
Qed.

(** X8.  When a run returns, every production record of the window carried its
    [quantityTons], and the total is their sum, added left to right from
    0: a record without the field is not counted as zero, it makes the
    run raise. *)
Theorem total_biochar_prod_is_the_sum db site start_date end_date s
    retired released total s' :
  do_accounting db site start_date end_date s
  = (Return (retired, released, total), s') ->
  exists quantities,
    map quantityTons
      (biochar_produced db (collection_path_prefix site) start_date end_date)
    = map Some quantities
    /\ total = fold_left (fun acc q => acc + q) quantities 0.
Proof.
  intros H. apply do_accounting_Return in H
    as (l1 & s1 & l2 & s2 & l3 & s3 & _ & _ & _ & H & _ & _).
  rewrite production_loop in H.
  destruct (mapM quantityTons _) as [quantities |] eqn:Hq; [ | discriminate].
  exists quantities. split; [ | congruence].
  apply mapM_Some in Hq. clear -Hq.
  induction Hq as [| r q rest qs Hr _ IH]; [reflexivity | ].
  cbn. now rewrite Hr, IH.
Qed.

(** Two production runs of 1.5 and 2.25 tons. *)
Lemma total_biochar_prod_is_the_sum_witness :
  exists s',
    do_accounting
      (Production.store nil nil nil [Production.run_1; Production.run_2])
      "farm" Scenario.window_start Scenario.window_end fresh_caches
    = (Return (nil, nil, 3.75), s')
    /\ exists quantities,
         map quantityTons
           (biochar_produced
              (Production.store nil nil nil [Production.run_1; Production.run_2])
              (collection_path_prefix "farm") Scenario.window_start
              Scenario.window_end)
         = map Some quantities
         /\ 3.75 = fold_left (fun acc q => acc + q) quantities 0.
Proof.
  eexists. split; [vm_compute; reflexivity | ].
  eapply (total_biochar_prod_is_the_sum
            (Production.store nil nil nil [Production.run_1; Production.run_2])
            "farm" Scenario.window_start Scenario.window_end fresh_caches
            nil nil 3.75).
  vm_compute. reflexivity.
Defined.

Example blank_production_record_run :
  fst (do_accounting
         (Production.store nil nil nil [Production.run_1; Production.run_blank])
         "farm" Scenario.window_start Scenario.window_end fresh_caches)
  = Raise TypeError.
Proof. vm_compute. reflexivity. Qed.

End RunFacts.

(** ** The shape of the ledgers *)

Module ShapeFacts.
Import Dashboard.
Local Open Scope float_scope.
#[local] Set Warnings "-inexact-float".

(** What [input_body] did when it returned. *)
Lemma input_body_Return db global_constants prefix input l s l' s' :
  input_body db global_constants prefix input l s = (Return l', s') ->
  exists supplier_id rate km,
    first_id (supplier input) = Return supplier_id
    /\ get_supplier_distance db prefix supplier_id s = (Return (Some km), s')
    /\ transport_rate global_constants (first_id_or_None (input_vehicle input))
       = Return (Some rate)
    /\ (rate =? 0) = false /\ (km =? 0) = false
    /\ l' = mk_locals (carbon_retired l)
              (carbon_released l ++ [biomass_row input (rate * km / 1000)])
              (tons_co2 l).
Proof.
  unfold input_body. destruct (negb (truthy_refs (supplier input)));
    [discriminate | ].
  intros H. py_inv H. py_inv H. py_inv H.
  destruct v1 as [rate |], v0 as [km |]; cbn in H; try discriminate;
    try (destruct (negb (rate =? 0)); discriminate).
  destruct (rate =? 0) eqn:Hrate; [discriminate | ].
  destruct (km =? 0) eqn:Hkm; [discriminate | ].
  cbn in H. unfold ret in H. injection H as <- <-.
  exists v, rate, km. now repeat split.
Qed.

(** What [cost_body] did when it returned. *)
Lemma cost_body_Return global_constants site_constants cost l s l' s' :
  cost_body global_constants site_constants cost l s = (Return l', s') ->
  exists tons,
    l' = mk_locals (carbon_retired l) (carbon_released l ++ [cost_row cost tons])
           (Some tons).
Proof.
  unfold cost_body. intros H. py_inv H.
  destruct v as [tons |]; [ | discriminate].
  unfold ret in H. injection H as <- <-. now exists tons.
Qed.

(** The three loops, on the released ledger. *)
Lemma order_loop_released db gc sc prefix orders : forall l s l' s',
  for_each (order_body db gc sc prefix) orders l s = (Return l', s') ->
  exists rows,
    carbon_released l' = (carbon_released l ++ rows)%list
    /\ Forall2 (fun order row => exists tons, row = transport_row order tons)
         (List.filter ships orders) rows.
Proof.
  induction orders as [| order rest IH]; intros l s l' s' H.
  - cbn in H. injection H as <- <-. exists nil.
    split; [now rewrite app_nil_r | constructor].
  - cbn in H. apply bind_Return_inv in H as (l1 & s1 & Hbody & Hrest).
    apply IH in Hrest as (rows & Hrows & Hall).
    apply TransportFacts.order_body_released in Hbody. cbn [List.filter].
    destruct (ships order).
    + destruct Hbody as (tons & Hbody).
      exists (transport_row order tons :: rows). split.
      * rewrite Hrows, Hbody, <- app_assoc. reflexivity.
      * constructor; [now exists tons | exact Hall].
    + exists rows. split; [now rewrite Hrows, Hbody | exact Hall].
Qed.

Lemma input_loop_released db gc prefix inputs : forall l s l' s',
  for_each (input_body db gc prefix) inputs l s = (Return l', s') ->
  carbon_retired l' = carbon_retired l
  /\ exists rows,
       carbon_released l' = (carbon_released l ++ rows)%list
       /\ Forall2 (fun input row => exists tons, row = biomass_row input tons)
            inputs rows.
Proof.
  induction inputs as [| input rest IH]; intros l s l' s' H.
  - cbn in H. injection H as <- <-. split; [reflexivity | ]. exists nil.
    split; [now rewrite app_nil_r | constructor].
  - cbn in H. apply bind_Return_inv in H as (l1 & s1 & Hbody & Hrest).
    apply IH in Hrest as (Hret & rows & Hrows & Hall).
    apply input_body_Return in Hbody
      as (sid & rate & km & _ & _ & _ & _ & _ & ->).
    cbn in Hret, Hrows. split; [exact Hret | ].
    exists (biomass_row input (rate * km / 1000) :: rows). split.
    + rewrite Hrows, <- app_assoc. reflexivity.
    + constructor; [now eexists | exact Hall].
Qed.

Lemma cost_loop_released gc sc costs : forall l s l' s',
  for_each (cost_body gc sc) costs l s = (Return l', s') ->
  carbon_retired l' = carbon_retired l
  /\ exists rows,
       carbon_released l' = (carbon_released l ++ rows)%list
       /\ Forall2 (fun cost row => exists tons, row = cost_row cost tons)
            costs rows.
Proof.
  induction costs as [| cost rest IH]; intros l s l' s' H.
  - cbn in H. injection H as <- <-. split; [reflexivity | ]. exists nil.
    split; [now rewrite app_nil_r | constructor].
  - cbn in H. apply bind_Return_inv in H as (l1 & s1 & Hbody & Hrest).
    apply IH in Hrest as (Hret & rows & Hrows & Hall).
    apply cost_body_Return in Hbody as (tons & ->).
    cbn in Hret, Hrows. split; [exact Hret | ].
    exists (cost_row cost tons :: rows). split.
    + rewrite Hrows, <- app_assoc. reflexivity.
    + constructor; [now eexists | exact Hall].
Qed.

(** X9.  The released ledger of a run that returned is, in this order: one
    "Raw Biochar Transport" row for each delivered order of the window
    that is not activated and not for "DEC", one "Biomass Transport" row
    for each biomass input of the window, one row for each carbon-cost
    entry of the window; each row carries the id and the GMT+3 date of its
    record.  So its length is the number of those records. *)
Theorem released_ledger_shape db site start_date end_date s
    retired released total s' :
  do_accounting db site start_date end_date s
  = (Return (retired, released, total), s') ->
  let prefix := collection_path_prefix site in
  let shipped := List.filter ships (delivered_orders db prefix start_date end_date) in
  let biomass := biomass_inputs db prefix start_date end_date in
  let costs := window_costs db prefix start_date end_date in
  exists order_rows input_rows cost_rows,
    released = (order_rows ++ input_rows ++ cost_rows)%list
    /\ Forall2
         (fun order row =>
            exists tons,
              row = mk_released (orderNumber order) "Raw Biochar Transport"
                      (convert_to_gmt3 (deliveredDate order)) tons)
         shipped order_rows
    /\ Forall2
         (fun input row =>
            exists tons,
              row = mk_released (input_id input) "Biomass Transport"
                      (convert_to_gmt3 (deliveryDate input)) tons)
         biomass input_rows
    /\ Forall2
         (fun cost row =>
            exists tons,
              row = mk_released (cost_id cost)
                      (str (cost_type cost) ++ ": " ++ str (cost_notes cost))
                      (convert_to_gmt3 (cost_date cost)) tons)
         costs cost_rows
    /\ length released = (length shipped + length biomass + length costs)%nat.
Proof.
  intros H. cbv zeta. apply RunFacts.do_accounting_Return in H
    as (l1 & s1 & l2 & s2 & l3 & s3 & H1 & H2 & H3 & _ & _ & ->).
  apply order_loop_released in H1 as (rows1 & E1 & F1).
  apply input_loop_released in H2 as (_ & rows2 & E2 & F2).
  apply cost_loop_released in H3 as (_ & rows3 & E3 & F3).
  cbn in E1. rewrite E3, E2, E1.
  set (conv := released_apply_date convert_to_gmt3).
  exists (map conv rows1), (map conv rows2), (map conv rows3).
  split; [now rewrite !map_app, <- app_assoc | ].
  split; [ | split; [ | split]].
  - apply Forall2_fmap_r. eapply Forall2_impl; [exact F1 | ].
    intros o r (tons & ->). now exists tons.
  - apply Forall2_fmap_r. eapply Forall2_impl; [exact F2 | ].
    intros i r (tons & ->). now exists tons.
  - apply Forall2_fmap_r. eapply Forall2_impl; [exact F3 | ].
    intros c r (tons & ->). now exists tons.
  - rewrite !length_map, !length_app.
    apply Forall2_length in F1, F2, F3. lia.
Qed.

Lemma released_ledger_shape_witness :
  exists s',
    do_accounting
      (Scenario.store [Scenario.order_F1; Scenario.order_placeholder]
         [Scenario.input_truck] [Scenario.cost_diesel])
      "farm" Scenario.window_start Scenario.window_end fresh_caches
    = (Return ([mk_retired "1001" "2024-04-16" 0.288 1.0559999999999998],
               [mk_released "1001" "Raw Biochar Transport" "2024-04-16" 0.045;
                mk_released "in-1" "Biomass Transport" "2024-04-16" 0.018;
                mk_released "d1" "Diesel: generator" "2024-04-16" 0.268],
               0), s')
    /\ length
         [mk_released "1001" "Raw Biochar Transport" "2024-04-16" 0.045;
          mk_released "in-1" "Biomass Transport" "2024-04-16" 0.018;
          mk_released "d1" "Diesel: generator" "2024-04-16" 0.268]
       = (1 + 1 + 1)%nat.
Proof.
  eexists. split; [vm_compute; reflexivity | ].
  destruct (released_ledger_shape
              (Scenario.store [Scenario.order_F1; Scenario.order_placeholder]
                 [Scenario.input_truck] [Scenario.cost_diesel])
              "farm" Scenario.window_start Scenario.window_end fresh_caches
              _ _ _ _ ltac:(vm_compute; reflexivity))
    as (r1 & r2 & r3 & _ & _ & _ & _ & Hlen).
  exact Hlen.
Defined.

End ShapeFacts.

(** ** Retired rows and their orders; the tons of a transport *)

Module RowFacts.
Import Dashboard.
Local Open Scope float_scope.
#[local] Set Warnings "-inexact-float".

Lemma order_loop_retired db gc sc prefix orders : forall l s l' s',
  for_each (order_body db gc sc prefix) orders l s = (Return l', s') ->
  exists rows,
    carbon_retired l' = (carbon_retired l ++ rows)%list
    /\ sublist
         (map (fun row => (retired_order row, retired_date row)) rows)
         (map (fun order => (orderNumber order, deliveredDate order)) orders).
Proof.
  induction orders as [| order rest IH]; intros l s l' s' H.
  - cbn in H. injection H as <- <-. exists nil.
    split; [now rewrite app_nil_r | constructor].
  - cbn in H. apply bind_Return_inv in H as (l1 & s1 & Hbody & Hrest).
    apply IH in Hrest as (rows & Hrows & Hsub).
    apply RetiredFacts.order_body_retired in Hbody as (r & s2 & Hr & Hl1 & _).
    apply RetiredFacts.order_retired_Return in Hr
      as (name & form & pc & q & st & dens & cc & _ & _ & _ & _ & _ & _ & _ & ->).
    cbn zeta in Hl1. destruct (0 <? _); cbn [fst] in Hl1.
    + eexists (_ :: rows). split.
      * rewrite Hrows, Hl1, <- app_assoc. reflexivity.
      * cbn. now apply sublist_skip.
    + exists rows. split; [now rewrite Hrows, Hl1 | ].
      cbn. now apply sublist_cons.
Qed.

(** X10.  The retired ledger of a run that returned lists delivered orders of
    the window, in the order of the query and each at most once per
    record, under their order number and the GMT+3 date of their delivery:
    no row is made up, moved or duplicated. *)
Theorem retired_rows_are_delivered_orders db site start_date end_date s
    retired released total s' :
  do_accounting db site start_date end_date s
  = (Return (retired, released, total), s') ->
  sublist
    (map (fun row => (retired_order row, retired_date row)) retired)
    (map (fun order => (orderNumber order, convert_to_gmt3 (deliveredDate order)))
       (delivered_orders db (collection_path_prefix site) start_date end_date)).
Proof.
  intros H. apply RunFacts.do_accounting_Return in H
    as (l1 & s1 & l2 & s2 & l3 & s3 & H1 & H2 & H3 & _ & -> & _).
  apply order_loop_retired in H1 as (rows & E1 & Hsub).
  apply ShapeFacts.input_loop_released in H2 as (E2 & _).
  apply ShapeFacts.cost_loop_released in H3 as (E3 & _).
  rewrite E3, E2, E1. cbn [carbon_retired app].
  apply (fmap_sublist (fun p : string * datetime => (p.1, convert_to_gmt3 p.2)))
    in Hsub.
  rewrite <- !list_fmap_compose in Hsub. rewrite <- list_fmap_compose.
  exact Hsub.
Qed.

Lemma retired_rows_are_delivered_orders_witness :
  exists s',
    do_accounting
      (Scenario.store
         [Scenario.order_placeholder; Scenario.order_F1; Scenario.order_DEC]
         nil nil)
      "farm" Scenario.window_start Scenario.window_end fresh_caches
    = (Return ([mk_retired "1001" "2024-04-16" 0.288 1.0559999999999998;
                mk_retired "1003" "2024-04-16" 0.288 1.0559999999999998],
               [mk_released "1001" "Raw Biochar Transport" "2024-04-16" 0.045],
               0), s')
    /\ sublist [("1001", "2024-04-16"); ("1003", "2024-04-16")]
         [("1002", "2024-04-16"); ("1001", "2024-04-16"); ("1003", "2024-04-16")].
Proof.
  eexists. split; [vm_compute; reflexivity | ].
  exact (retired_rows_are_delivered_orders
           (Scenario.store
              [Scenario.order_placeholder; Scenario.order_F1; Scenario.order_DEC]
              nil nil)
           "farm" Scenario.window_start Scenario.window_end fresh_caches
           _ _ _ _ ltac:(vm_compute; reflexivity)).
Defined.

(** X11.  The tons of a transport row are rate * distance / 1000, the rate being
    the constant of the record's vehicle and the distance the one the
    resolver answered; for a biomass input both are numbers other than 0. *)
Theorem transport_tons_formula db global_constants site_constants prefix :
  (forall order l s l' s',
     order_body db global_constants site_constants prefix order l s
     = (Return l', s') ->
     ships order = true ->
     exists customer_id rate km s1,
       first_id (customer order) = Return customer_id
       /\ transport_rate global_constants
            (first_id_or_None (order_vehicle order)) = Return (Some rate)
       /\ get_customer_distance db prefix customer_id s1 = (Return (Some km), s')
       /\ carbon_released l'
          = (carbon_released l ++ [transport_row order (rate * km / 1000)])%list)
  /\ (forall input l s l' s',
        input_body db global_constants prefix input l s = (Return l', s') ->
        exists supplier_id rate km,
          first_id (supplier input) = Return supplier_id
          /\ transport_rate global_constants
               (first_id_or_None (input_vehicle input)) = Return (Some rate)
          /\ get_supplier_distance db prefix supplier_id s
             = (Return (Some km), s')
          /\ (rate =? 0) = false /\ (km =? 0) = false
          /\ carbon_released l'
             = (carbon_released l ++ [biomass_row input (rate * km / 1000)])%list).
Proof.
  split.
  - intros order l s l' s' H Hships. unfold order_body in H.
    py_inv H. py_inv H. unfold ret in H. injection H as <- <-. cbn.
    apply TransportFacts.order_transport_Return in Hc0 as (c & Hcust & Hc0).
    unfold ships in Hships. rewrite Hcust in Hships. rewrite Hships in Hc0.
    destruct Hc0 as (rate & km & Hkm & Hrate & ->).
    exists c, rate, km, s0. now repeat split.
  - intros input l s l' s' H.
    apply ShapeFacts.input_body_Return in H
      as (sid & rate & km & Hsid & Hkm & Hrate & Hr & Hk & ->).
    exists sid, rate, km. now repeat split.
Qed.

(** The scenario of the specification: 50 km at 0.9 kgCO2/km is 0.045
    tons; and a delivery of biomass over 20 km is 0.018 tons. *)
Lemma transport_tons_formula_witness :
  (exists l' s',
     order_body (Scenario.store nil nil nil) (Some Scenario.global_doc)
       (Some Scenario.site_doc) "sites/farm" Scenario.order_F1
       Scenario.no_locals fresh_caches = (Return l', s')
     /\ carbon_released l' = [transport_row Scenario.order_F1 0.045])
  /\ (exists l' s',
        input_body (Scenario.store nil nil nil) (Some Scenario.global_doc)
          "sites/farm" Scenario.input_truck Scenario.no_locals fresh_caches
        = (Return l', s')
        /\ carbon_released l' = [biomass_row Scenario.input_truck 0.018]).
Proof.
  split.
  - eexists. eexists. split; [vm_compute; reflexivity | ].
    destruct (proj1 (transport_tons_formula (Scenario.store nil nil nil)
                       (Some Scenario.global_doc) (Some Scenario.site_doc)
                       "sites/farm")
                Scenario.order_F1 Scenario.no_locals fresh_caches _ _
                ltac:(vm_compute; reflexivity) eq_refl)
      as (c & rate & km & s1 & _ & _ & _ & _).
    reflexivity.
  - eexists. eexists. split; [vm_compute; reflexivity | ].
    destruct (proj2 (transport_tons_formula (Scenario.store nil nil nil)
                       (Some Scenario.global_doc) (Some Scenario.site_doc)
                       "sites/farm")
                Scenario.input_truck Scenario.no_locals fresh_caches _ _
                ltac:(vm_compute; reflexivity))
      as (sid & rate & km & _ & _ & _ & _ & _ & _).
    reflexivity.
Defined.

(** What [0 <] lets through is a number. *)
Lemma positive_is_number x : (0 <? x) = true -> PrimFloat.is_nan x = false.
Proof.
  unfold PrimFloat.is_nan.
  rewrite FloatAxioms.ltb_spec, FloatAxioms.eqb_spec.
  unfold SFltb, SFeqb.
  destruct (Prim2SF x) as [sg | sg | | sg m e]; cbn; try discriminate;
    intros _; try now destruct sg.
  destruct sg; now rewrite Z.compare_refl, Pos.compare_refl.
Qed.

Lemma order_loop_positive db gc sc prefix orders : forall l s l' s',
  for_each (order_body db gc sc prefix) orders l s = (Return l', s') ->
  Forall (fun row => (0 <? retired_tons_co2eq row) = true) (carbon_retired l) ->
  Forall (fun row => (0 <? retired_tons_co2eq row) = true) (carbon_retired l').
Proof.
  induction orders as [| order rest IH]; intros l s l' s' H Hl.
  - cbn in H. now injection H as <- <-.
  - cbn in H. apply bind_Return_inv in H as (l1 & s1 & Hbody & Hrest).
    apply (IH _ _ _ _ Hrest).
    apply RetiredFacts.order_body_retired in Hbody as (r & s2 & Hr & Hl1 & _).
    apply RetiredFacts.order_retired_Return in Hr
      as (name & form & pc & q & st & dens & cc & _ & _ & _ & _ & _ & _ & _ & ->).
    cbn zeta in Hl1. destruct (0 <? _) eqn:Hpos; cbn [fst] in Hl1; rewrite Hl1.
    + apply Forall_app. split; [exact Hl | ].
      constructor; [exact Hpos | constructor].
    + exact Hl.
Qed.

(** The retired ledger of a run that returned holds rows of positive tons
    only, so its sum skips none of them: the gross offset is the whole
    "Tons CO2eq" column, added up in the order of the rows. *)
Lemma returned_gross_offset db site start_date end_date s
    retired released total s' :
  do_accounting db site start_date end_date s
  = (Return (retired, released, total), s') ->
  Forall (fun row => (0 <? retired_tons_co2eq row) = true) retired
  /\ fst (summary retired released)
     = sum_in_row_order (map retired_tons_co2eq retired).
Proof.
  intros H. apply RunFacts.do_accounting_Return in H
    as (l1 & s1 & l2 & s2 & l3 & s3 & H1 & H2 & H3 & _ & -> & _).
  apply order_loop_positive in H1; [ | constructor].
  apply ShapeFacts.input_loop_released in H2 as (E2 & _).
  apply ShapeFacts.cost_loop_released in H3 as (E3 & _).
  rewrite E3, E2.
  assert (Hpos : Forall (fun row => (0 <? retired_tons_co2eq row) = true)
                   (map (retired_apply_date convert_to_gmt3)
                      (carbon_retired l1))).
  { apply Forall_map. eapply Forall_impl; [exact H1 | ].
    intros row Hrow. exact Hrow. }
  split; [exact Hpos | ].
  unfold summary. cbn [fst]. rewrite SummaryFacts.series_sum_numbers.
  f_equal. apply SummaryFacts.numbers_all.
  apply Forall_map. eapply Forall_impl; [exact Hpos | ].
  intros row Hrow. now apply positive_is_number.
Qed.

End RowFacts.

(** ** The exceptions of a run *)

Module FaultFacts.
Import Dashboard.
Local Open Scope float_scope.
#[local] Set Warnings "-inexact-float".

Lemma raises_only_ret (P : exn -> Prop) {A : Type} (a : A) :
  raises_only P (ret a).
Proof. intros s e s' H. discriminate. Qed.

Lemma raises_only_raise (P : exn -> Prop) {A : Type} (e : exn) :
  P e -> raises_only P (@raise A e).
Proof. intros HP s e' s' H. unfold raise in H. now injection H as <- _. Qed.

Lemma raises_only_lift (P : exn -> Prop) {A : Type} (o : outcome A) :
  (forall e, o = Raise e -> P e) -> raises_only P (lift o).
Proof. intros HP s e s' H. unfold lift in H. injection H as -> _. now apply HP. Qed.

Lemma raises_only_bind (P : exn -> Prop) {A B : Type} (c : Py A) (k : A -> Py B) :
  raises_only P c -> (forall a, raises_only P (k a)) -> raises_only P (bind c k).
Proof.
  intros Hc Hk s e s' H. unfold bind in H.
  destruct (c s) as [[a | e0] s1] eqn:Ha.
  - exact (Hk a s1 e s' H).
  - injection H as <- <-. exact (Hc s e0 s1 Ha).
Qed.

Lemma raises_only_for_each (P : exn -> Prop) {X St : Type}
    (body : X -> St -> Py St) xs :
  (forall x, In x xs -> forall st, raises_only P (body x st)) ->
  forall st, raises_only P (for_each body xs st).
Proof.
  induction xs as [| x rest IH]; intros Hbody st; cbn.
  - apply raises_only_ret.
  - apply raises_only_bind.
    + apply Hbody. now left.
    + apply IH. intros y Hy. apply Hbody. now right.
Qed.

Lemma raises_only_weaken (P Q : exn -> Prop) {A : Type} (c : Py A) :
  raises_only P c -> (forall e, P e -> Q e) -> raises_only Q c.
Proof. intros Hc HPQ s e s' H. apply HPQ. exact (Hc s e s' H). Qed.

Lemma first_id_raises r e : first_id r = Raise e -> lookup_error e.
Proof.
  unfold lookup_error. destruct r as [[| x rest] |]; cbn; intros H;
    try discriminate; injection H as <-; auto.
Qed.

Lemma dict_get_raises {A B : Type} (d : option A) (field : A -> B) e :
  dict_get d field = Raise e -> lookup_error e.
Proof.
  unfold lookup_error. destruct d; cbn; intros H; try discriminate.
  injection H as <-. auto.
Qed.

Lemma py_mul_raises x y e : py_mul x y = Raise e -> lookup_error e.
Proof.
  unfold lookup_error. destruct x, y; cbn; intros H; try discriminate;
    injection H as <-; auto.
Qed.

Lemma transport_rate_raises global_constants vehicle e :
  transport_rate global_constants vehicle = Raise e -> lookup_error e.
Proof.
  unfold lookup_error, transport_rate.
  destruct global_constants as [g |]; cbn.
  - destruct (transportKgCO2PerKm g); intros H; try discriminate.
    injection H as <-. auto.
  - intros H. injection H as <-. auto.
Qed.

Lemma cost_tons_co2_raises global_constants site_constants cost bound e :
  cost_tons_co2 global_constants site_constants cost bound = Raise e ->
  lookup_error e.
Proof.
  unfold cost_tons_co2.
  destruct (field_is (cost_type cost) "Electricity").
  - destruct (dict_get site_constants gramsCO2PerKWh) as [g | e0] eqn:Hg.
    + destruct (py_mul (cost_value cost) g) as [p | e1] eqn:Hp;
        intros H; [discriminate | ]. injection H as <-.
      exact (py_mul_raises _ _ _ Hp).
    + intros H. injection H as <-. exact (dict_get_raises _ _ _ Hg).
  - destruct (field_is (cost_type cost) "Diesel"); [ | discriminate].
    destruct (dict_get global_constants dieselKgCO2PerL) as [g | e0] eqn:Hg.
    + destruct (py_mul (cost_value cost) g) as [p | e1] eqn:Hp;
        intros H; [discriminate | ]. injection H as <-.
      exact (py_mul_raises _ _ _ Hp).
    + intros H. injection H as <-. exact (dict_get_raises _ _ _ Hg).
Qed.

Lemma get_formulation_raises (P : exn -> Prop) db name :
  raises_only P (get_formulation db name).
Proof.
  intros s e s' H. unfold get_formulation in H.
  destruct (formulation_cache s !! name); discriminate.
Qed.

Lemma get_customer_distance_raises db prefix id :
  raises_only lookup_error (get_customer_distance db prefix id).
Proof.
  intros s e s' H. unfold get_customer_distance in H.
  destruct (customer_cache s !! id); [discriminate | ].
  destruct (customers db !! (prefix, id)); [discriminate | ].
  injection H as <- _. unfold lookup_error. auto.
Qed.

Lemma get_supplier_distance_raises db prefix id :
  raises_only lookup_error (get_supplier_distance db prefix id).
Proof.
  intros s e s' H. unfold get_supplier_distance in H.
  destruct (supplier_cache s !! id); [discriminate | ].
  destruct (suppliers db !! (prefix, id)); [discriminate | ].
  injection H as <- _. unfold lookup_error. auto.
Qed.

Section Bodies.

Variable db : firestore.
Variable global_constants site_constants : option constants_doc.
Variable prefix : string.

Lemma order_retired_raises order ledger :
  raises_only lookup_error (order_retired db site_constants order ledger).
Proof.
  unfold order_retired.
  repeat first
    [ apply raises_only_bind; [ | intros ? ]
    | apply get_formulation_raises
    | apply raises_only_lift; intros ? ?;
      eauto using first_id_raises, dict_get_raises, py_mul_raises ].
  destruct (0 <? _); apply raises_only_ret.
Qed.

Lemma cost_body_raises cost l :
  raises_only (fun e => lookup_error e \/ e = UnboundLocalError)
    (cost_body global_constants site_constants cost l).
Proof.
  unfold cost_body. apply raises_only_bind.
  - apply raises_only_lift. intros e He. left.
    exact (cost_tons_co2_raises _ _ _ _ _ He).
  - intros [tons |]; [apply raises_only_ret | apply raises_only_raise; auto].
Qed.

End Bodies.

Section Under.

Variable Inv : caches -> Prop.

Lemma raises_under_only (P : exn -> Prop) {A : Type} (c : Py A) :
  raises_only P c -> raises_under Inv P c.
Proof. intros Hc s e s' _ H. exact (Hc s e s' H). Qed.

Lemma raises_under_bind (P : exn -> Prop) {A B : Type} (c : Py A)
    (k : A -> Py B) (Q : A -> Prop) :
  hoare Inv c Q -> raises_under Inv P c ->
  (forall a, Q a -> raises_under Inv P (k a)) ->
  raises_under Inv P (bind c k).
Proof.
  intros Hh Hc Hk s e s' Hs H. unfold bind in H.
  destruct (c s) as [[a | e0] s1] eqn:Ha.
  - destruct (Hh s a s1 Hs Ha) as [Hs1 HQ]. exact (Hk a HQ s1 e s' Hs1 H).
  - injection H as <- <-. exact (Hc s e0 s1 Hs Ha).
Qed.

Lemma hoare_for_each {X St : Type} (body : X -> St -> Py St) xs :
  (forall x st, hoare Inv (body x st) (fun _ => True)) ->
  forall st, hoare Inv (for_each body xs st) (fun _ => True).
Proof.
  intros Hbody. induction xs as [| x rest IH]; intros st; cbn.
  - now apply AbortFacts.hoare_ret.
  - eapply AbortFacts.hoare_bind; [apply Hbody | intros st1 _; apply IH].
Qed.

Lemma raises_under_for_each (P : exn -> Prop) {X St : Type}
    (body : X -> St -> Py St) xs :
  (forall x st, hoare Inv (body x st) (fun _ => True)) ->
  (forall x, In x xs -> forall st, raises_under Inv P (body x st)) ->
  forall st, raises_under Inv P (for_each body xs st).
Proof.
  intros Hh. induction xs as [| x rest IH]; intros Hbody st; cbn.
  - apply raises_under_only, raises_only_ret.
  - eapply raises_under_bind; [apply Hh | apply Hbody; now left | ].
    intros st1 _. apply IH. intros y Hy. apply Hbody. now right.
Qed.

End Under.

Section Culprits.

Variable db : firestore.
Variable global_constants site_constants : option constants_doc.
Variable prefix : string.

(** The caches the run starts from. *)
Variable s0 : caches.

(** The [ValueError] of the order loop is raised for an order that misses
    its transport data, and carries its number. *)
Lemma order_transport_culprit order ledger :
  raises_under (caches_since db prefix s0)
    (fun e =>
       lookup_error e
       \/ (order_misses_transport_data db global_constants prefix s0 order = true
           /\ e = order_fault order))
    (order_transport db global_constants prefix order ledger).
Proof.
  intros s e s' Hs H. unfold order_transport, bind at 1, lift at 1 in H.
  destruct (first_id (customer order)) as [c | e0] eqn:Hcust.
  - destruct (incurs_transport order c) eqn:Hship; [ | discriminate].
    revert s e s' Hs H.
    eapply raises_under_bind;
      [ apply AbortFacts.hoare_get_customer_distance
      | apply raises_under_only;
        eapply raises_only_weaken; [apply get_customer_distance_raises | auto]
      | ].
    intros km ->.
    eapply raises_under_bind;
      [ apply AbortFacts.hoare_lift
          with (Q := fun a =>
                       transport_rate global_constants
                         (first_id_or_None (order_vehicle order)) = Return a);
        auto
      | apply raises_under_only, raises_only_lift; intros e He; left;
        exact (transport_rate_raises _ _ _ He)
      | ].
    intros rate Hrate.
    destruct (is_None rate
              || is_None (customer_distance_resolved db prefix s0 c)) eqn:Hguard.
    + apply raises_under_only, raises_only_raise. right.
      split; [ | reflexivity].
      unfold order_misses_transport_data, rate_unresolved.
      rewrite Hcust, Hship, Hrate. cbn [andb].
      destruct rate; [exact Hguard | reflexivity].
    + apply raises_under_only.
      apply raises_only_bind; [ | intros; apply raises_only_ret].
      apply raises_only_lift. intros e He. left.
      exact (py_mul_raises _ _ _ He).
  - injection H as <- _. left. exact (first_id_raises _ _ Hcust).
Qed.

Lemma order_body_culprit order l :
  raises_under (caches_since db prefix s0)
    (fun e =>
       lookup_error e
       \/ (order_misses_transport_data db global_constants prefix s0 order = true
           /\ e = order_fault order))
    (order_body db global_constants site_constants prefix order l).
Proof.
  unfold order_body.
  eapply raises_under_bind;
    [ apply AbortFacts.hoare_order_retired
    | apply raises_under_only;
      eapply raises_only_weaken; [apply order_retired_raises | auto]
    | ].
  intros r _.
  eapply raises_under_bind with (Q := fun _ => True);
    [ apply AbortFacts.hoare_order_transport
    | apply order_transport_culprit
    | intros; apply raises_under_only, raises_only_ret ].
Qed.

(** Each [ValueError] of the input loop is raised for an input on its own
    side of the supplier test. *)
Lemma input_body_culprit input l :
  raises_only
    (fun e =>
       lookup_error e
       \/ (truthy_refs (supplier input) = false /\ e = supplier_fault)
       \/ (truthy_refs (supplier input) = true /\ e = input_fault))
    (input_body db global_constants prefix input l).
Proof.
  unfold input_body. destruct (truthy_refs (supplier input)); cbn [negb].
  - eapply raises_only_weaken; [ | ].
    + apply raises_only_bind
        with (P := fun e => lookup_error e \/ e = input_fault).
      * apply raises_only_lift. intros e He. left.
        exact (first_id_raises _ _ He).
      * intros sid. apply raises_only_bind.
        -- eapply raises_only_weaken;
             [apply get_supplier_distance_raises | auto].
        -- intros km. apply raises_only_bind.
           ++ apply raises_only_lift. intros e He. left.
              exact (transport_rate_raises _ _ _ He).
           ++ intros rate. destruct (negb (truthy rate) || negb (truthy km)).
              ** apply raises_only_raise. auto.
              ** apply raises_only_bind; [ | intros; apply raises_only_ret].
                 apply raises_only_lift. intros e He. left.
                 exact (py_mul_raises _ _ _ He).
    + intros e [He | He]; auto.
  - apply raises_only_raise. auto.
Qed.

End Culprits.

(** X12.  The [ValueError]s of a run are those of its three [raise]
    statements, and each has its culprit in the window.  The message
    "Order <n> is missing ..." carries the number of a delivered order
    that is due a transport row and misses its vehicle, the rate of its
    vehicle or the distance of its customer, as the resolver answers from
    the caches the run started from.  "Input is missing a supplier" is
    raised for a biomass input without supplier, "An Input is missing ..."
    for one with a supplier; neither message says which input. *)
Theorem do_accounting_value_errors db site start_date end_date s msg s' :
  let prefix := collection_path_prefix site in
  let global_constants := constants db !! "global" in
  do_accounting db site start_date end_date s = (Raise (ValueError msg), s') ->
  (exists order,
     In order (delivered_orders db prefix start_date end_date)
     /\ order_misses_transport_data db global_constants prefix s order = true
     /\ msg = ("Order " ++ orderNumber order ++
               " is missing vehicle, transportation cost constant, or customer distance"))
  \/ (exists input,
        In input (biomass_inputs db prefix start_date end_date)
        /\ truthy_refs (supplier input) = false
        /\ msg = "Input is missing a supplier")
  \/ (exists input,
        In input (biomass_inputs db prefix start_date end_date)
        /\ truthy_refs (supplier input) = true
        /\ msg = "An Input is missing vehicle, transportation cost constant, or supplier/supplier distance").
Proof.
  intros prefix global_constants H.
  set (site_constants := constants db !! site).
  set (P := fun e =>
    lookup_error e \/ e = UnboundLocalError
    \/ (exists order,
          In order (delivered_orders db prefix start_date end_date)
          /\ order_misses_transport_data db global_constants prefix s order
             = true
          /\ e = order_fault order)
    \/ (exists input,
          In input (biomass_inputs db prefix start_date end_date)
          /\ truthy_refs (supplier input) = false /\ e = supplier_fault)
    \/ (exists input,
          In input (biomass_inputs db prefix start_date end_date)
          /\ truthy_refs (supplier input) = true /\ e = input_fault)).
  assert (Hrun : raises_under (caches_since db prefix s) P
                   (do_accounting db site start_date end_date)).
  { unfold do_accounting. fold prefix. fold global_constants.
    fold site_constants.
    eapply raises_under_bind with (Q := fun _ => True).
    - apply hoare_for_each. intros order st. apply AbortFacts.hoare_order_body.
    - apply raises_under_for_each.
      + intros order st. apply AbortFacts.hoare_order_body.
      + intros order Hin st e0 s1 s2 Hs1 Hraise.
        destruct (order_body_culprit db global_constants site_constants
                    prefix s order st e0 s1 s2 Hs1 Hraise) as [He | [Hm He]];
          unfold P; [now left | ].
        right. right. left. now exists order.
    - intros l1 _. apply raises_under_only. apply raises_only_bind.
      + apply raises_only_for_each. intros input Hin st.
        eapply raises_only_weaken; [apply input_body_culprit | ].
        intros e0 [He | [[Ht He] | [Ht He]]]; unfold P; [now left | | ].
        * do 3 right. left. now exists input.
        * do 4 right. now exists input.
      + intros l2. apply raises_only_bind.
        * apply raises_only_for_each. intros cost _ st.
          eapply raises_only_weaken; [apply cost_body_raises | ].
          intros e0 [He | He]; unfold P; auto.
        * intros l3. apply raises_only_bind; [ | intros; apply raises_only_ret].
          apply raises_only_for_each. intros r _ st. unfold production_body.
          apply raises_only_lift. intros e0 He. left. unfold lookup_error.
          destruct (quantityTons r); cbn in He; [discriminate | ].
          injection He as <-. auto. }
  destruct (Hrun s _ s' (AbortFacts.caches_since_start db prefix s) H)
    as [[He | [He | He]] | [He | [(order & Hin & Hm & He) | [(input & Hin & Ht & He) | (input & Hin & Ht & He)]]]];
    try discriminate.
  - left. exists order. repeat split; try assumption.
    unfold order_fault in He. now injection He.
  - right. left. exists input. repeat split; try assumption.
    unfold supplier_fault in He. now injection He.
  - right. right. exists input. repeat split; try assumption.
    unfold input_fault in He. now injection He.
Qed.

(** The run of two orders, the second with no vehicle on record, raises a
    [ValueError] that carries the number of the second. *)
Lemma do_accounting_value_errors_witness :
  exists s',
    do_accounting
      (Scenario.store [Scenario.order_F1; Scenario.order_no_vehicle] nil nil)
      "farm" Scenario.window_start Scenario.window_end fresh_caches
    = (Raise
         (ValueError
            "Order 1004 is missing vehicle, transportation cost constant, or customer distance"),
       s')
    /\ ((exists order,
           In order
             (delivered_orders
                (Scenario.store
                   [Scenario.order_F1; Scenario.order_no_vehicle] nil nil)
                (collection_path_prefix "farm") Scenario.window_start
                Scenario.window_end)
           /\ order_misses_transport_data
                (Scenario.store
                   [Scenario.order_F1; Scenario.order_no_vehicle] nil nil)
                (constants
                   (Scenario.store
                      [Scenario.order_F1; Scenario.order_no_vehicle] nil nil)
                 !! "global")
                (collection_path_prefix "farm") fresh_caches order = true
           /\ "Order 1004 is missing vehicle, transportation cost constant, or customer distance"
              = ("Order " ++ orderNumber order ++
                 " is missing vehicle, transportation cost constant, or customer distance"))
        \/ (exists input,
              In input
                (biomass_inputs
                   (Scenario.store
                      [Scenario.order_F1; Scenario.order_no_vehicle] nil nil)
                   (collection_path_prefix "farm") Scenario.window_start
                   Scenario.window_end)
              /\ truthy_refs (supplier input) = false
              /\ "Order 1004 is missing vehicle, transportation cost constant, or customer distance"
                 = "Input is missing a supplier")
        \/ (exists input,
              In input
                (biomass_inputs
                   (Scenario.store
                      [Scenario.order_F1; Scenario.order_no_vehicle] nil nil)
                   (collection_path_prefix "farm") Scenario.window_start
                   Scenario.window_end)
              /\ truthy_refs (supplier input) = true
              /\ "Order 1004 is missing vehicle, transportation cost constant, or customer distance"
                 = "An Input is missing vehicle, transportation cost constant, or supplier/supplier distance")).
Proof.
  eexists. split; [vm_compute; reflexivity | ].
  eapply (do_accounting_value_errors
            (Scenario.store [Scenario.order_F1; Scenario.order_no_vehicle]
               nil nil)
            "farm" Scenario.window_start Scenario.window_end fresh_caches).
  vm_compute. reflexivity.
Defined.

End FaultFacts.

(** ** The earlier and the later order loop *)

Module VersionFacts.
Local Open Scope float_scope.
#[local] Set Warnings "-inexact-float".

(** What the order loop of [carbon-calculator/app.py] did when it
    returned. *)
Lemma calculator_order_body_Return db gc sc prefix order l s l' s' :
  Calculator.order_body db gc sc prefix order l s = (Return l', s') ->
  exists tons_carbon,
    Calculator.carbon_retired l'
    = (Calculator.carbon_retired l ++
       [mk_retired (orderNumber order) (deliveredDate order) tons_carbon
          (tons_carbon * (44 / 12))])%list
    /\ Calculator.tons_co2 l' = Some (tons_carbon * (44 / 12))
    /\ if truthy_bool (isActivated order)
       then Calculator.carbon_released l' = Calculator.carbon_released l
       else exists tons,
           Calculator.carbon_released l'
           = (Calculator.carbon_released l ++
              [Calculator.mk_released (deliveredDate order) tons
                 "Raw Biochar Transport"])%list.
Proof.
  intros H. unfold Calculator.order_body in H.
  py_inv H. py_inv H. py_inv H. py_inv H. py_inv H. py_inv H. py_inv H.
  py_inv H. exists v6.
  destruct (truthy_bool (isActivated order)); cbn [negb] in H.
  - unfold ret in H. injection H as <- <-. now repeat split.
  - py_inv H. py_inv H. py_inv H.
    destruct v9 as [rate |], v8 as [km |]; try discriminate.
    unfold ret in H. injection H as <- <-. cbn. repeat split. now eexists.
Qed.

(** X13.  The earlier loop gives every delivered order a retired row, also an
    order of no tons, and every order that is not activated a transport
    row, also an order of "DEC". *)
Theorem calculator_order_loop_rows db gc sc prefix orders : forall l s l' s',
  for_each (Calculator.order_body db gc sc prefix) orders l s = (Return l', s') ->
  (exists rows,
     Calculator.carbon_retired l' = (Calculator.carbon_retired l ++ rows)%list
     /\ Forall2
          (fun order row =>
             retired_order row = orderNumber order
             /\ retired_date row = deliveredDate order
             /\ retired_tons_co2eq row = retired_tons_carbon row * (44 / 12))
          orders rows)
  /\ length (Calculator.carbon_released l')
     = (length (Calculator.carbon_released l)
        + length (List.filter (fun o => negb (truthy_bool (isActivated o)))
                    orders))%nat.
Proof.
  induction orders as [| order rest IH]; intros l s l' s' H.
  - cbn in H. injection H as <- <-. split; [ | cbn; lia].
    exists nil. split; [now rewrite app_nil_r | constructor].
  - cbn in H. apply bind_Return_inv in H as (l1 & s1 & Hbody & Hrest).
    apply IH in Hrest as ((rows & Hrows & Hall) & Hlen).
    apply calculator_order_body_Return in Hbody as (tc & Hret & _ & Hrel).
    split.
    + eexists (_ :: rows). split.
      * rewrite Hrows, Hret, <- app_assoc. reflexivity.
      * constructor; [now repeat split | exact Hall].
    + rewrite Hlen. cbn [List.filter].
      destruct (truthy_bool (isActivated order)); cbn [negb].
      * now rewrite Hrel.
      * destruct Hrel as (tons & ->). rewrite length_app. cbn. lia.
Qed.

(** The placeholder order, activated and of quantity 0, and the order of
    the scenario: two retired rows, one transport row. *)
Lemma calculator_order_loop_rows_witness :
  exists l' s',
    for_each
      (Calculator.order_body (Scenario.store nil nil nil)
         (Some Scenario.global_doc) (Some Scenario.site_doc) "sites/farm")
      [Scenario.order_placeholder; Scenario.order_F1]
      (Calculator.mk_locals nil nil None) fresh_caches = (Return l', s')
    /\ map retired_order (Calculator.carbon_retired l') = ["1002"; "1001"]
    /\ length (Calculator.carbon_released l') = (0 + 1)%nat.
Proof.
  eexists. eexists. split; [vm_compute; reflexivity | ].
  split; [reflexivity | ].
  exact (proj2 (calculator_order_loop_rows (Scenario.store nil nil nil)
                  (Some Scenario.global_doc) (Some Scenario.site_doc)
                  "sites/farm"
                  [Scenario.order_placeholder; Scenario.order_F1]
                  (Calculator.mk_locals nil nil None) fresh_caches _ _
                  ltac:(vm_compute; reflexivity))).
Defined.

(** X14.  Where the two loops agree.  For an order whose tons of CO2 are
    positive and whose customer is not "DEC", an iteration of the later
    loop that returns is matched by the earlier loop: the same retired
    row, the same transport row but for its missing "Row ID", the same
    binding of [tons_co2] and the same caches. *)
Theorem order_loops_agree db gc sc prefix order l s l' s' tons customer_id :
  Dashboard.order_body db gc sc prefix order l s = (Return l', s') ->
  Dashboard.tons_co2 l' = Some tons -> (0 <? tons) = true ->
  first_id (customer order) = Return customer_id -> customer_id <> "DEC" ->
  Calculator.order_body db gc sc prefix order (as_calculator l) s
  = (Return (as_calculator l'), s').
Proof.
  intros H Htons Hpos Hcust Hne. unfold Dashboard.order_body in H.
  py_inv H. py_inv H. unfold ret in H. injection H as <- <-.
  cbn in Htons. injection Htons as <-.
  apply RetiredFacts.order_retired_Return in Hc
    as (name & form & pc & q & site & dens & cc & Hn & Hf & Hpc & Hq & -> & Hd
        & Hcc & ->).
  cbn zeta in Hpos |- *. cbn [snd] in Hpos. rewrite Hpos. cbn [fst snd].
  apply TransportFacts.order_transport_Return in Hc0 as (c & Hcust' & Hc0).
  rewrite Hcust in Hcust'. injection Hcust' as <-.
  unfold Calculator.order_body.
  unfold bind at 1, lift at 1. rewrite Hn.
  rewrite (bind_Return _ _ _ _ _ Hf).
  unfold bind at 1, lift at 1. cbn [dict_get]. rewrite Hpc.
  unfold bind at 1, lift at 1. rewrite Hq. cbn [py_mul].
  unfold bind at 1, lift at 1. cbn [dict_get]. rewrite Hd.
  unfold bind at 1, lift at 1. cbn [dict_get]. rewrite Hcc.
  unfold bind at 1, lift at 1. cbn [py_mul].
  unfold bind at 1, lift at 1. cbn [py_mul].
  unfold Dashboard.incurs_transport in Hc0.
  assert (Hdec : String.eqb customer_id "DEC" = false)
    by now apply String.eqb_neq.
  rewrite Hdec in Hc0. cbn [negb] in Hc0. rewrite andb_true_r in Hc0.
  destruct (negb (truthy_bool (isActivated order))).
  - destruct Hc0 as (rate & km & Hkm & Hrate & ->).
    unfold bind at 1, lift at 1. rewrite Hcust.
    rewrite (bind_Return _ _ _ _ _ Hkm).
    unfold bind at 1, lift at 1. rewrite Hrate.
    unfold ret, as_calculator. cbn [Dashboard.carbon_retired
      Dashboard.carbon_released Dashboard.tons_co2 Calculator.carbon_retired
      Calculator.carbon_released Calculator.tons_co2].
    rewrite map_app. reflexivity.
  - destruct Hc0 as [-> ->]. reflexivity.
Qed.

Lemma order_loops_agree_witness :
  exists l' s',
    Dashboard.order_body (Scenario.store nil nil nil) (Some Scenario.global_doc)
      (Some Scenario.site_doc) "sites/farm" Scenario.order_F1
      Scenario.no_locals fresh_caches = (Return l', s')
    /\ Calculator.order_body (Scenario.store nil nil nil)
         (Some Scenario.global_doc) (Some Scenario.site_doc) "sites/farm"
         Scenario.order_F1 (as_calculator Scenario.no_locals) fresh_caches
       = (Return (as_calculator l'), s')
    /\ Calculator.carbon_released (as_calculator l')
       = [Calculator.mk_released Scenario.evening 0.045 "Raw Biochar Transport"].
Proof.
  eexists. eexists. split; [vm_compute; reflexivity | ].
  split; [ | reflexivity].
  apply (order_loops_agree (Scenario.store nil nil nil)
           (Some Scenario.global_doc) (Some Scenario.site_doc) "sites/farm"
           Scenario.order_F1 Scenario.no_locals fresh_caches _ _
           1.0559999999999998 "c1").
  - vm_compute. reflexivity.
  - reflexivity.
  - reflexivity.
  - reflexivity.
  - discriminate.
Defined.

End VersionFacts.

(** ** Running again *)

Module ReplayFacts.
Import Dashboard.
Local Open Scope float_scope.
#[local] Set Warnings "-inexact-float".

Lemma replays_ret {A : Type} (a : A) : replays (ret a) (ret a).
Proof. intros s b s' s2 H _. unfold ret in *. now injection H as <- _. Qed.

Lemma replays_raise {A : Type} (e : exn) : replays (@raise A e) (raise e).
Proof. intros s b s' s2 H _. discriminate. Qed.

Lemma replays_lift {A : Type} (o : outcome A) : replays (lift o) (lift o).
Proof. intros s b s' s2 H _. unfold lift in *. now injection H as -> _. Qed.

Lemma replays_bind {A B : Type} (c c' : Py A) (k k' : A -> Py B) :
  replays c c' -> (forall a, replays (k a) (k' a)) -> (forall a, extends (k a)) ->
  replays (bind c k) (bind c' k').
Proof.
  intros Hc Hk Hext s b s' s2 H Hgrows.
  apply bind_Return_inv in H as (a & s1 & Ha & Hb).
  assert (H1 : grows s1 s').
  { specialize (Hext a s1). now rewrite Hb in Hext. }
  rewrite (bind_Return _ _ _ _ _
             (Hc s a s1 s2 Ha (ResolverFacts.grows_trans _ _ _ H1 Hgrows))).
  exact (Hk a s1 b s' s2 Hb Hgrows).
Qed.

Lemma replays_for_each {X St : Type} (body body' : X -> St -> Py St) xs :
  (forall x st, replays (body x st) (body' x st)) ->
  (forall x st, extends (body x st)) ->
  forall st, replays (for_each body xs st) (for_each body' xs st).
Proof.
  intros Hbody Hext. induction xs as [| x rest IH]; intros st; cbn.
  - apply replays_ret.
  - apply replays_bind; [apply Hbody | exact IH | ].
    intros a. now apply ResolverFacts.extends_for_each.
Qed.

Lemma replays_get_formulation db db' name :
  replays (get_formulation db name) (get_formulation db' name).
Proof.
  intros s a s' s2 H (Hf & _).
  assert (Hcached : formulation_cache s' !! name = Some a).
  { unfold get_formulation in H.
    destruct (formulation_cache s !! name) as [cached |] eqn:Hhit;
      injection H as <- <-; [exact Hhit | apply lookup_insert_eq]. }
  unfold get_formulation. now rewrite (lookup_weaken _ _ _ _ Hcached Hf).
Qed.

Lemma replays_get_customer_distance db db' prefix id :
  replays (get_customer_distance db prefix id)
    (get_customer_distance db' prefix id).
Proof.
  intros s a s' s2 H (_ & Hc & _).
  apply CacheFacts.get_customer_distance_caches in H.
  apply CacheFacts.get_customer_distance_cached.
  exact (lookup_weaken _ _ _ _ H Hc).
Qed.

Lemma replays_get_supplier_distance db db' prefix id :
  replays (get_supplier_distance db prefix id)
    (get_supplier_distance db' prefix id).
Proof.
  intros s a s' s2 H (_ & _ & Hs & _).
  apply CacheFacts.get_supplier_distance_caches in H.
  apply CacheFacts.get_supplier_distance_cached.
  exact (lookup_weaken _ _ _ _ H Hs).
Qed.

Ltac replays_steps :=
  repeat first
    [ apply replays_ret | apply replays_raise | apply replays_lift
    | apply replays_get_formulation | apply replays_get_customer_distance
    | apply replays_get_supplier_distance
    | apply replays_bind; [ | intros ? | intros ?; ResolverFacts.extends_steps ]
    | match goal with
      | |- replays (if ?b then _ else _) _ => destruct b
      | |- replays (match ?x with _ => _ end) _ => destruct x
      end ].

Lemma replays_order_body db db' gc sc prefix order l :
  replays (order_body db gc sc prefix order l)
    (order_body db' gc sc prefix order l).
Proof.
  unfold order_body, order_retired, order_transport. replays_steps.
Qed.

Lemma replays_input_body db db' gc prefix input l :
  replays (input_body db gc prefix input l) (input_body db' gc prefix input l).
Proof. unfold input_body. replays_steps. Qed.

Lemma extends_loops db gc sc prefix :
  (forall orders l,
     extends (for_each (order_body db gc sc prefix) orders l))
  /\ (forall inputs l, extends (for_each (input_body db gc prefix) inputs l))
  /\ (forall costs l, extends (for_each (cost_body gc sc) costs l))
  /\ (forall records total, extends (for_each production_body records total)).
Proof.
  split; [ | split; [ | split]]; intros;
    apply ResolverFacts.extends_for_each; intros.
  - apply ResolverFacts.extends_order_body.
  - apply ResolverFacts.extends_input_body.
  - apply ResolverFacts.extends_cost_body.
  - apply ResolverFacts.extends_lift.
Qed.

(** X15.  A run that returned can be run again in the same process: for the
    same site and window it returns the same ledgers and total, and it
    fetches no formulation, customer or supplier, the caches answering for
    all of them.  So it is also when the store has changed these in the
    meantime: the second run does not see the change. *)
Theorem second_run_repeats_the_first db db' site start_date end_date s r s' :
  same_records db db' ->
  do_accounting db site start_date end_date s = (Return r, s') ->
  do_accounting db' site start_date end_date s' = (Return r, s').
Proof.
  intros (Hconst & Ho & Hi & Hc & Hp) H.
  assert (Hre : replays (do_accounting db site start_date end_date)
                  (do_accounting db' site start_date end_date)).
  { unfold do_accounting, delivered_orders, biomass_inputs, window_costs,
      biochar_produced. rewrite Hconst, Ho, Hi, Hc, Hp.
    destruct (extends_loops db (constants db !! "global") (constants db !! site)
                (collection_path_prefix site)) as (E1 & E2 & E3 & E4).
    apply replays_bind.
    - apply replays_for_each; intros;
        [apply replays_order_body | apply ResolverFacts.extends_order_body].
    - intros l1. apply replays_bind.
      + apply replays_for_each; intros;
          [apply replays_input_body | apply ResolverFacts.extends_input_body].
      + intros l2. apply replays_bind.
        * apply replays_for_each; intros;
            [ | apply ResolverFacts.extends_cost_body].
          intros s0 a s0' s2 Hrun _. unfold cost_body, bind, lift in *.
          destruct (cost_tons_co2 _ _ x (tons_co2 st)) as [[tons |] | e];
            try discriminate.
          unfold ret in *. now injection Hrun as <- _.
        * intros l3. apply replays_bind.
          -- apply replays_for_each; intros;
               [apply replays_lift | apply ResolverFacts.extends_lift].
          -- intros total. apply replays_ret.
          -- intros total. apply ResolverFacts.extends_ret.
        * intros l3. apply ResolverFacts.extends_bind; [apply E4 | ].
          intros total. apply ResolverFacts.extends_ret.
      + intros l2. apply ResolverFacts.extends_bind; [apply E3 | intros l3].
        apply ResolverFacts.extends_bind; [apply E4 | ].
        intros total. apply ResolverFacts.extends_ret.
    - intros l1. apply ResolverFacts.extends_bind; [apply E2 | intros l2].
      apply ResolverFacts.extends_bind; [apply E3 | intros l3].
      apply ResolverFacts.extends_bind; [apply E4 | ].
      intros total. apply ResolverFacts.extends_ret. }
  exact (Hre s r s' s' H (ResolverFacts.grows_refl s')).
Qed.

(** The store of the scenario, then with customer "c1" moved from 50 km
    to 70 km: the second run still charges 0.045 tons for the 50 km. *)
Lemma second_run_repeats_the_first_witness :
  let db := Scenario.store [Scenario.order_F1] nil nil in
  let db' :=
    {| constants := constants db;
       formulations := formulations db;
       customers := {[ ("sites/farm", "c1") := {| distance := Some 70 |} ]};
       suppliers := suppliers db;
       orders := orders db;
       inputs := inputs db;
       carbon_costs := carbon_costs db;
       biochar_prod := biochar_prod db |} in
  let first := do_accounting db "farm" Scenario.window_start Scenario.window_end
                 fresh_caches in
  fst first
  = Return ([mk_retired "1001" "2024-04-16" 0.288 1.0559999999999998],
            [mk_released "1001" "Raw Biochar Transport" "2024-04-16" 0.045],
            0)
  /\ do_accounting db' "farm" Scenario.window_start Scenario.window_end
       (snd first)
     = (Return ([mk_retired "1001" "2024-04-16" 0.288 1.0559999999999998],
                [mk_released "1001" "Raw Biochar Transport" "2024-04-16" 0.045],
                0), snd first).
Proof.
  cbv zeta. split; [vm_compute; reflexivity | ].
  apply (second_run_repeats_the_first
           (Scenario.store [Scenario.order_F1] nil nil) _ "farm"
           Scenario.window_start Scenario.window_end fresh_caches).
  - repeat split.
  - vm_compute. reflexivity.
Defined.

End ReplayFacts.

(** ** What the dashboard shows *)

Module TabFacts.
Import Dashboard DashboardTab.
#[local] Set Warnings "-inexact-float".

Lemma in_query_window start_date end_date d :
  in_window (fst (query_window start_date end_date))
    (snd (query_window start_date end_date)) d = true ->
  start_date <= local_day (astimezone gmt3_timezone d) <= end_date.
Proof.
  unfold query_window, in_window, localize_gmt3, local_day,
    astimezone, instant, gmt3_timezone, microseconds_per_day, date in *. cbn.
  rewrite andb_true_iff, !Z.leb_le.
  change (3 * 3600 * 1000000) with 10800000000.
  change (86400 * 1000000) with 86400000000.
  change ((23 * 3600 + 59 * 60 + 59) * 1000000) with 86399000000.
  set (w := wall d - utcoffset d * 1000000 + 10800000000).
  pose proof (Z.div_mod w 86400000000 ltac:(lia)) as Hdm.
  pose proof (Z.mod_pos_bound w 86400000000 ltac:(lia)) as Hb.
  generalize dependent (w `div` 86400000000).
  generalize dependent (w `mod` 86400000000).
  intros tod Hb day Hdm. subst w. intros H. lia.
Qed.

Lemma Forall2_In_r {A B : Type} (R : A -> B -> Prop) xs ys y :
  Forall2 R xs ys -> In y ys -> exists x, In x xs /\ R x y.
Proof.
  induction 1 as [| x y0 xs ys HR _ IH]; intros Hin; [destruct Hin | ].
  destruct Hin as [-> | Hin].
  - exists x. split; [now left | exact HR].
  - destruct (IH Hin) as (x' & Hx' & HR'). exists x'. split; [now right | exact HR'].
Qed.

(** X16.  After "Submit", every row the dashboard shows, retired or released,
    carries the GMT+3 date of a timestamp whose day lies between the start
    date and the end date of the form, and the two metrics are the
    summary of the two ledgers shown. *)
Theorem shown_rows_are_dated_within_the_query db query_site
    (start_date end_date : date) s retired released total metrics s' :
  submitted_query db query_site start_date end_date s
  = (Return ((retired, released, total), metrics), s') ->
  metrics = summary retired released
  /\ (forall row, In row released ->
        exists d, released_date row = convert_to_gmt3 d
                  /\ start_date <= local_day (astimezone gmt3_timezone d)
                     <= end_date)
  /\ (forall row, In row retired ->
        exists d, retired_date row = convert_to_gmt3 d
                  /\ start_date <= local_day (astimezone gmt3_timezone d)
                     <= end_date).
Proof.
  intros H. unfold submitted_query in H.
  destruct (query_window start_date end_date) as [start stop] eqn:Hw.
  assert (Hin : forall d, in_window start stop d = true ->
                  start_date <= local_day (astimezone gmt3_timezone d)
                  <= end_date).
  { intros d Hd. apply in_query_window. now rewrite Hw. }
  apply bind_Return_inv in H as (r & s1 & Hrun & H).
  unfold ret in H. injection H as -> <- <-. cbn [fst snd].
  split; [reflexivity | ].
  pose proof Hrun as Hrun'.
  apply RunFacts.do_accounting_Return in Hrun
    as (l1 & s2 & l2 & s3 & l3 & s4 & H1 & H2 & H3 & _ & -> & ->).
  pose proof H1 as H1'.
  apply ShapeFacts.order_loop_released in H1 as (rows1 & E1 & F1).
  apply RowFacts.order_loop_retired in H1' as (kept & K1 & Hsub).
  apply ShapeFacts.input_loop_released in H2 as (K2 & rows2 & E2 & F2).
  apply ShapeFacts.cost_loop_released in H3 as (K3 & rows3 & E3 & F3).
  cbn in E1, K1. split.
  - intros row Hrow. rewrite E3, E2, E1 in Hrow.
    apply in_map_iff in Hrow as (raw & <- & Hraw). cbn.
    rewrite !in_app_iff in Hraw. destruct Hraw as [[Hraw | Hraw] | Hraw].
    + destruct (Forall2_In_r _ _ _ _ F1 Hraw) as (order & Ho & tons & ->).
      apply filter_In in Ho as [Ho _]. unfold delivered_orders in Ho.
      apply filter_In in Ho as [_ Ho]. apply andb_true_iff in Ho as [_ Ho].
      exists (deliveredDate order). split; [reflexivity | now apply Hin].
    + destruct (Forall2_In_r _ _ _ _ F2 Hraw) as (input & Hi & tons & ->).
      unfold biomass_inputs in Hi. apply filter_In in Hi as [_ Hi].
      apply andb_true_iff in Hi as [Hi _]. apply andb_true_iff in Hi as [Hi _].
      exists (deliveryDate input). split; [reflexivity | now apply Hin].
    + destruct (Forall2_In_r _ _ _ _ F3 Hraw) as (cost & Hc & tons & ->).
      unfold window_costs in Hc. apply filter_In in Hc as [_ Hc].
      exists (cost_date cost). split; [reflexivity | now apply Hin].
  - intros row Hrow. rewrite K3, K2, K1 in Hrow.
    apply in_map_iff in Hrow as (raw & <- & Hraw). cbn.
    exists (retired_date raw). split; [reflexivity | ].
    assert (Hpair : (retired_order raw, retired_date raw)
                    ∈ map (fun order => (orderNumber order, deliveredDate order))
                        (delivered_orders db (collection_path_prefix query_site)
                           start stop)).
    { eapply sublist_subseteq; [exact Hsub | ].
      apply list_elem_of_In, in_map_iff. now exists raw. }
    apply list_elem_of_In, in_map_iff in Hpair as (order & Heq & Ho).
    injection Heq as _ <-. unfold delivered_orders in Ho.
    apply filter_In in Ho as [_ Ho]. apply andb_true_iff in Ho as [_ Ho].
    now apply Hin.
Qed.

(** The form filled with 16 April 2024 for both dates. *)
Lemma shown_rows_are_dated_within_the_query_witness :
  exists s',
    submitted_query
      (Scenario.store [Scenario.order_F1] [Scenario.input_truck]
         [Scenario.cost_diesel])
      "farm" 19829 19829 fresh_caches
    = (Return (([mk_retired "1001" "2024-04-16"
                   0.288%float 1.0559999999999998%float],
                [mk_released "1001" "Raw Biochar Transport" "2024-04-16"
                   0.045%float;
                 mk_released "in-1" "Biomass Transport" "2024-04-16"
                   0.018%float;
                 mk_released "d1" "Diesel: generator" "2024-04-16"
                   0.268%float],
                0%float),
               (1.0559999999999998%float, 0.7249999999999999%float)), s')
    /\ (1.0559999999999998%float, 0.7249999999999999%float)
       = summary
           [mk_retired "1001" "2024-04-16"
              0.288%float 1.0559999999999998%float]
           [mk_released "1001" "Raw Biochar Transport" "2024-04-16"
              0.045%float;
            mk_released "in-1" "Biomass Transport" "2024-04-16"
              0.018%float;
            mk_released "d1" "Diesel: generator" "2024-04-16"
              0.268%float].
Proof.
  eexists. split; [vm_compute; reflexivity | ].
  exact (proj1 (shown_rows_are_dated_within_the_query
                  (Scenario.store [Scenario.order_F1] [Scenario.input_truck]
                     [Scenario.cost_diesel])
                  "farm" 19829 19829 fresh_caches _ _ _ _ _
                  ltac:(vm_compute; reflexivity))).
Defined.

End TabFacts.

(** ** The retired ledger of the scenarios *)

Module LedgerWitness.
Import Dashboard.
Local Open Scope float_scope.
#[local] Set Warnings "-inexact-float".

(** A window with the placeholder order, of no tons, and two orders of
    0.288 tons of carbon: the returned ledger has the two rows, both of
    positive tons. *)
Lemma retired_ledger_rows_witness :
  exists s',
    do_accounting
      (Scenario.store
         [Scenario.order_placeholder; Scenario.order_F1; Scenario.order_DEC]
         nil nil)
      "farm" Scenario.window_start Scenario.window_end fresh_caches
    = (Return ([mk_retired "1001" "2024-04-16" 0.288 1.0559999999999998;
                mk_retired "1003" "2024-04-16" 0.288 1.0559999999999998],
               [mk_released "1001" "Raw Biochar Transport" "2024-04-16" 0.045],
               0), s')
    /\ Forall
         (fun row =>
            (0 <? retired_tons_co2eq row) = true
            /\ retired_tons_co2eq row = retired_tons_carbon row * (44 / 12))
         [mk_retired "1001" "2024-04-16" 0.288 1.0559999999999998;
          mk_retired "1003" "2024-04-16" 0.288 1.0559999999999998].
Proof.
  eexists. split; [vm_compute; reflexivity | ].
  exact (LedgerFacts.retired_ledger_rows
           (Scenario.store
              [Scenario.order_placeholder; Scenario.order_F1; Scenario.order_DEC]
              nil nil)
           "farm" Scenario.window_start Scenario.window_end fresh_caches
           _ _ _ _ ltac:(vm_compute; reflexivity)).
Defined.

End LedgerWitness.

(** ** The summary of a run without releases; the two carbon-cost loops *)

Module MoreFacts.
Import Dashboard.
Local Open Scope float_scope.
#[local] Set Warnings "-inexact-float".

Lemma sub_zero (x : float) : x - 0 = x.
Proof.
  apply Prim2SF_inj. rewrite FloatAxioms.sub_spec.
  change (Prim2SF 0) with (S754_zero false).
  destruct (Prim2SF x) as [sg | sg | | sg m e]; try reflexivity.
  now destruct sg.
Qed.

(** X18.  With nothing released, the net offset of the summary is the gross
    offset, bit for bit: subtracting the 0 of the empty column changes no
    double, not even a negative zero or a NaN. *)
Theorem net_is_gross_without_releases (retired : list (retired_row string)) :
  snd (summary retired nil) = fst (summary retired nil)
  /\ fst (summary retired nil) = series_sum (map retired_tons_co2eq retired).
Proof. unfold summary. cbn [fst snd map]. split; [apply sub_zero | reflexivity]. Qed.

(** X19.  The carbon-cost loop is the same in the two versions, row id
    apart: on the same entry and the same binding of [tons_co2] the
    earlier loop returns what the later one returns or raises what it
    raises, the reuse of a stale value for an unknown type included. *)
Theorem cost_loops_agree global_constants site_constants cost l s :
  Calculator.cost_body global_constants site_constants cost (as_calculator l) s
  = match cost_body global_constants site_constants cost l s with
    | (Return l', s') => (Return (as_calculator l'), s')
    | (Raise e, s') => (Raise e, s')
    end.
Proof.
  unfold Calculator.cost_body, cost_body, bind, lift, as_calculator. cbn.
  destruct (cost_tons_co2 global_constants site_constants cost (tons_co2 l))
    as [[tons |] | e]; try reflexivity.
  unfold ret. cbn. now rewrite map_app.
Qed.

End MoreFacts.

(** ** No document is fetched twice *)

Module LogFacts.
Import Dashboard.
Local Open Scope float_scope.

Lemma append_cancel (p a b : string) : p ++ a = p ++ b -> a = b.
Proof.
  induction p as [| c p IH]; cbn; intros H; [exact H | ].
  injection H as H. now apply IH.
Qed.

Lemma prefix_not_formulations site name rest :
  "formulations/" ++ name <> collection_path_prefix site ++ rest.
Proof.
  unfold collection_path_prefix.
  destruct (negb (String.eqb site "mock-site")); cbn; discriminate.
Qed.

Section Site.

Variable site : string.

Let prefix : string := collection_path_prefix site.

Lemma tidy_ret {A : Type} (a : A) : tidy prefix (ret a).
Proof. intros s Hs. exact Hs. Qed.

Lemma tidy_raise {A : Type} (e : exn) : tidy prefix (@raise A e).
Proof. intros s [Hs _]. exact Hs. Qed.

Lemma tidy_lift {A : Type} (o : outcome A) : tidy prefix (lift o).
Proof. intros s Hs. unfold lift. destruct o; [exact Hs | exact (proj1 Hs)]. Qed.

Lemma tidy_bind {A B : Type} (c : Py A) (k : A -> Py B) :
  tidy prefix c -> (forall a, tidy prefix (k a)) -> tidy prefix (bind c k).
Proof.
  intros Hc Hk s Hs. unfold bind. specialize (Hc s Hs).
  destruct (c s) as [[a | e] s1]; [exact (Hk a s1 Hc) | exact Hc].
Qed.

Lemma tidy_for_each {X St : Type} (body : X -> St -> Py St) xs :
  (forall x st, tidy prefix (body x st)) ->
  forall st, tidy prefix (for_each body xs st).
Proof.
  intros Hbody. induction xs as [| x rest IH]; intros st; cbn.
  - apply tidy_ret.
  - apply tidy_bind; [apply Hbody | exact IH].
Qed.

Lemma tidy_get_formulation db name : tidy prefix (get_formulation db name).
Proof.
  intros s [Hnd Hlog]. unfold get_formulation.
  destruct (formulation_cache s !! name) eqn:Hmiss; [now split | ].
  split; cbn.
  - constructor; [ | exact Hnd]. intros Hin.
    apply list_elem_of_In in Hin.
    destruct (Hlog _ Hin) as [(n & Hn & Hc) | [(id & Hid & _) | (id & Hid & _)]].
    + apply append_cancel in Hn. subst n. rewrite Hmiss in Hc.
      now destruct Hc.
    + now apply prefix_not_formulations in Hid.
    + now apply prefix_not_formulations in Hid.
  - intros path [<- | Hin].
    + left. exists name. split; [reflexivity | ].
      rewrite lookup_insert_eq. eauto.
    + destruct (Hlog _ Hin) as [(n & Hn & Hc) | [H | H]]; [ | auto | auto].
      left. exists n. split; [exact Hn | ].
      apply lookup_insert_is_Some. destruct (decide (name = n)); auto.
Qed.

Lemma tidy_get_customer_distance db id :
  tidy prefix (get_customer_distance db prefix id).
Proof.
  intros s [Hnd Hlog]. unfold get_customer_distance.
  destruct (customer_cache s !! id) eqn:Hmiss; [now split | ].
  assert (Hnew : NoDup ((prefix ++ "/customers/" ++ id) :: lookups s)).
  { constructor; [ | exact Hnd]. intros Hin.
    apply list_elem_of_In in Hin.
    destruct (Hlog _ Hin) as [(n & Hn & _) | [(i & Hi & Hc) | (i & Hi & _)]].
    - symmetry in Hn. now apply prefix_not_formulations in Hn.
    - apply append_cancel, append_cancel in Hi. subst i.
      rewrite Hmiss in Hc. now destruct Hc.
    - apply append_cancel in Hi. discriminate. }
  destruct (customers db !! (prefix, id)) as [info |]; [ | exact Hnew].
  split; [exact Hnew | ]. cbn. intros path [<- | Hin].
  - right. left. exists id. split; [reflexivity | ].
    rewrite lookup_insert_eq. eauto.
  - destruct (Hlog _ Hin) as [H | [(i & Hi & Hc) | H]]; [auto | | auto].
    right. left. exists i. split; [exact Hi | ].
    apply lookup_insert_is_Some. destruct (decide (id = i)); auto.
Qed.

Lemma tidy_get_supplier_distance db id :
  tidy prefix (get_supplier_distance db prefix id).
Proof.
  intros s [Hnd Hlog]. unfold get_supplier_distance.
  destruct (supplier_cache s !! id) eqn:Hmiss; [now split | ].
  assert (Hnew : NoDup ((prefix ++ "/suppliers/" ++ id) :: lookups s)).
  { constructor; [ | exact Hnd]. intros Hin.
    apply list_elem_of_In in Hin.
    destruct (Hlog _ Hin) as [(n & Hn & _) | [(i & Hi & _) | (i & Hi & Hc)]].
    - symmetry in Hn. now apply prefix_not_formulations in Hn.
    - apply append_cancel in Hi. discriminate.
    - apply append_cancel, append_cancel in Hi. subst i.
      rewrite Hmiss in Hc. now destruct Hc. }
  destruct (suppliers db !! (prefix, id)) as [info |]; [ | exact Hnew].
  split; [exact Hnew | ]. cbn. intros path [<- | Hin].
  - right. right. exists id. split; [reflexivity | ].
    rewrite lookup_insert_eq. eauto.
  - destruct (Hlog _ Hin) as [H | [H | (i & Hi & Hc)]]; [auto | auto | ].
    right. right. exists i. split; [exact Hi | ].
    apply lookup_insert_is_Some. destruct (decide (id = i)); auto.
Qed.

Ltac tidy_steps :=
  repeat first
    [ apply tidy_ret | apply tidy_raise | apply tidy_lift
    | apply tidy_get_formulation | apply tidy_get_customer_distance
    | apply tidy_get_supplier_distance
    | apply tidy_bind; [ | intros ? ]
    | match goal with
      | |- tidy _ (if ?b then _ else _) => destruct b
      | |- tidy _ (match ?x with _ => _ end) => destruct x
      end ].

Lemma tidy_order_body db gc sc order l :
  tidy prefix (order_body db gc sc prefix order l).
Proof. unfold order_body, order_retired, order_transport. tidy_steps. Qed.

Lemma tidy_input_body db gc input l :
  tidy prefix (input_body db gc prefix input l).
Proof. unfold input_body. tidy_steps. Qed.

Lemma tidy_cost_body gc sc cost l : tidy prefix (cost_body gc sc cost l).
Proof. unfold cost_body. tidy_steps. Qed.

Lemma tidy_do_accounting db start_date end_date :
  tidy prefix (do_accounting db site start_date end_date).
Proof.
  unfold do_accounting. fold prefix.
  apply tidy_bind; [apply tidy_for_each; intros; apply tidy_order_body | intros l1].
  apply tidy_bind; [apply tidy_for_each; intros; apply tidy_input_body | intros l2].
  apply tidy_bind; [apply tidy_for_each; intros; apply tidy_cost_body | intros l3].
  apply tidy_bind; [apply tidy_for_each; intros; apply tidy_lift | intros total].
  apply tidy_ret.
Qed.

End Site.

(** X20.  A run in a fresh process fetches no formulation, customer or
    supplier document twice, whether it returns or raises: the log of
    store lookups it leaves holds each path once. *)
Theorem no_document_is_fetched_twice db site start_date end_date :
  NoDup (lookups (snd (do_accounting db site start_date end_date fresh_caches))).
Proof.
  pose proof (tidy_do_accounting site db start_date end_date fresh_caches) as H.
  assert (Hfresh : logged (collection_path_prefix site) fresh_caches).
  { split; [constructor | intros path []]. }
  specialize (H Hfresh).
  destruct (do_accounting db site start_date end_date fresh_caches)
    as [[r | e] s']; [exact (proj1 H) | exact H].
Qed.

(** Three orders of the same formulation for the same customer: one
    lookup of each. *)
Example three_orders_two_lookups :
  lookups
    (snd (do_accounting
            (Scenario.store
               [Scenario.order_F1; Scenario.order_cart; Scenario.order_F1] nil nil)
            "farm" Scenario.window_start Scenario.window_end fresh_caches))
  = ["sites/farm/customers/c1"; "formulations/F1"].
Proof. vm_compute. reflexivity. Qed.

End LogFacts.
